(** * build-tool: a shallow embedding of the pipeline engine

    The development follows the layout of the repository:

    - [Py]         values, strings and dictionaries as the Python code uses them;
    - [Rt]         the run-time: exceptions, the observable event log, the
                   boundary to the outside world (depot, file system, secret
                   store, shell) and the state-and-exception monad;
    - [ConfigPy]   [config/config.py];
    - [PerforcePy] [scm/perforce.py];
    - [ScmPy]      [scm/scm.py];
    - [ActionPy]   [action/action.py];
    - [EnginePy]   [engine.py];
    - [Obs]        what the properties observe in the event log;
    - [Fixture]    concrete depots, configurations and pipelines.

    Every call that leaves the process is recorded in one event log, in the
    order in which the code issues it, and is answered by the [boundary],
    which is a parameter of every definition: nothing is assumed about how
    the depot, the file system or the secret store behave.  The properties
    follow the definitions, module by module. *)

From Stdlib Require Import String Ascii List Bool ZArith Arith Lia DecimalString.
Import ListNotations.

Open Scope string_scope.
Open Scope list_scope.

Set Warnings "-register-all".

(* ===================================================================== *)
(** * Python values, strings and dictionaries *)
(* ===================================================================== *)

Module Py.

Infix "+++" := String.append (at level 60, right associativity).

(** The double quote character, for the messages that contain one. *)
Definition dq : string := String (ascii_of_nat 34) EmptyString.

(** Values as [toml.load] produces them; a table is a [dict] whose
    iteration order is the order of the association list. *)
Inductive pyval : Type :=
| PNone
| PBool (b : bool)
| PInt (z : Z)
| PStr (s : string)
| PList (l : list pyval)
| PDict (d : list (string * pyval)).

Definition dict : Type := list (string * pyval).

(** Truth value of an object, as [if x:] and [x or y] test it. *)
Definition truthy (v : pyval) : bool :=
  match v with
  | PNone => false
  | PBool b => b
  | PInt z => negb (Z.eqb z 0)
  | PStr s => negb (String.eqb s EmptyString)
  | PList l => match l with [] => false | _ => true end
  | PDict d => match d with [] => false | _ => true end
  end.

(** [d.get(k)] as an option, [d.get(k, default)] and [k in d]. *)
Fixpoint lookup (k : string) (d : dict) : option pyval :=
  match d with
  | [] => None
  | (k', v) :: d' => if String.eqb k' k then Some v else lookup k d'
  end.

Definition get (k : string) (default : pyval) (d : dict) : pyval :=
  match lookup k d with Some v => v | None => default end.

(** [d.pop(k)]: the dictionary without the key [k]. *)
Fixpoint remove (k : string) (d : dict) : dict :=
  match d with
  | [] => []
  | (k', v) :: d' => if String.eqb k' k then remove k d' else (k', v) :: remove k d'
  end.

(** [d[k] = v]: an existing key keeps its place, a new one goes last. *)
Fixpoint set (k : string) (v : pyval) (d : dict) : dict :=
  match d with
  | [] => [(k, v)]
  | (k', v') :: d' => if String.eqb k' k then (k', v) :: d' else (k', v') :: set k v d'
  end.

(** ** Strings: sequences of code points below 256 *)

(** [s.startswith(p)] *)
Fixpoint startswith (p s : string) : bool :=
  match p, s with
  | EmptyString, _ => true
  | String a p', String b s' => Ascii.eqb a b && startswith p' s'
  | String _ _, EmptyString => false
  end.

(** [s[n:]] *)
Fixpoint drop (n : nat) (s : string) : string :=
  match n, s with
  | O, _ => s
  | S n', String _ s' => drop n' s'
  | S _, EmptyString => EmptyString
  end.

(** [needle in hay] *)
Fixpoint contains (needle hay : string) : bool :=
  startswith needle hay
  || match hay with
     | EmptyString => false
     | String _ hay' => contains needle hay'
     end.

(** [str.isspace] on one character (code points below 256). *)
Definition isspace (c : ascii) : bool :=
  let n := nat_of_ascii c in
  (Nat.leb 9 n && Nat.leb n 13) || (Nat.leb 28 n && Nat.leb n 32)
  || Nat.eqb n 133 || Nat.eqb n 160.

Fixpoint lstrip (s : string) : string :=
  match s with
  | EmptyString => EmptyString
  | String c s' => if isspace c then lstrip s' else s
  end.

Fixpoint rstrip (s : string) : string :=
  match s with
  | EmptyString => EmptyString
  | String c s' =>
      match rstrip s' with
      | EmptyString => if isspace c then EmptyString else String c EmptyString
      | r => String c r
      end
  end.

(** [s.strip()] *)
Definition strip (s : string) : string := rstrip (lstrip s).

(** [s.split(sep)] for a one-character separator: never an empty list. *)
Fixpoint split (sep : ascii) (s : string) : list string :=
  match s with
  | EmptyString => [EmptyString]
  | String c s' =>
      if Ascii.eqb c sep then EmptyString :: split sep s'
      else match split sep s' with
           | x :: xs => String c x :: xs
           | [] => [String c EmptyString]
           end
  end.

(** [sep.join(l)] *)
Fixpoint join (sep : string) (l : list string) : string :=
  match l with
  | [] => EmptyString
  | [x] => x
  | x :: l' => x +++ sep +++ join sep l'
  end.

(** Does the character occur in the string? *)
Fixpoint occurs (c : ascii) (s : string) : bool :=
  match s with
  | EmptyString => false
  | String a s' => Ascii.eqb a c || occurs c s'
  end.

(** The first and the last character are not white space. *)
Definition no_leading_space (s : string) : bool :=
  match s with
  | EmptyString => false
  | String c _ => negb (isspace c)
  end.

Fixpoint no_trailing_space (s : string) : bool :=
  match s with
  | EmptyString => false
  | String c EmptyString => negb (isspace c)
  | String _ s' => no_trailing_space s'
  end.

End Py.

Export Py.

(* ===================================================================== *)
(** * Run-time: exceptions, events, the boundary and the monad *)
(* ===================================================================== *)

Module Rt.

(** The exceptions the code raises or lets through. *)
Inductive exn : Type :=
| P4Exception (msg : string)
| ValueError (msg : string)
| KeyError (arg : pyval)
| AttributeError (msg : string)
| TypeError (msg : string)
| RuntimeError (msg : string)
| OSError (msg : string)
| Exception (msg : string).

(** Everything the process does to the outside world, in program order.  A
    depot call carries the identity of the connection object that issues
    it; [P4Run c "sync" args] is [connection.run_sync( *args )]. *)
Inductive event : Type :=
| P4Connect (conn : nat)
| P4Disconnect (conn : nat)
| P4Run (conn : nat) (cmd : string) (args : list pyval)
| P4FetchClient (conn : nat) (name : pyval)
| P4SaveClient (conn : nat) (spec : dict)
| OsChdir (path : string)
| OsMakedirs (path : string)
| GlobGlob (pattern : string)
| VaultRead (mount : string) (path : option string)
| SubprocessRun (command : pyval)
| Stdout (line : string)
| Logging (level : string) (msg : string).

(** The outside world.  Each answer may depend on everything that happened
    before (the log at the time of the call).  [Some msg] is a raised
    exception with that text, [None] a normal return. *)
Record boundary : Type := {
  (** a depot call: [Some msg] raises [P4Exception(msg)] *)
  p4_reply : list event -> event -> option string;
  (** the spec [fetch_client] returns *)
  p4_client_spec : list event -> pyval -> dict;
  (** [os.chdir], [os.makedirs]: [Some msg] raises [OSError(msg)] *)
  chdir_reply : list event -> string -> option string;
  makedirs_reply : list event -> string -> option string;
  (** [glob.glob(pattern)] in the given working directory *)
  glob_glob : list event -> string -> string -> list string;
  (** [os.path.abspath(path)] in the given working directory *)
  abspath : string -> string -> string;
  (** [socket.gethostname()] *)
  gethostname : string;
  (** [read_secret_version(path, mount_point)['data']['data']]: the text of
      the exception it raises, or the secret's data *)
  vault_reply : list event -> string -> option string -> string + pyval;
  (** exit status of [subprocess.run(command, shell=True)]; a negative
      status [-n] is a child killed by signal [n] *)
  shell_reply : list event -> pyval -> Z;
  (** [repr(signal.Signals(n))], [None] where [signal.Signals(n)] raises
      [ValueError] *)
  signal_repr : Z -> option string;
  (** [repr(v)], which is [str(v)] for everything but a string *)
  py_repr : pyval -> string
}.

(** [str(ex)]; the text of a [KeyError] is the [repr] of its argument. *)
Definition exn_str (B : boundary) (e : exn) : string :=
  match e with
  | KeyError k => py_repr B k
  | P4Exception m | ValueError m | AttributeError m
  | TypeError m | RuntimeError m | OSError m | Exception m => m
  end.

(** The state of the process: working directory, the state of every
    connection object (by identity), the number of connection objects
    created so far, and the event log. *)
Record world : Type := {
  cwd : string;
  connected : nat -> bool;
  p4_client : nat -> option pyval;
  next_conn : nat;
  log : list event
}.

Definition record (e : event) (w : world) : world :=
  {| cwd := cwd w; connected := connected w; p4_client := p4_client w;
     next_conn := next_conn w; log := log w ++ [e] |}.

Definition set_cwd (d : string) (w : world) : world :=
  {| cwd := d; connected := connected w; p4_client := p4_client w;
     next_conn := next_conn w; log := log w |}.

Definition set_connected (c : nat) (b : bool) (w : world) : world :=
  {| cwd := cwd w;
     connected := fun c' => if Nat.eqb c' c then b else connected w c';
     p4_client := p4_client w; next_conn := next_conn w; log := log w |}.

Definition set_p4_client (c : nat) (name : pyval) (w : world) : world :=
  {| cwd := cwd w; connected := connected w;
     p4_client := fun c' => if Nat.eqb c' c then Some name else p4_client w c';
     next_conn := next_conn w; log := log w |}.

Definition fresh_conn (w : world) : world :=
  {| cwd := cwd w; connected := connected w; p4_client := p4_client w;
     next_conn := S (next_conn w); log := log w |}.

(** The events [w] has recorded beyond those of [w0]. *)
Definition since (w0 w : world) : list event := skipn (length (log w0)) (log w).

(** ** The monad: a computation returns or raises, and changes the world *)

Inductive result (A : Type) : Type :=
| Ok (a : A)
| Raise (e : exn).
Arguments Ok {A} a.
Arguments Raise {A} e.

Definition M (A : Type) : Type := world -> result A * world.

Definition ret {A} (a : A) : M A := fun w => (Ok a, w).

Definition raise {A} (e : exn) : M A := fun w => (Raise e, w).

Definition bind {A B} (m : M A) (k : A -> M B) : M B :=
  fun w =>
    match m w with
    | (Ok a, w') => k a w'
    | (Raise e, w') => (Raise e, w')
    end.

Notation "x <- c1 ;; c2" := (bind c1 (fun x => c2))
  (at level 61, c1 at next level, right associativity).
Notation "c1 ;; c2" := (bind c1 (fun _ => c2))
  (at level 61, right associativity).

(** [try: body / except <handled> as ex: handler(ex)]: [handler] answers
    [None] for an exception the clause does not name. *)
Definition try_except {A} (body : M A) (handler : exn -> option (M A)) : M A :=
  fun w =>
    match body w with
    | (Ok a, w') => (Ok a, w')
    | (Raise e, w') =>
        match handler e with
        | Some h => h w'
        | None => (Raise e, w')
        end
    end.

(** [try: body / finally: fin]: [fin] always runs; an exception it raises
    replaces the outcome of [body]. *)
Definition try_finally {A} (body : M A) (fin : M unit) : M A :=
  fun w =>
    match body w with
    | (r, w') =>
        match fin w' with
        | (Ok _, w'') => (r, w'')
        | (Raise e, w'') => (Raise e, w'')
        end
    end.

(** A [for] loop whose body updates a loop-carried value. *)
Fixpoint for_each {A S} (l : list A) (body : A -> S -> M S) (s : S) : M S :=
  match l with
  | [] => ret s
  | x :: l' => s' <- body x s ;; for_each l' body s'
  end.

Definition emit (e : event) : M unit := fun w => (Ok tt, record e w).

Definition logging (level msg : string) : M unit := emit (Logging level msg).

Definition print (line : string) : M unit := emit (Stdout line).

(** [str(v)] and the text an f-string puts for [{v}]. *)
Definition py_str (B : boundary) (v : pyval) : string :=
  match v with
  | PStr s => s
  | _ => py_repr B v
  end.

(** [type(v).__name__] *)
Definition type_name (v : pyval) : string :=
  match v with
  | PNone => "NoneType"
  | PBool _ => "bool"
  | PInt _ => "int"
  | PStr _ => "str"
  | PList _ => "list"
  | PDict _ => "dict"
  end.

(** [v.get], [v.items], [v.pop] need a dictionary. *)
Definition as_dict (v : pyval) (attr : string) : M dict :=
  match v with
  | PDict d => ret d
  | _ => raise (AttributeError
                  ("'" +++ type_name v +++ "' object has no attribute '" +++ attr +++ "'"))
  end.

(** [d.get(k, default)] and [d[k]] for a key that is any object: only a
    string can be a key of a table, a list or a dict is not hashable. *)
Definition get_key (k : pyval) (default : pyval) (d : dict) : M pyval :=
  match k with
  | PStr s => ret (get s default d)
  | PList _ | PDict _ => raise (TypeError ("unhashable type: '" +++ type_name k +++ "'"))
  | _ => ret default
  end.

Definition index_key (k : pyval) (d : dict) : M pyval :=
  match k with
  | PStr s =>
      match lookup s d with
      | Some v => ret v
      | None => raise (KeyError k)
      end
  | PList _ | PDict _ => raise (TypeError ("unhashable type: '" +++ type_name k +++ "'"))
  | _ => raise (KeyError k)
  end.

(** [d[k]] for a literal key. *)
Definition index (k : string) (d : dict) : M pyval :=
  index_key (PStr k) d.

(** The items a [for] loop over [v] visits: the elements of a list, the
    keys of a dict, the characters of a string. *)
Definition py_iter (v : pyval) : M (list pyval) :=
  match v with
  | PList l => ret l
  | PDict d => ret (map (fun kv => PStr (fst kv)) d)
  | PStr s => ret (map (fun ch => PStr (String ch EmptyString)) (list_ascii_of_string s))
  | _ => raise (TypeError ("'" +++ type_name v +++ "' object is not iterable"))
  end.

(** [v == s] for a string literal [s]. *)
Definition eq_str (v : pyval) (s : string) : bool :=
  match v with
  | PStr s' => String.eqb s' s
  | _ => false
  end.

(** A depot call: recorded, then answered by the boundary. *)
Definition p4_call (B : boundary) (e : event) : M unit :=
  fun w =>
    match p4_reply B (log w) e with
    | None => (Ok tt, record e w)
    | Some msg => (Raise (P4Exception msg), record e w)
    end.

(** [os.chdir(path)] *)
Definition chdir (B : boundary) (path : string) : M unit :=
  fun w =>
    match chdir_reply B (log w) path with
    | None => (Ok tt, record (OsChdir path) (set_cwd path w))
    | Some msg => (Raise (OSError msg), record (OsChdir path) w)
    end.

(** [os.getcwd()] *)
Definition getcwd : M string := fun w => (Ok (cwd w), w).

(** [os.makedirs(path, exist_ok=True)] *)
Definition makedirs (B : boundary) (path : string) : M unit :=
  fun w =>
    match makedirs_reply B (log w) path with
    | None => (Ok tt, record (OsMakedirs path) w)
    | Some msg => (Raise (OSError msg), record (OsMakedirs path) w)
    end.

(** [os.path.abspath(path)] *)
Definition os_abspath (B : boundary) (path : string) : M string :=
  fun w => (Ok (abspath B (cwd w) path), w).

End Rt.

Export Rt.

(* ===================================================================== *)
(** * config/config.py *)
(* ===================================================================== *)

Module ConfigPy.

(** A loaded [Config].  [_load_config] has read the file and has assigned
    into [self._config['main']], so that entry exists and is a table; the
    other top-level entries are [sections]. *)
Record Config : Type := {
  main : dict;
  sections : dict
}.

Definition _config (self : Config) : dict :=
  ("main", PDict (main self)) :: sections self.

Definition invalid_secret_format : string :=
  "Invalid secret format, secret should be in format: vault://<secret_engine>/<secret_path>#<secret_key>".

Section WithBoundary.

Variable B : boundary.

(** [get_main_config]: a copy of [self._config['main']]. *)
Definition get_main_config (self : Config) : M dict :=
  v <- index "main" (_config self) ;;
  as_dict v "get".

(** The call [client.secrets.kv.v2.read_secret_version(...)['data']['data']]. *)
Definition read_secret_version (mount : string) (path : option string) : M pyval :=
  fun w =>
    match vault_reply B (log w) mount path with
    | inr data => (Ok data, record (VaultRead mount path) w)
    | inl msg => (Raise (Exception msg), record (VaultRead mount path) w)
    end.

(** The [try] block of [_read_secret_from_vault] (lines 141-152): the lookup
    of [secret_key] in the secret stored at [secret_path] of [secret_mount]. *)
Definition lookup_secret (secret_mount : string) (secret_path : option string)
    (secret_key : string) : M pyval :=
  try_except
    (secret_data <- read_secret_version secret_mount secret_path ;;
     if negb (truthy secret_data) then
       raise (ValueError ("Secret not found at " +++
                match secret_path with Some p => p | None => "None" end))
     else
       d <- as_dict secret_data "get" ;;
       let secret := get secret_key PNone d in
       if negb (truthy secret) then
         raise (ValueError ("Secret don't have key " +++ secret_key))
       else ret secret)
    (fun ex => Some (raise (ValueError ("Error retrieving secret: " +++ exn_str B ex)))).

(** [_read_secret_from_vault(secret_address)] *)
Definition _read_secret_from_vault (self : Config) (secret_address : string) : M pyval :=
  m1 <- get_main_config self ;;
  let vault_addr := get "vault_address" PNone m1 in
  m2 <- get_main_config self ;;
  let vault_token := get "vault_token" PNone m2 in
  if negb (truthy vault_addr) then
    raise (ValueError (dq +++ "main.vault_address" +++ dq +++
                       " should be specified when using secrets"))
  else if negb (truthy vault_token) then
    raise (ValueError (dq +++ "main.vault_token" +++ dq +++
                       " should be specified when using secrets"))
  else
    (* client = hvac.Client(url=vault_addr, token=vault_token): no request *)
    let secret_address_parts := split "#" secret_address in
    let full_secret_path := nth 0 secret_address_parts EmptyString in
    let secret_key :=
      if Nat.ltb 1 (length secret_address_parts)
      then Some (nth 1 secret_address_parts EmptyString) else None in
    match secret_key with
    | None | Some EmptyString => raise (ValueError invalid_secret_format)
    | Some secret_key =>
        let secret_path_parts := split "/" full_secret_path in
        let secret_mount := nth 0 secret_path_parts EmptyString in
        let secret_path :=
          if Nat.ltb 1 (length secret_path_parts)
          then Some (join "/" (tl secret_path_parts)) else None in
        if String.eqb secret_mount EmptyString then
          raise (ValueError invalid_secret_format)
        else lookup_secret secret_mount secret_path secret_key
    end.

(** The body of the loop of [retrieve_secrets_from_vault] for one item. *)
Definition resolve_item (self : Config) (item : string * pyval)
    (config_section : dict) : M dict :=
  let (key, value) := item in
  match value with
  | PStr s =>
      if startswith "vault://" s then
        let secret_path := strip (drop (String.length "vault://") s) in
        secret_data <- _read_secret_from_vault self secret_path ;;
        ret (set key secret_data config_section)
      else ret config_section
  | _ => ret config_section
  end.

(** [retrieve_secrets_from_vault(config_section)] *)
Definition retrieve_secrets_from_vault (self : Config) (config_section : pyval) : M pyval :=
  d <- as_dict config_section "items" ;;
  d' <- for_each d (resolve_item self) d ;;
  ret (PDict d').

(** [_get_config_section(section, section_name)] *)
Definition _get_config_section (self : Config) (section : string)
    (section_name : pyval) : M pyval :=
  s <- as_dict (get section (PDict []) (_config self)) "get" ;;
  config_section <- get_key section_name (PDict []) s ;;
  if negb (truthy config_section) then
    raise (ValueError ("Missing " +++ section +++ " config with name " +++
                       dq +++ py_str B section_name +++ dq))
  else retrieve_secrets_from_vault self config_section.

(** [get_connection_config(name)] *)
Definition get_connection_config (self : Config) (name : pyval) : M pyval :=
  _get_config_section self "perforce_connection" name.

End WithBoundary.

(** The text [vault://<mount>/<path>#<key>]. *)
Definition reference (mount path key : string) : string :=
  "vault://" +++ mount +++ "/" +++ path +++ "#" +++ key.

(** Parts that the text above determines: the mount has no separator and
    the key no [#], the path no [#], and the text neither starts nor ends
    with white space (the mount and the key are not empty). *)
Definition well_formed_reference (mount path key : string) : bool :=
  no_leading_space mount && negb (occurs "/" mount) && negb (occurs "#" mount)
  && negb (occurs "#" path)
  && negb (occurs "#" key) && no_trailing_space key.

End ConfigPy.

(* ===================================================================== *)
(** * scm/perforce.py *)
(* ===================================================================== *)

Module PerforcePy.

(** [PerforceConnection]: the attributes [__init__] sets, and the identity
    of the object (its connection state lives in the [world]). *)
Record PerforceConnection : Type := {
  conn_id : nat;
  user : pyval;
  password : pyval;
  port : string
}.

Record PerforceSCM : Type := {
  depot_name : pyval;
  stream_name : pyval;
  client_root : string;
  client_name : pyval;
  sync_force : pyval;
  sync_clean : pyval;
  server_trust : pyval;
  _connection : PerforceConnection
}.

(** The two texts the code looks for in a depot error. *)
Definition up_to_date_text : string := "File(s) up-to-date.".
Definition nothing_to_reconcile_text : string := "no file(s) to reconcile".

Section WithBoundary.

Variable B : boundary.

(** [get_config()]: the configuration [load_config] stored for the process. *)
Variable the_config : ConfigPy.Config.

(** A new connection object: it is not connected. *)
Definition new_conn : M nat :=
  fun w => (Ok (next_conn w), set_connected (next_conn w) false (fresh_conn w)).

(** [PerforceConnection.__init__(connection_name)] *)
Definition PerforceConnection_init (connection_name : pyval) : M PerforceConnection :=
  c <- new_conn ;;
  cc <- ConfigPy.get_connection_config B the_config connection_name ;;
  connection_config <- as_dict cc "get" ;;
  username <- index "username" connection_config ;;
  passwd <- index "password" connection_config ;;
  server_host <- index "server_host" connection_config ;;
  let p4port := py_str B server_host +++ ":" +++
                py_str B (get "server_port" (PInt 1666) connection_config) in
  let p4port := if truthy (get "server_tls" (PBool false) connection_config)
                then "ssl:" +++ p4port else p4port in
  ret {| conn_id := c; user := username; password := passwd; port := p4port |}.

(** [_generate_client_name()] *)
Definition _generate_client_name : string := "BUILD-TOOL-" +++ gethostname B.

(** [PerforceSCM.__init__(scm_config)] *)
Definition PerforceSCM_init (scm_config : dict) : M PerforceSCM :=
  fields <-
    try_except
      (depot <- index "depot_name" scm_config ;;
       stream <- index "stream_name" scm_config ;;
       root <- index "client_root" scm_config ;;
       match root with
       | PStr r => abs <- os_abspath B r ;; ret (depot, stream, abs)
       | _ => raise (TypeError ("expected str, bytes or os.PathLike object, not "
                                +++ type_name root))
       end)
      (fun ex =>
         match ex with
         | KeyError _ =>
             Some (raise (KeyError (PStr ("Option " +++ exn_str B ex +++
                                          " is missing from scm configuration"))))
         | _ => None
         end) ;;
  let '(depot, stream, root) := fields in
  let name := get "client_name" (PStr _generate_client_name) scm_config in
  let force := get "sync_force" (PBool false) scm_config in
  let clean := get "sync_clean" (PBool true) scm_config in
  let trust := get "server_trust" (PBool true) scm_config in
  connection_config_name <- index "connection_config_name" scm_config ;;
  conn <- PerforceConnection_init connection_config_name ;;
  ret {| depot_name := depot; stream_name := stream; client_root := root;
         client_name := name; sync_force := force; sync_clean := clean;
         server_trust := trust; _connection := conn |}.

Section Methods.

Variable self : PerforceSCM.

Let c : nat := conn_id (_connection self).

Definition run_sync (args : list pyval) : M unit := p4_call B (P4Run c "sync" args).
Definition run_reconcile (args : list pyval) : M unit := p4_call B (P4Run c "reconcile" args).
Definition run_submit (args : list pyval) : M unit := p4_call B (P4Run c "submit" args).
Definition run_trust (args : list pyval) : M unit := p4_call B (P4Run c "trust" args).
Definition run_login : M unit := p4_call B (P4Run c "login" []).
Definition run_logout : M unit := p4_call B (P4Run c "logout" []).

(** [connection.connect()], [connection.disconnect()], [connection.connected()] *)
Definition p4_connect : M unit :=
  p4_call B (P4Connect c) ;; fun w => (Ok tt, set_connected c true w).

Definition p4_disconnect : M unit :=
  p4_call B (P4Disconnect c) ;; fun w => (Ok tt, set_connected c false w).

Definition p4_connected : M bool := fun w => (Ok (connected w c), w).

(** [connection.fetch_client(name)] *)
Definition fetch_client (name : pyval) : M dict :=
  fun w =>
    match p4_reply B (log w) (P4FetchClient c name) with
    | None => (Ok (p4_client_spec B (log w) name), record (P4FetchClient c name) w)
    | Some msg => (Raise (P4Exception msg), record (P4FetchClient c name) w)
    end.

(** [_create_client()] *)
Definition _create_client : M unit :=
  client <- fetch_client (client_name self) ;;
  let client := set "Stream" (PStr ("//" +++ py_str B (depot_name self) +++ "/" +++
                                    py_str B (stream_name self))) client in
  let client := set "Root" (PStr (client_root self)) client in
  let client := set "Options" (PStr "rmdir allwrite") client in
  p4_call B (P4SaveClient c client) ;;
  (fun w => (Ok tt, set_p4_client c (client_name self) w)) ;;
  makedirs B (client_root self).

(** [_connect()] *)
Definition _connect : M unit :=
  p4_connect ;;
  (if truthy (server_trust self) then
     run_trust [PStr "-d"] ;;
     run_trust [PStr "-y"; PStr "-f"]
   else ret tt) ;;
  run_login ;;
  _create_client.

(** The part of [_in_client] between [try:] and [yield]. *)
Definition enter_client : M unit :=
  is_connected <- p4_connected ;;
  (if negb is_connected then _connect else ret tt) ;;
  chdir B (client_root self).

(** [with self._in_client(): body] *)
Definition _in_client {A} (body : M A) : M A :=
  previous_dir <- getcwd ;;
  try_finally
    (enter_client ;; body)
    (chdir B previous_dir).

(** The arguments of both sync calls of [checkout]. *)
Definition sync_args (revision : pyval) : list pyval :=
  (if truthy (sync_force self) then [PStr "-f"] else [])
  ++ (if truthy revision then [PStr ("@" +++ py_str B revision)] else []).

(** The body of the [with] block of [checkout]. *)
Definition checkout_body (revision : pyval) : M unit :=
  let args := sync_args revision in
  in_sync <-
    try_except
      (run_sync (PStr "-n" :: args) ;; ret false)
      (fun ex =>
         match ex with
         | P4Exception msg =>
             Some (if contains up_to_date_text msg then
                     logging "INFO" "Workspace is in sync with depot" ;; ret true
                   else raise ex)
         | _ => None
         end) ;;
  (if negb in_sync || truthy (sync_force self) then run_sync args else ret tt) ;;
  (if truthy (sync_clean self) then
     ret tt  (* pass: the call of run_clean is commented out *)
   else ret tt).

(** [checkout(revision=None)] *)
Definition checkout (revision : pyval) : M unit :=
  _in_client (checkout_body revision).

(** [cleanup()] *)
Definition cleanup : M unit :=
  run_logout ;;
  p4_disconnect.

(** [glob.glob(file_path)] *)
Definition glob (file_path : string) : M (list string) :=
  fun w => (Ok (glob_glob B (log w) (cwd w) file_path), record (GlobGlob file_path) w).

(** The body of the inner loop of [upload] for one matching file. *)
Definition upload_file (file : string) (has_changes : bool) : M bool :=
  modified <-
    try_except
      (path <- os_abspath B file ;;
       run_reconcile [PStr "-n"; PStr path] ;;
       ret true)
      (fun ex =>
         match ex with
         | P4Exception msg =>
             Some (if contains nothing_to_reconcile_text msg then
                     logging "DEBUG" ("File " +++ file +++ " not changed, not submitting") ;;
                     ret false
                   else raise ex)
         | _ => None
         end) ;;
  if modified then
    path <- os_abspath B file ;;
    run_reconcile [PStr path] ;;
    logging "DEBUG" ("Reconciled " +++ file) ;;
    ret true
  else ret has_changes.

(** The body of the outer loop of [upload] for one path pattern. *)
Definition upload_path (file_path : string) (has_changes : bool) : M bool :=
  matching_files <- glob file_path ;;
  match matching_files with
  | [] => logging "WARNING" ("Invalid path to submit: " +++ file_path) ;; ret has_changes
  | _ => for_each matching_files upload_file has_changes
  end.

(** The body of the [with] block of [upload]. *)
Definition upload_body (paths : list string) (message : pyval) : M unit :=
  has_changes <- for_each paths upload_path false ;;
  if has_changes then run_submit [PStr "-d"; message]
  else logging "INFO" "Nothing to submit".

(** [upload(paths=None, message=None)] *)
Definition upload (paths : option (list string)) (message : pyval) : M unit :=
  let paths := match paths with Some l => l | None => [] end in
  _in_client (upload_body paths message).

End Methods.

End WithBoundary.

End PerforcePy.

(* ===================================================================== *)
(** * scm/scm.py *)
(* ===================================================================== *)

Module ScmPy.

Record SCM : Type := {
  scm : PerforcePy.PerforceSCM
}.

Section WithBoundary.

Variable B : boundary.
Variable the_config : ConfigPy.Config.

(** [SCM.__init__(scm_config)] *)
Definition SCM_init (scm_config : pyval) : M SCM :=
  d <- as_dict scm_config "pop" ;;
  let scm_type := get "type" PNone d in
  let d := remove "type" d in
  if eq_str scm_type "perforce" then
    s <- PerforcePy.PerforceSCM_init B the_config d ;;
    ret {| scm := s |}
  else raise (ValueError ("Invalid scm_type: " +++ py_str B scm_type)).

(** [SCM.checkout(revision=None)] *)
Definition checkout (self : SCM) (revision : pyval) : M unit :=
  PerforcePy.checkout B (scm self) revision.

(** [SCM.cleanup()] *)
Definition cleanup (self : SCM) : M unit :=
  PerforcePy.cleanup B (scm self).

(** [SCM.upload()]: it has no parameter, and calls [self.scm.upload()]
    with none, so that [paths] and [message] are both [None] there. *)
Definition upload (self : SCM) : M unit :=
  PerforcePy.upload B (scm self) None PNone.

End WithBoundary.

End ScmPy.

(* ===================================================================== *)
(** * action/action.py *)
(* ===================================================================== *)

Module ActionPy.

(** The three handler classes, with the attributes their [__init__] sets. *)
Inductive handler : Type :=
| SCMCheckoutAction (scm : ScmPy.SCM) (revision : pyval)
| SCMUploadAction (scm : ScmPy.SCM) (message : pyval)
| CommandAction (commands : pyval).

(** An [Action] whose [__init__] returned: [self.action] and
    [self.action.name]. *)
Record Action : Type := {
  action : handler;
  name : pyval
}.

Definition _DEFAULT_SUBMIT_MESSAGE : string := "Auto-generated commit".

Section WithBoundary.

Variable B : boundary.
Variable the_config : ConfigPy.Config.

(** [BaseSCMAction.__init__(build, action_config)]; [scms] is [build.scms]. *)
Definition BaseSCMAction_init (scms : dict) (action_config : pyval) : M ScmPy.SCM :=
  d <- as_dict action_config "get" ;;
  let scm_name := get "scm_name" PNone d in
  if negb (truthy scm_name) then
    raise (ValueError "scm_name is required for SCM Action")
  else
    try_except
      (scm_config <- index_key scm_name scms ;;
       ScmPy.SCM_init B the_config scm_config)
      (fun ex =>
         match ex with
         | KeyError _ =>
             Some (raise (KeyError (PStr ("Unknown SCM config " +++ dq +++
                                          exn_str B ex +++ dq +++ "."))))
         | _ => None
         end).

(** [BaseSCMAction.execute()] *)
Definition BaseSCMAction_execute (scm : ScmPy.SCM) : M unit :=
  ScmPy.cleanup B scm.

(** [SCMCheckoutAction.__init__(build, action_config, revision=None)] *)
Definition SCMCheckoutAction_init (scms : dict) (action_config : pyval)
    (revision : pyval) : M handler :=
  s <- BaseSCMAction_init scms action_config ;;
  ret (SCMCheckoutAction s revision).

(** [SCMUploadAction.__init__(build, action_config)] *)
Definition SCMUploadAction_init (scms : dict) (action_config : pyval) : M handler :=
  s <- BaseSCMAction_init scms action_config ;;
  d <- as_dict action_config "get" ;;
  let m := get "message" PNone d in
  ret (SCMUploadAction s (if truthy m then m else PStr _DEFAULT_SUBMIT_MESSAGE)).

(** [CommandAction.__init__(build, action_config)] *)
Definition CommandAction_init (action_config : pyval) : M handler :=
  d <- as_dict action_config "get" ;;
  ret (CommandAction (get "commands" PNone d)).

(** The arguments [subprocess.Popen] makes of [command]: a text is the
    command line itself; any other value goes through [list(args)], so an
    int, a bool or [None] is refused as not iterable, and the items of a
    list (the keys, for a dict) are handed to the shell, which takes texts
    only.  The result is the text of the [TypeError], raised before any
    process is started. *)
Fixpoint first_non_text (items : list pyval) : option pyval :=
  match items with
  | [] => None
  | PStr _ :: rest => first_non_text rest
  | v :: _ => Some v
  end.

Definition popen_error (command : pyval) : option string :=
  match command with
  | PStr _ | PDict _ => None
  | PList items =>
      match first_non_text items with
      | Some v => Some ("expected str, bytes or os.PathLike object, not "
                        +++ type_name v)
      | None => None
      end
  | PNone | PBool _ | PInt _ =>
      Some ("'" +++ type_name command +++ "' object is not iterable")
  end.

(** [str(e)] of the [CalledProcessError] for a command and its status. *)
Definition called_process_error_str (command : pyval) (status : Z) : string :=
  if Z.ltb status 0 then
    match signal_repr B (- status) with
    | Some name => "Command '" +++ py_str B command +++ "' died with " +++ name +++ "."
    | None => "Command '" +++ py_str B command +++ "' died with unknown signal "
              +++ py_str B (PInt (- status)) +++ "."
    end
  else
    "Command '" +++ py_str B command +++ "' returned non-zero exit status "
    +++ py_str B (PInt status) +++ ".".

(** [subprocess.run(command, shell=True, check=True)] inside its [try],
    which catches [CalledProcessError] only. *)
Definition run_command (command : pyval) : M unit :=
  fun w =>
    match popen_error command with
    | Some msg => (Raise (TypeError msg), w)
    | None =>
        let status := shell_reply B (log w) command in
        if Z.eqb status 0 then (Ok tt, record (SubprocessRun command) w)
        else (Raise (RuntimeError ("Command execution failed: " +++
                                   called_process_error_str command status)),
              record (SubprocessRun command) w)
    end.

(** The [execute] method of each handler class. *)
Definition handler_execute (h : handler) : M unit :=
  match h with
  | SCMCheckoutAction scm revision =>
      ScmPy.checkout B scm revision ;;
      BaseSCMAction_execute scm
  | SCMUploadAction scm _ =>
      ScmPy.upload B scm ;;
      BaseSCMAction_execute scm
  | CommandAction commands =>
      l <- py_iter commands ;;
      for_each l (fun command _ => run_command command) tt
  end.

(** The loop of [Action.__init__] over the items of the action's table:
    the first key that names a kind constructs the handler and ends the
    loop; [None] when the loop ends without having set [self.action]. *)
Fixpoint construct (scms : dict) (items : dict) : M (option handler) :=
  match items with
  | [] => ret None
  | (key, value) :: rest =>
      if String.eqb key "checkout" then
        h <- SCMCheckoutAction_init scms value PNone ;; ret (Some h)
      else if String.eqb key "command" then
        h <- CommandAction_init value ;; ret (Some h)
      else if String.eqb key "upload" then
        h <- SCMUploadAction_init scms value ;; ret (Some h)
      else construct scms rest
  end.

(** [Action.__init__(build, action_config)].  No class of the hierarchy
    defines an attribute [action], so reading [self.action] after a loop
    that assigned nothing raises [AttributeError]. *)
Definition Action_init (scms : dict) (action_config : pyval) : M Action :=
  d <- as_dict action_config "pop" ;;
  action_name <- index "name" d ;;
  let d := remove "name" d in
  a <- construct scms d ;;
  match a with
  | None => raise (AttributeError "'Action' object has no attribute 'action'")
  | Some h => ret {| action := h; name := action_name |}
  end.

(** [Action.execute()] *)
Definition execute (self : Action) : M unit :=
  print ("Started action '" +++ py_str B (name self) +++ "'.") ;;
  handler_execute (action self) ;;
  print ("Action '" +++ py_str B (name self) +++ "' completed successfully.").

End WithBoundary.

End ActionPy.

(* ===================================================================== *)
(** * engine.py *)
(* ===================================================================== *)

Module EnginePy.

Record Build : Type := {
  scms : dict;
  actions : list ActionPy.Action
}.

Section WithBoundary.

Variable B : boundary.
Variable the_config : ConfigPy.Config.

(** The loop of [load_pipeline] that fills [self.scms]. *)
Definition add_scm (item : string * pyval) (scms : dict) : M dict :=
  let (scm_name, scm_config) := item in
  match lookup scm_name scms with
  | Some _ => raise (ValueError ("SCM with name " +++ scm_name +++ " already exists"))
  | None => ret (set scm_name scm_config scms)
  end.

(** [load_pipeline], from the table [toml.load] returned. *)
Definition load_pipeline (pipeline_config : dict) : M Build :=
  p <- as_dict (get "pipeline" (PDict []) pipeline_config) "get" ;;
  scms_configs <- as_dict (get "scms" (PList []) p) "items" ;;
  scms <- for_each scms_configs add_scm [] ;;
  p <- as_dict (get "pipeline" (PDict []) pipeline_config) "get" ;;
  actions_configs <- py_iter (get "actions" (PList []) p) ;;
  actions <- for_each actions_configs
               (fun action_config acc =>
                  a <- ActionPy.Action_init B the_config scms action_config ;;
                  ret (acc ++ [a]))
               [] ;;
  ret {| scms := scms; actions := actions |}.

(** [Build.run()] *)
Definition run_actions (l : list ActionPy.Action) : M unit :=
  for_each l (fun a _ => ActionPy.execute B a) tt.

Definition run (self : Build) : M unit := run_actions (actions self).

(** The script: [engine = Build(pipeline_file); engine.run()]. *)
Definition main (pipeline_config : dict) : M unit :=
  engine <- load_pipeline pipeline_config ;;
  run engine.

End WithBoundary.

End EnginePy.

(* ===================================================================== *)
(** * Observations on the event log *)
(* ===================================================================== *)

Module Obs.

(** The depot command an event runs, if it is a [run_<cmd>] call. *)
Definition p4_command (e : event) : option string :=
  match e with
  | P4Run _ cmd _ => Some cmd
  | _ => None
  end.

Definition runs_command (cmd : string) (e : event) : bool :=
  match p4_command e with
  | Some c => String.eqb c cmd
  | None => false
  end.

(** A sync call (the probe or the real one), a clean call, a submit call. *)
Definition is_sync : event -> bool := runs_command "sync".
Definition is_clean : event -> bool := runs_command "clean".
Definition is_submit : event -> bool := runs_command "submit".
Definition is_reconcile : event -> bool := runs_command "reconcile".

(** The files given to the real (not dry-run) reconcile calls: the files
    these calls open in the pending changelist of the workspace. *)
Definition reconciled_file (e : event) : list string :=
  match e with
  | P4Run _ cmd [PStr path] => if String.eqb cmd "reconcile" then [path] else []
  | _ => []
  end.

Definition reconciled_files (l : list event) : list string :=
  flat_map reconciled_file l.

(** The arguments of the submit calls. *)
Definition submit_call (e : event) : list (list pyval) :=
  match e with
  | P4Run _ cmd args => if String.eqb cmd "submit" then [args] else []
  | _ => []
  end.

Definition submit_calls (l : list event) : list (list pyval) :=
  flat_map submit_call l.

(** What the code makes of the answer to the probe [sync -n]. *)
Inductive probe_outcome : Type := UpToDate | NeedsSync | SyncFailed.

Definition classify_probe (reply : option string) : probe_outcome :=
  match reply with
  | None => NeedsSync
  | Some msg =>
      if contains PerforcePy.up_to_date_text msg then UpToDate else SyncFailed
  end.

(** What the code makes of the answer to [reconcile -n]. *)
Inductive reconcile_outcome : Type := Modified | Unchanged | ReconcileFailed.

Definition classify_reconcile (reply : option string) : reconcile_outcome :=
  match reply with
  | None => Modified
  | Some msg =>
      if contains PerforcePy.nothing_to_reconcile_text msg then Unchanged
      else ReconcileFailed
  end.

(** The events [upload] is expected to add for one file, for one path
    pattern and for all of them, given which files are modified and which
    files each pattern matches. *)
Section UploadEvents.

Variable c : nat.
Variable abs : string -> string.
Variable modified : string -> bool.
Variable expand : string -> list string.

Definition dry_reconcile (file : string) : event :=
  P4Run c "reconcile" [PStr "-n"; PStr (abs file)].

Definition real_reconcile (file : string) : event :=
  P4Run c "reconcile" [PStr (abs file)].

Definition file_events (file : string) : list event :=
  if modified file then
    [dry_reconcile file; real_reconcile file; Logging "DEBUG" ("Reconciled " +++ file)]
  else
    [dry_reconcile file;
     Logging "DEBUG" ("File " +++ file +++ " not changed, not submitting")].

Definition path_events (file_path : string) : list event :=
  GlobGlob file_path ::
  match expand file_path with
  | [] => [Logging "WARNING" ("Invalid path to submit: " +++ file_path)]
  | files => flat_map file_events files
  end.

End UploadEvents.

(** The events of connection set-up and of entering the workspace. *)
Definition is_setup (e : event) : bool :=
  match e with
  | P4Connect _ | P4FetchClient _ _ | P4SaveClient _ _
  | OsMakedirs _ | OsChdir _ => true
  | P4Run _ cmd _ => String.eqb cmd "trust" || String.eqb cmd "login"
  | _ => false
  end.

(** The key names one of the three kinds of action. *)
Definition names_kind (key : string) : bool :=
  String.eqb key "checkout" || String.eqb key "command" || String.eqb key "upload".

Definition is_logging (e : event) : bool :=
  match e with
  | Logging _ _ => true
  | _ => false
  end.

(** The handler object and the main work of a handler that owns a
    connection: what [execute] runs before [BaseSCMAction.execute]. *)
Definition scm_work (B : boundary) (h : ActionPy.handler)
  : option (ScmPy.SCM * M unit) :=
  match h with
  | ActionPy.SCMCheckoutAction scm revision => Some (scm, ScmPy.checkout B scm revision)
  | ActionPy.SCMUploadAction scm _ => Some (scm, ScmPy.upload B scm)
  | ActionPy.CommandAction _ => None
  end.

(** The reading "a clean-up error never reaches the caller": whenever the
    main work has returned and the clean-up raises, [execute] returns. *)
Definition cleanup_errors_contained (B : boundary) (h : ActionPy.handler)
    (w : world) : Prop :=
  forall scm work w1 e w2,
    scm_work B h = Some (scm, work) ->
    work w = (Ok tt, w1) ->
    ScmPy.cleanup B scm w1 = (Raise e, w2) ->
    fst (ActionPy.handler_execute B h w) = Ok tt.

(** The world after further events. *)
Definition extend (l : list event) (w : world) : world :=
  {| cwd := cwd w; connected := connected w; p4_client := p4_client w;
     next_conn := next_conn w; log := log w ++ l |}.

(** A computation only adds events that satisfy [P] to the log. *)
Definition emits {A} (P : event -> Prop) (m : M A) : Prop :=
  forall w, exists l, log (snd (m w)) = log w ++ l /\ Forall P l.

(** [self] with another value of the flag [sync_clean]. *)
Definition with_sync_clean (v : pyval) (self : PerforcePy.PerforceSCM)
  : PerforcePy.PerforceSCM :=
  {| PerforcePy.depot_name := PerforcePy.depot_name self;
     PerforcePy.stream_name := PerforcePy.stream_name self;
     PerforcePy.client_root := PerforcePy.client_root self;
     PerforcePy.client_name := PerforcePy.client_name self;
     PerforcePy.sync_force := PerforcePy.sync_force self;
     PerforcePy.sync_clean := v;
     PerforcePy.server_trust := PerforcePy.server_trust self;
     PerforcePy._connection := PerforcePy._connection self |}.

End Obs.

Export Obs.

(* ===================================================================== *)
(** * Concrete worlds, used to run the model *)
(* ===================================================================== *)

Module Fixture.

Definition repr (v : pyval) : string :=
  match v with
  | PNone => "None"
  | PBool true => "True"
  | PBool false => "False"
  | PStr s => "'" +++ s +++ "'"
  | PInt z => NilZero.string_of_int (Z.to_int z)
  | PList _ => "<list>"
  | PDict _ => "<dict>"
  end.

(** The secret store holds one secret, [app/db] in the mount [kv]. *)
Definition vault (mount : string) (path : option string) : string + pyval :=
  match path with
  | Some p =>
      if String.eqb mount "kv" && String.eqb p "app/db"
      then inr (PDict [("password", PStr "s3cret")])
      else inl "InvalidPath"
  | None => inl "InvalidPath"
  end.

(** The two signals the examples need. *)
Definition signals (n : Z) : option string :=
  if Z.eqb n 9%Z then Some "<Signals.SIGKILL: 9>"
  else if Z.eqb n 15%Z then Some "<Signals.SIGTERM: 15>"
  else None.

(** A boundary from the replies of the depot, the files a pattern matches
    and the exit status of a shell command; directories always exist. *)
Definition make (p4 : event -> option string) (files : string -> list string)
    (shell : pyval -> Z) : boundary :=
  {| p4_reply := fun _ e => p4 e;
     p4_client_spec := fun _ name => [("Client", name)];
     chdir_reply := fun _ _ => None;
     makedirs_reply := fun _ _ => None;
     glob_glob := fun _ _ pattern => files pattern;
     abspath := fun dir path =>
       if startswith "/" path then path else dir +++ "/" +++ path;
     gethostname := "builder01";
     vault_reply := fun _ mount path => vault mount path;
     shell_reply := fun _ command => shell command;
     signal_repr := signals;
     py_repr := repr |}.

Definition no_files (pattern : string) : list string := [].
Definition shell_ok (command : pyval) : Z := 0%Z.

(** A depot on which every call succeeds. *)
Definition p4_ok (e : event) : option string := None.

(** A depot whose workspace is at the head revision: the probe
    [sync -n ...] answers with the up-to-date text. *)
Definition p4_in_sync (e : event) : option string :=
  match e with
  | P4Run _ cmd (PStr flag :: _) =>
      if String.eqb cmd "sync" && String.eqb flag "-n"
      then Some "//depot/main/... - File(s) up-to-date." else None
  | _ => None
  end.

(** A depot on which [logout] fails. *)
Definition p4_logout_fails (e : event) : option string :=
  match e with
  | P4Run _ cmd _ =>
      if String.eqb cmd "logout" then Some "Perforce password (P4PASSWD) invalid or unset."
      else None
  | _ => None
  end.

(** A depot on which the probe of [sync] fails for another reason. *)
Definition p4_sync_fails (e : event) : option string :=
  match e with
  | P4Run _ cmd _ =>
      if String.eqb cmd "sync" then Some "Connect to server failed; check $P4PORT."
      else None
  | _ => None
  end.

(** Three files under the workspace, of which [b.txt] is unchanged. *)
Definition three_files (pattern : string) : list string :=
  if String.eqb pattern "out/*.txt" then ["out/a.txt"; "out/b.txt"]
  else if String.eqb pattern "c.bin" then ["c.bin"]
  else [].

Definition p4_b_unchanged (e : event) : option string :=
  match e with
  | P4Run _ cmd [PStr flag; PStr path] =>
      if String.eqb cmd "reconcile" && String.eqb flag "-n" && String.eqb path "/ws/out/b.txt"
      then Some "/ws/out/b.txt - no file(s) to reconcile." else None
  | _ => None
  end.

Definition the_config : ConfigPy.Config :=
  {| ConfigPy.main := [("ci_home", PStr "/home/build/ci_home");
                       ("vault_address", PStr "https://vault.example:8200");
                       ("vault_token", PStr "t0ken")];
     ConfigPy.sections :=
       [("perforce_connection",
         PDict [("default",
                 PDict [("username", PStr "builder");
                        ("password", PStr "vault://kv/app/db#password");
                        ("server_host", PStr "p4.example")])])] |}.

Definition scm_main : pyval :=
  PDict [("type", PStr "perforce");
         ("depot_name", PStr "depot");
         ("stream_name", PStr "main");
         ("client_root", PStr "/ws");
         ("client_name", PStr "builder-ws");
         ("connection_config_name", PStr "default")].

(** The state of a process that has just started. *)
Definition w0 : world :=
  {| cwd := "/home/build"; connected := fun _ => false;
     p4_client := fun _ => None; next_conn := 0; log := [] |}.

(** A workspace handler as [PerforceSCM.__init__] builds it from [scm_main]. *)
Definition scm0 (force : bool) : PerforcePy.PerforceSCM :=
  {| PerforcePy.depot_name := PStr "depot";
     PerforcePy.stream_name := PStr "main";
     PerforcePy.client_root := "/ws";
     PerforcePy.client_name := PStr "builder-ws";
     PerforcePy.sync_force := PBool force;
     PerforcePy.sync_clean := PBool true;
     PerforcePy.server_trust := PBool true;
     PerforcePy._connection :=
       {| PerforcePy.conn_id := 0; PerforcePy.user := PStr "builder";
          PerforcePy.password := PStr "s3cret"; PerforcePy.port := "p4.example:1666" |} |}.

(** The handler object [SCM(scm_main)] holds. *)
Definition scm_handle : ScmPy.SCM := {| ScmPy.scm := scm0 false |}.

(** A pipeline with one action over the workspace [main]. *)
Definition pipeline_of (action : dict) : dict :=
  [("pipeline",
    PDict [("scms", PDict [("main", scm_main)]);
           ("actions", PList [PDict action])])].

(** A checkout action that asks for the revision [1234]. *)
Definition pipeline_checkout : dict :=
  pipeline_of [("name", PStr "sync");
               ("checkout", PDict [("scm_name", PStr "main");
                                   ("revision", PStr "1234")])].

(** An upload action without a message. *)
Definition pipeline_upload : dict :=
  pipeline_of [("name", PStr "publish");
               ("upload", PDict [("scm_name", PStr "main")])].

(** An action of an unknown kind, and an action without any kind. *)
Definition pipeline_unknown_kind : dict :=
  pipeline_of [("name", PStr "deploy");
               ("deploy", PDict [("target", PStr "production")])].

Definition pipeline_no_kind : dict :=
  pipeline_of [("name", PStr "idle")].

(** A shell in which [exit 1] fails and everything else succeeds. *)
Definition shell_exit (command : pyval) : Z :=
  if eq_str command "exit 1" then 1%Z else 0%Z.

Definition action_build : ActionPy.Action :=
  {| ActionPy.action := ActionPy.CommandAction (PList [PStr "make all"]);
     ActionPy.name := PStr "build" |}.

Definition action_fail : ActionPy.Action :=
  {| ActionPy.action := ActionPy.CommandAction (PList [PStr "exit 1"]);
     ActionPy.name := PStr "check" |}.

Definition action_after : ActionPy.Action :=
  {| ActionPy.action := ActionPy.CommandAction (PList [PStr "make install"]);
     ActionPy.name := PStr "install" |}.

End Fixture.

(* ===================================================================== *)
(** * config/config.py: loading *)
(* ===================================================================== *)

Module ConfigLoadPy.

Definition ALLOWED_CHANGES_COLLECTION_MODES : list string :=
  ["timestamp"; "changelist"].

(** [mode in ALLOWED_CHANGES_COLLECTION_MODES] *)
Definition allowed_mode (mode : pyval) : bool :=
  existsb (eq_str mode) ALLOWED_CHANGES_COLLECTION_MODES.

Section WithBoundary.

Variable B : boundary.

(** [Config.__init__(config_path)] with [_load_config()].  [file] is what
    is at the absolute path: nothing, or the table [toml.load] returns for
    it.  ([FileNotFoundError] is a subclass of [OSError].)  The entries
    other than [main] become the [sections] of the loaded configuration. *)
Definition _load_config (config_path : string) (file : string -> option dict)
  : M ConfigPy.Config :=
  path <- os_abspath B config_path ;;
  match file path with
  | None => raise (OSError ("Config file not found: " +++ path))
  | Some _config =>
      m <- index "main" _config ;;
      main <- as_dict m "get" ;;
      ci_home <-
        match get "ci_home" (PStr "./ci_home") main with
        | PStr p => os_abspath B p
        | v => raise (TypeError ("expected str, bytes or os.PathLike object, not "
                                 +++ type_name v))
        end ;;
      let main := set "ci_home" (PStr ci_home) main in
      let changes_collection_mode :=
        get "changes_collection_mode" (PStr "timestamp") main in
      if negb (allowed_mode changes_collection_mode) then
        raise (ValueError
                 ("Invalid value for " +++ dq +++ "changes_collection_mode" +++ dq +++
                  ": " +++ dq +++ py_str B changes_collection_mode +++ dq +++
                  ",valid options are: ['timestamp', 'changelist']"))
      else
        ret {| ConfigPy.main := main; ConfigPy.sections := remove "main" _config |}
  end.

(** [get_workspace_config(name)], [get_job_config(name)] *)
Definition get_workspace_config (self : ConfigPy.Config) (name : pyval) : M pyval :=
  ConfigPy._get_config_section B self "perforce_workspace" name.

Definition get_job_config (self : ConfigPy.Config) (name : pyval) : M pyval :=
  ConfigPy._get_config_section B self "job" name.

End WithBoundary.

End ConfigLoadPy.

(* ===================================================================== *)
(** * Further observations and concrete worlds *)
(* ===================================================================== *)

Module Obs2.

(** The value is a string that [retrieve_secrets_from_vault] resolves. *)
Definition is_reference (v : pyval) : bool :=
  match v with
  | PStr s => startswith "vault://" s
  | _ => false
  end.

Definition is_vault_read (e : event) : bool :=
  match e with
  | VaultRead _ _ => true
  | _ => false
  end.

Definition is_stdout (e : event) : bool :=
  match e with
  | Stdout _ => true
  | _ => false
  end.

Definition is_subprocess (e : event) : bool :=
  match e with
  | SubprocessRun _ => true
  | _ => false
  end.

(** Events of the depot, the file system and the shell: neither a printed
    line nor a read of the secret store. *)
Definition quiet (e : event) : Prop := is_stdout e = false /\ is_vault_read e = false.

(** The first of the options [PerforceSCM.__init__] requires that the
    table does not have. *)
Definition first_missing_option (scm_config : dict) : option string :=
  match lookup "depot_name" scm_config with
  | None => Some "depot_name"
  | Some _ =>
      match lookup "stream_name" scm_config with
      | None => Some "stream_name"
      | Some _ =>
          match lookup "client_root" scm_config with
          | None => Some "client_root"
          | Some _ => None
          end
      end
  end.

(** No key occurs twice, as in every table [toml.load] returns. *)
Fixpoint unique_keys (d : dict) : bool :=
  match d with
  | [] => true
  | (k, _) :: d' =>
      match lookup k d' with
      | None => unique_keys d'
      | Some _ => false
      end
  end.

(** The action was constructed from this table of the pipeline. *)
Definition constructed_from (action_config : pyval) (a : ActionPy.Action) : Prop :=
  exists d, action_config = PDict d /\ lookup "name" d = Some (ActionPy.name a).

(** The two lines [Action.execute] prints. *)
Definition started_line (B : boundary) (a : ActionPy.Action) : string :=
  "Started action '" +++ py_str B (ActionPy.name a) +++ "'.".

Definition completed_line (B : boundary) (a : ActionPy.Action) : string :=
  "Action '" +++ py_str B (ActionPy.name a) +++ "' completed successfully.".

(** The spec [_create_client] saves, from the one the depot returned. *)
Definition saved_client_spec (B : boundary) (self : PerforcePy.PerforceSCM)
    (fetched : dict) : dict :=
  set "Options" (PStr "rmdir allwrite")
    (set "Root" (PStr (PerforcePy.client_root self))
       (set "Stream"
          (PStr ("//" +++ py_str B (PerforcePy.depot_name self) +++ "/" +++
                 py_str B (PerforcePy.stream_name self)))
          fetched)).

(** The trust calls of [_connect]. *)
Definition trust_events (self : PerforcePy.PerforceSCM) : list event :=
  let c := PerforcePy.conn_id (PerforcePy._connection self) in
  if truthy (PerforcePy.server_trust self)
  then [P4Run c "trust" [PStr "-d"]; P4Run c "trust" [PStr "-y"; PStr "-f"]]
  else [].

(** The events of a [_connect] on which nothing fails, from the length of
    the log at its start. *)
Definition connect_events (B : boundary) (self : PerforcePy.PerforceSCM)
    (l : list event) : list event :=
  let c := PerforcePy.conn_id (PerforcePy._connection self) in
  let before_fetch := l ++ [P4Connect c] ++ trust_events self ++ [P4Run c "login" []] in
  [P4Connect c] ++ trust_events self ++
  [P4Run c "login" [];
   P4FetchClient c (PerforcePy.client_name self);
   P4SaveClient c (saved_client_spec B self
                     (p4_client_spec B before_fetch (PerforcePy.client_name self)));
   OsMakedirs (PerforcePy.client_root self)].

(** The commands a command action has run. *)
Definition commands_run (l : list event) : list pyval :=
  flat_map (fun e => match e with SubprocessRun c => [c] | _ => [] end) l.

End Obs2.

Export Obs2.

(** The depot's side of [run_reconcile] and [run_submit]: the pending
    changelist of the workspace.  [run_reconcile(path)] opens the file in
    it, unless it is open already; [run_submit('-d', message)], which
    names no file, submits every file open in it.  A call the depot
    refuses changes nothing.  The reply to a call is the boundary's, on
    the events before the call. *)
Module Depot.

Definition accepted (B : boundary) (history : list event) (e : event) : bool :=
  match p4_reply B history e with
  | None => true
  | Some _ => false
  end.

Definition open_file (opened : list string) (path : string) : list string :=
  if existsb (String.eqb path) opened then opened else opened ++ [path].

(** The files open after the call [e], [opened] being open before it. *)
Definition after_call (B : boundary) (history : list event) (opened : list string)
    (e : event) : list string :=
  if accepted B history e then
    if is_submit e then [] else fold_left open_file (reconciled_file e) opened
  else opened.

(** The files open after the events [l], which follow [history]. *)
Fixpoint pending (B : boundary) (history : list event) (opened : list string)
    (l : list event) : list string :=
  match l with
  | [] => opened
  | e :: l' => pending B (history ++ [e]) (after_call B history opened e) l'
  end.

(** For each submit call among [l], the files open when it is issued:
    the fileset it submits. *)
Fixpoint submit_filesets (B : boundary) (history : list event) (opened : list string)
    (l : list event) : list (list string) :=
  match l with
  | [] => []
  | e :: l' =>
      (if is_submit e then [opened] else [])
      ++ submit_filesets B (history ++ [e]) (after_call B history opened e) l'
  end.

End Depot.

Module Fixture2.

(** A depot on which [login] fails. *)
Definition p4_login_fails (e : event) : option string :=
  match e with
  | P4Run _ cmd _ =>
      if String.eqb cmd "login" then Some "Password invalid." else None
  | _ => None
  end.

(** A depot on which the probe of [out/b.txt] fails for another reason. *)
Definition p4_b_fails (e : event) : option string :=
  match e with
  | P4Run _ cmd [PStr flag; PStr path] =>
      if String.eqb cmd "reconcile" && String.eqb flag "-n" && String.eqb path "/ws/out/b.txt"
      then Some "Connection to server lost." else None
  | _ => None
  end.

(** A process whose connection object 0 is connected. *)
Definition w_connected : world :=
  {| cwd := "/home/build"; connected := fun c => Nat.eqb c 0;
     p4_client := fun _ => None; next_conn := 1; log := [] |}.

(** The configuration file of [Fixture.the_config], before loading. *)
Definition config_file (path : string) : option dict :=
  if String.eqb path "/home/build/config.toml" then
    Some [("main", PDict [("vault_address", PStr "https://vault.example:8200");
                          ("vault_token", PStr "t0ken")]);
          ("perforce_connection",
           PDict [("default",
                   PDict [("username", PStr "builder");
                          ("password", PStr "vault://kv/app/db#password");
                          ("server_host", PStr "p4.example")])])]
  else None.

(** A shell in which [kill -9 $$] is killed by signal 9 and everything
    else succeeds. *)
Definition shell_kill (command : pyval) : Z :=
  if eq_str command "kill -9 $$" then (-9)%Z else 0%Z.

Definition plain_boundary : boundary :=
  Fixture.make Fixture.p4_ok Fixture.no_files Fixture.shell_ok.

End Fixture2.

(* ===================================================================== *)
(** * Properties *)
(* ===================================================================== *)

(** ** Strings *)

Section StringFacts.

Lemma split_nonempty (c : ascii) (s : string) :
  exists x xs, split c s = x :: xs.
Proof.
  induction s as [|a s IH]; simpl.
  - now exists EmptyString, [].
  - destruct (Ascii.eqb a c).
    + now exists EmptyString, (split c s).
    + destruct IH as (x & xs & ->). now exists (String a x), xs.
Qed.

Lemma split_absent (c : ascii) (s : string) :
  occurs c s = false -> split c s = [s].
Proof.
  induction s as [|a s IH]; simpl; intros H; [reflexivity|].
  apply orb_false_iff in H as [Ha Hs].
  rewrite Ha, (IH Hs). reflexivity.
Qed.

Lemma split_at_first (c : ascii) (a b : string) :
  occurs c a = false -> split c (a +++ String c b) = a :: split c b.
Proof.
  induction a as [|x a IH]; simpl; intros H.
  - now rewrite Ascii.eqb_refl.
  - apply orb_false_iff in H as [Hx Ha].
    rewrite Hx, (IH Ha). reflexivity.
Qed.

Lemma join_split (c : ascii) (s : string) :
  join (String c EmptyString) (split c s) = s.
Proof.
  induction s as [|a s IH]; [reflexivity|].
  cbn [split].
  destruct (split_nonempty c s) as (x & xs & E). rewrite E in *.
  destruct (Ascii.eqb_spec a c) as [->|Hne].
  - change (String c (join (String c EmptyString) (x :: xs)) = String c s).
    now rewrite IH.
  - destruct xs as [|y ys].
    + cbn in *. now rewrite IH.
    + change (String a (x +++ String c EmptyString +++
                        join (String c EmptyString) (y :: ys)) = String a s).
      f_equal. exact IH.
Qed.

Lemma lstrip_fixed (s : string) :
  no_leading_space s = true -> lstrip s = s.
Proof.
  destruct s as [|a s]; simpl; [discriminate|].
  intros H. apply negb_true_iff in H. now rewrite H.
Qed.

Lemma rstrip_fixed (s : string) :
  no_trailing_space s = true -> rstrip s = s.
Proof.
  induction s as [|a s IH]; simpl; [discriminate|].
  destruct s as [|b s].
  - intros H. apply negb_true_iff in H. simpl. now rewrite H.
  - intros H. rewrite (IH H). reflexivity.
Qed.

Lemma rstrip_keeps_head (a : ascii) (s : string) :
  isspace a = false -> rstrip (String a s) = String a (rstrip s).
Proof.
  intros H. simpl. destruct (rstrip s); [now rewrite H | reflexivity].
Qed.

Lemma no_trailing_space_app (a b : string) :
  no_trailing_space b = true -> no_trailing_space (a +++ b) = true.
Proof.
  intros H. induction a as [|x a IH]; simpl; [assumption|].
  destruct (a +++ b) eqn:E; [|assumption].
  destruct a; simpl in E; [subst b; discriminate | discriminate].
Qed.

Lemma occurs_app (c : ascii) (a b : string) :
  occurs c (a +++ b) = occurs c a || occurs c b.
Proof.
  induction a as [|x a IH]; simpl; [reflexivity|].
  now rewrite IH, orb_assoc.
Qed.

End StringFacts.

(** ** The event log *)

Section LogFacts.

Lemma since_extends (w w' : world) (l : list event) :
  log w' = log w ++ l -> since w w' = l.
Proof.
  intros E. unfold since. rewrite E, skipn_app, skipn_all, Nat.sub_diag.
  reflexivity.
Qed.

Lemma extend_extend (l1 l2 : list event) (w : world) :
  extend l2 (extend l1 w) = extend (l1 ++ l2) w.
Proof. unfold extend. cbn. now rewrite app_assoc. Qed.

Lemma extend_nil (w : world) : extend [] w = w.
Proof. destruct w. unfold extend. cbn. now rewrite app_nil_r. Qed.

Lemma since_extend (l : list event) (w : world) : since w (extend l w) = l.
Proof. now apply since_extends. Qed.

Context {A : Type} (P : event -> Prop).

Lemma emits_silent (m : M A) :
  (forall w, log (snd (m w)) = log w) -> emits P m.
Proof.
  intros H w. exists []. rewrite H, app_nil_r. auto.
Qed.

Lemma emits_ret (a : A) : emits P (ret a).
Proof. now apply emits_silent. Qed.

Lemma emits_raise (e : exn) : emits P (raise e : M A).
Proof. now apply emits_silent. Qed.

Lemma emits_bind {X : Type} (m : M X) (k : X -> M A) :
  emits P m -> (forall x, emits P (k x)) -> emits P (bind m k).
Proof.
  intros Hm Hk w. unfold bind.
  destruct (Hm w) as (l1 & E1 & F1).
  destruct (m w) as [[x|e] w1]; cbn in E1.
  - destruct (Hk x w1) as (l2 & E2 & F2).
    exists (l1 ++ l2). rewrite E2, E1, app_assoc. split; [reflexivity|].
    now apply Forall_app.
  - exists l1. now split.
Qed.

Lemma emits_try_except (body : M A) (handler : exn -> option (M A)) :
  emits P body ->
  (forall e h, handler e = Some h -> emits P h) ->
  emits P (try_except body handler).
Proof.
  intros Hb Hh w. unfold try_except.
  destruct (Hb w) as (l1 & E1 & F1).
  destruct (body w) as [[x|e] w1]; cbn in E1.
  - exists l1. now split.
  - destruct (handler e) as [h|] eqn:Eh.
    + destruct (Hh e h Eh w1) as (l2 & E2 & F2).
      exists (l1 ++ l2). rewrite E2, E1, app_assoc. split; [reflexivity|].
      now apply Forall_app.
    + exists l1. now split.
Qed.

Lemma emits_try_finally (body : M A) (fin : M unit) :
  emits P body -> emits P fin -> emits P (try_finally body fin).
Proof.
  intros Hb Hf w. unfold try_finally.
  destruct (Hb w) as (l1 & E1 & F1).
  destruct (body w) as [r w1]; cbn in E1.
  destruct (Hf w1) as (l2 & E2 & F2).
  exists (l1 ++ l2).
  destruct (fin w1) as [[u|e] w2]; cbn in *;
    rewrite E2, E1, app_assoc; (split; [reflexivity | now apply Forall_app]).
Qed.

Lemma emits_for_each {X : Type} (l : list X) (body : X -> A -> M A) (s : A) :
  (forall x s, emits P (body x s)) -> emits P (for_each l body s).
Proof.
  intros Hb. revert s.
  induction l as [|x l IH]; intros s; cbn [for_each].
  - apply emits_ret.
  - apply emits_bind; [apply Hb | intros s'; apply IH].
Qed.

End LogFacts.

Section PrimitiveFacts.

Variable B : boundary.
Variable P : event -> Prop.

Lemma emits_one (e : event) (m : M unit) :
  P e -> (forall w, log (snd (m w)) = log w ++ [e]) -> emits P m.
Proof.
  intros He H w. exists [e]. split; [apply H | auto].
Qed.

Lemma emits_p4_call (e : event) : P e -> emits P (p4_call B e).
Proof.
  intros He. apply (emits_one e); [exact He|].
  intros w. unfold p4_call. now destruct (p4_reply B (log w) e).
Qed.

Lemma emits_chdir (path : string) : P (OsChdir path) -> emits P (chdir B path).
Proof.
  intros He. apply (emits_one (OsChdir path)); [exact He|].
  intros w. unfold chdir. now destruct (chdir_reply B (log w) path).
Qed.

Lemma emits_makedirs (path : string) :
  P (OsMakedirs path) -> emits P (makedirs B path).
Proof.
  intros He. apply (emits_one (OsMakedirs path)); [exact He|].
  intros w. unfold makedirs. now destruct (makedirs_reply B (log w) path).
Qed.

Lemma emits_logging (level msg : string) :
  P (Logging level msg) -> emits P (logging level msg).
Proof. intros He. now apply (emits_one (Logging level msg)). Qed.

End PrimitiveFacts.

(** ** config/config.py: secret references *)

Section SecretReferences.

Import ConfigPy.

Variable B : boundary.
Variable self : Config.

Lemma get_main_config_ok (w : world) :
  get_main_config self w = (Ok (main self), w).
Proof. reflexivity. Qed.

Lemma append_assoc (a b c : string) : (a +++ b) +++ c = a +++ (b +++ c).
Proof. induction a as [|x a IH]; simpl; [reflexivity | now rewrite IH]. Qed.

Lemma no_trailing_space_nonempty (s : string) :
  no_trailing_space s = true -> s <> EmptyString.
Proof. destruct s; [discriminate | discriminate]. Qed.

Lemma occurs_lstrip (c : ascii) (s : string) :
  occurs c s = false -> occurs c (lstrip s) = false.
Proof.
  induction s as [|a s IH]; simpl; [reflexivity|].
  intros H. destruct (isspace a); [|exact H].
  apply orb_false_iff in H as [_ Hs]. auto.
Qed.

Lemma occurs_rstrip (c : ascii) (s : string) :
  occurs c s = false -> occurs c (rstrip s) = false.
Proof.
  induction s as [|a s IH]; simpl; [reflexivity|].
  intros H. apply orb_false_iff in H as [Ha Hs].
  specialize (IH Hs).
  destruct (rstrip s) eqn:E.
  - destruct (isspace a); simpl; [reflexivity | now rewrite Ha].
  - simpl in *. now rewrite Ha, IH.
Qed.

(** A well-formed address is cut into its three parts, which go to the
    lookup unchanged. *)
Lemma read_secret_well_formed (mount path key : string) (w : world) :
  well_formed_reference mount path key = true ->
  truthy (get "vault_address" PNone (main self)) = true ->
  truthy (get "vault_token" PNone (main self)) = true ->
  _read_secret_from_vault B self (mount +++ "/" +++ path +++ "#" +++ key) w
  = lookup_secret B mount (Some path) key w.
Proof.
  unfold well_formed_reference.
  intros Hwf Haddr Htok.
  repeat (apply andb_true_iff in Hwf as [Hwf ?]).
  repeat match goal with H : negb _ = true |- _ => apply negb_true_iff in H end.
  unfold _read_secret_from_vault, bind.
  rewrite !get_main_config_ok, Haddr, Htok. cbn [negb].
  assert (E1 : split "#" (mount +++ "/" +++ path +++ "#" +++ key)
               = [mount +++ "/" +++ path; key]).
  { replace (mount +++ "/" +++ path +++ "#" +++ key)
      with ((mount +++ "/" +++ path) +++ String "#" key).
    - rewrite split_at_first.
      + now rewrite split_absent.
      + rewrite !occurs_app. simpl.
        now repeat match goal with H : occurs _ _ = false |- _ => rewrite H end.
    - now rewrite !append_assoc. }
  rewrite E1. cbn [length Nat.ltb Nat.leb nth].
  destruct key as [|k0 key']; [discriminate|].
  assert (E2 : split "/" (mount +++ "/" +++ path) = mount :: split "/" path).
  { change (mount +++ "/" +++ path) with (mount +++ String "/" path).
    now apply split_at_first. }
  rewrite E2.
  destruct (split_nonempty "/" path) as (x & xs & E3).
  cbn [length nth tl]. rewrite join_split, E3. cbn [length Nat.ltb Nat.leb].
  destruct mount as [|m0 mount']; [discriminate|].
  reflexivity.
Qed.

(** Without a [#] there is no key: the address is refused, nothing is read. *)
Lemma read_secret_without_key (address : string) (w : world) :
  occurs "#" address = false ->
  exists msg, _read_secret_from_vault B self address w = (Raise (ValueError msg), w).
Proof.
  intros H. unfold _read_secret_from_vault, bind.
  rewrite !get_main_config_ok.
  destruct (truthy (get "vault_address" PNone (main self))); cbn [negb];
    [|eexists; reflexivity].
  destruct (truthy (get "vault_token" PNone (main self))); cbn [negb];
    [|eexists; reflexivity].
  rewrite (split_absent _ _ H). cbn. eexists; reflexivity.
Qed.

(** An address that starts with the separator has an empty mount: it is
    refused as well, nothing is read. *)
Lemma read_secret_without_mount (rest : string) (w : world) :
  exists msg,
    _read_secret_from_vault B self (String "/" rest) w = (Raise (ValueError msg), w).
Proof.
  unfold _read_secret_from_vault, bind.
  rewrite !get_main_config_ok.
  destruct (truthy (get "vault_address" PNone (main self))); cbn [negb];
    [|eexists; reflexivity].
  destruct (truthy (get "vault_token" PNone (main self))); cbn [negb];
    [|eexists; reflexivity].
  cbn [split]. change (Ascii.eqb "/" "#") with false. cbn iota.
  destruct (split_nonempty "#" rest) as (x & xs & E). rewrite E.
  cbn [nth length].
  destruct xs as [|key xs]; cbn [length Nat.ltb Nat.leb nth];
    [eexists; reflexivity|].
  destruct key; [eexists; reflexivity|].
  cbn [split]. rewrite Ascii.eqb_refl. cbn. eexists; reflexivity.
Qed.

End SecretReferences.

Lemma lookup_secret_reads_once (B : boundary) (mount : string) (path : option string)
    (key : string) (w : world) :
  since w (snd (ConfigPy.lookup_secret B mount path key w)) = [VaultRead mount path].
Proof.
  assert (E : log (snd (ConfigPy.lookup_secret B mount path key w))
              = log w ++ [VaultRead mount path]).
  { unfold ConfigPy.lookup_secret, try_except, bind, ConfigPy.read_secret_version.
    destruct (vault_reply B (log w) mount path) as [msg|data]; [reflexivity|].
    destruct (truthy data); cbn [negb]; [|reflexivity].
    destruct data; try reflexivity.
    cbn. destruct (truthy (get key PNone d)); reflexivity. }
  unfold since. rewrite E, skipn_app, skipn_all, Nat.sub_diag. reflexivity.
Qed.

(** C8.  A reference [vault://<mount>/<path>#<key>] is resolved by reading
    the secret at <path> of <mount> once and taking the entry <key> of it;
    a reference that has no [#key] part, or whose mount is missing, raises
    [ValueError] (the code's configuration error) and nothing is read from
    the secret store. *)
Theorem secret_reference_resolution (B : boundary) (self : ConfigPy.Config)
    (k : string) (section : dict) (w : world) :
  (forall mount path key,
      ConfigPy.well_formed_reference mount path key = true ->
      truthy (get "vault_address" PNone (ConfigPy.main self)) = true ->
      truthy (get "vault_token" PNone (ConfigPy.main self)) = true ->
      ConfigPy.resolve_item B self (k, PStr (ConfigPy.reference mount path key)) section w
      = (secret <- ConfigPy.lookup_secret B mount (Some path) key ;;
         ret (set k secret section)) w
      /\ since w (snd (ConfigPy.lookup_secret B mount (Some path) key w))
         = [VaultRead mount (Some path)])
  /\ (forall rest,
         occurs "#" rest = false ->
         exists msg,
           ConfigPy.resolve_item B self (k, PStr ("vault://" +++ rest)) section w
           = (Raise (ValueError msg), w))
  /\ (forall rest,
         exists msg,
           ConfigPy.resolve_item B self (k, PStr ("vault:///" +++ rest)) section w
           = (Raise (ValueError msg), w)).
Proof.
  split; [|split].
  - intros mount path key Hwf Haddr Htok.
    split; [|apply lookup_secret_reads_once].
    unfold ConfigPy.resolve_item, ConfigPy.reference.
    cbn [String.append startswith Ascii.eqb Bool.eqb andb String.length drop].
    assert (Hs : strip (mount +++ String "/" (path +++ String "#" key))
                 = mount +++ "/" +++ path +++ "#" +++ key).
    { unfold ConfigPy.well_formed_reference in Hwf.
      repeat (apply andb_true_iff in Hwf as [Hwf ?]).
      unfold strip. rewrite lstrip_fixed.
      - apply rstrip_fixed.
        apply no_trailing_space_app.
        change (no_trailing_space (String "/" path +++ String "#" key) = true).
        apply no_trailing_space_app.
        destruct key; [discriminate | assumption].
      - destruct mount; [discriminate | exact Hwf]. }
    rewrite Hs. unfold bind at 1.
    rewrite (read_secret_well_formed B self mount path key w Hwf Haddr Htok).
    reflexivity.
  - intros rest H.
    unfold ConfigPy.resolve_item.
    cbn [String.append startswith Ascii.eqb Bool.eqb andb String.length drop].
    destruct (read_secret_without_key B self (strip rest) w) as [msg E].
    { unfold strip. now apply occurs_rstrip, occurs_lstrip. }
    exists msg. unfold bind. now rewrite E.
  - intros rest.
    unfold ConfigPy.resolve_item.
    cbn [String.append startswith Ascii.eqb Bool.eqb andb String.length drop].
    assert (Hs : strip (String "/" rest) = String "/" (rstrip rest)).
    { unfold strip. cbn [lstrip]. change (isspace "/") with false. cbn iota.
      now apply rstrip_keeps_head. }
    rewrite Hs.
    destruct (read_secret_without_mount B self (rstrip rest) w) as [msg E].
    exists msg. unfold bind. now rewrite E.
Qed.

(** The reference of the example, resolved against a store that holds it. *)
Lemma secret_reference_resolution_witness :
  ConfigPy.well_formed_reference "kv" "app/db" "password" = true
  /\ ConfigPy.resolve_item (Fixture.make Fixture.p4_ok Fixture.no_files Fixture.shell_ok)
       Fixture.the_config
       ("password", PStr "vault://kv/app/db#password")
       [("username", PStr "builder"); ("password", PStr "vault://kv/app/db#password")]
       Fixture.w0
     = (Ok [("username", PStr "builder"); ("password", PStr "s3cret")],
        record (VaultRead "kv" (Some "app/db")) Fixture.w0).
Proof.
  split; [reflexivity|].
  pose proof (proj1 (proj1 (secret_reference_resolution
                       (Fixture.make Fixture.p4_ok Fixture.no_files Fixture.shell_ok)
                       Fixture.the_config "password"
                       [("username", PStr "builder");
                        ("password", PStr "vault://kv/app/db#password")]
                       Fixture.w0)
                     "kv" "app/db" "password" eq_refl eq_refl eq_refl)) as E.
  etransitivity; [exact E | reflexivity].
Defined.

(** ** scm/perforce.py: the workspace context and [checkout] *)

Ltac emits_step :=
  first
    [ apply emits_ret
    | apply emits_raise
    | apply emits_p4_call
    | apply emits_chdir
    | apply emits_makedirs
    | apply emits_logging
    | apply emits_bind; [|intros ?]
    | apply emits_try_finally
    | apply emits_silent; intros; reflexivity ].

(** Reduces [since w w'] when the log of [w'] visibly extends that of [w]. *)
Ltac since_log :=
  unfold since; cbn [log snd fst record extend];
  rewrite <- ?app_assoc;
  rewrite skipn_app, skipn_all, Nat.sub_diag;
  cbn; try reflexivity.

Section CheckoutFacts.

Import PerforcePy.

Variable B : boundary.
Variable self : PerforceSCM.

Lemma setup_is_not_a_command (cmd : string) (e : event) :
  is_setup e = true ->
  String.eqb "trust" cmd = false -> String.eqb "login" cmd = false ->
  runs_command cmd e = false.
Proof.
  destruct e; cbn; try reflexivity.
  intros H Ht Hl. apply orb_true_iff in H as [H|H];
    apply String.eqb_eq in H; subst; assumption.
Qed.

Lemma _connect_setup : emits (fun e => is_setup e = true) (_connect B self).
Proof.
  unfold _connect, p4_connect, run_login, _create_client.
  repeat emits_step; try reflexivity.
  - destruct (truthy (server_trust self)); unfold run_trust;
      repeat emits_step; reflexivity.
  - intros w. unfold fetch_client.
    exists [P4FetchClient (conn_id (_connection self)) (client_name self)].
    split; [|auto].
    now destruct (p4_reply B (log w) _).
Qed.

Lemma enter_client_setup : emits (fun e => is_setup e = true) (enter_client B self).
Proof.
  unfold enter_client, p4_connected.
  repeat emits_step; try reflexivity.
  destruct (negb x); [apply _connect_setup | apply emits_ret].
Qed.

Lemma checkout_body_emits (P : event -> Prop) (revision : pyval) :
  (forall e, is_sync e = true -> P e) ->
  (forall level msg, P (Logging level msg)) ->
  emits P (checkout_body B self revision).
Proof.
  intros Hsync Hlog. unfold checkout_body, run_sync.
  apply emits_bind.
  - apply emits_try_except.
    + repeat emits_step. now apply Hsync.
    + intros e h Eh. destruct e; try discriminate.
      injection Eh as <-.
      destruct (contains up_to_date_text msg); repeat emits_step. apply Hlog.
  - intros in_sync. apply emits_bind.
    + destruct (negb in_sync || truthy (sync_force self)); repeat emits_step.
      now apply Hsync.
    + intros _. destruct (truthy (sync_clean self)); apply emits_ret.
Qed.

Lemma in_client_emits {A} (P : event -> Prop) (body : M A) :
  (forall e, is_setup e = true -> P e) ->
  emits P body ->
  emits P (_in_client B self body).
Proof.
  intros Hsetup Hbody. unfold _in_client, getcwd.
  apply emits_bind; [apply emits_silent; reflexivity|].
  intros previous_dir. apply emits_try_finally.
  - apply emits_bind; [|intros _; exact Hbody].
    intros w. destruct (enter_client_setup w) as (l & E & F).
    exists l. split; [exact E|].
    eapply Forall_impl; [|exact F]. exact Hsetup.
  - apply emits_chdir. now apply Hsetup.
Qed.

(** What [checkout_body] adds to the log when the probe does not fail. *)
Lemma checkout_body_log (revision : pyval) (w : world) :
  let c := conn_id (_connection self) in
  let args := sync_args B self revision in
  let probe := P4Run c "sync" (PStr "-n" :: args) in
  let outcome := classify_probe (p4_reply B (log w) probe) in
  outcome <> SyncFailed ->
  filter is_sync (since w (snd (checkout_body B self revision w)))
  = probe :: (if match outcome with NeedsSync => true | _ => false end
                 || truthy (sync_force self)
              then [P4Run c "sync" args] else []).
Proof.
  cbv zeta. intros Hout.
  unfold checkout_body, bind, try_except, run_sync, p4_call, classify_probe in *.
  set (args := sync_args B self revision) in *.
  set (c := conn_id (_connection self)) in *.
  destruct (p4_reply B (log w) (P4Run c "sync" (PStr "-n" :: args))) as [msg|].
  - destruct (contains up_to_date_text msg); [|congruence].
    cbn [ret logging emit negb orb].
    destruct (truthy (sync_force self)).
    + match goal with
      | |- context [p4_reply B ?l ?e] => destruct (p4_reply B l e)
      end;
      destruct (truthy (sync_clean self)); cbn;
      since_log.
    + destruct (truthy (sync_clean self)); cbn;
      since_log.
  - cbn [ret negb orb].
    match goal with
    | |- context [p4_reply B ?l ?e] => destruct (p4_reply B l e)
    end;
    destruct (truthy (sync_clean self)); cbn;
    since_log.
Qed.

End CheckoutFacts.

Section CheckoutLog.

Import PerforcePy.

Variable B : boundary.
Variable self : PerforceSCM.

Lemma setup_filtered (cmd : string) (l : list event) :
  String.eqb "trust" cmd = false -> String.eqb "login" cmd = false ->
  Forall (fun e => is_setup e = true) l ->
  filter (runs_command cmd) l = [].
Proof.
  intros Ht Hl F. induction F as [|e l He _ IH]; [reflexivity|].
  cbn. now rewrite (setup_is_not_a_command cmd e He Ht Hl).
Qed.

(** The log of an operation run inside the workspace context: the set-up,
    then what the body adds, then the return to the previous directory. *)
Lemma in_client_log {A} (body : M A) (w w1 : world) :
  enter_client B self w = (Ok tt, w1) ->
  (exists l, log (snd (body w1)) = log w1 ++ l) ->
  exists l1,
    Forall (fun e => is_setup e = true) l1
    /\ log w1 = log w ++ l1
    /\ since w (snd (_in_client B self body w))
       = l1 ++ since w1 (snd (body w1)) ++ [OsChdir (cwd w)].
Proof.
  intros Henter [l2 E2].
  destruct (enter_client_setup B self w) as (l1 & E1 & F1).
  rewrite Henter in E1. cbn in E1.
  exists l1. split; [exact F1|]. split; [exact E1|].
  unfold _in_client, getcwd, try_finally. unfold bind. rewrite Henter.
  rewrite (since_extends w1 _ l2 E2).
  destruct (body w1) as [r w2]. cbn in E2.
  apply since_extends. unfold chdir.
  destruct (chdir_reply B (log w2) (cwd w)); cbn;
    rewrite E2, E1, <- !app_assoc; reflexivity.
Qed.

Lemma checkout_body_extends (revision : pyval) (w : world) :
  exists l, log (snd (checkout_body B self revision w)) = log w ++ l.
Proof.
  destruct (checkout_body_emits B self (fun _ => True) revision
              (fun _ _ => I) (fun _ _ => I) w) as (l & E & _).
  now exists l.
Qed.

Lemma list_neq_cons {X} (x : X) (l : list X) : l <> x :: l.
Proof.
  intros E. apply (f_equal (@length X)) in E. cbn in E. lia.
Qed.

Lemma real_sync_issued (probe real : event) (cond : bool) :
  real <> probe ->
  In real (probe :: (if cond then [real] else [])) <-> cond = true.
Proof.
  intros Hne. destruct cond; cbn; intuition congruence.
Qed.

End CheckoutLog.

(** C2.  When the probe [sync -n] is reached and does not fail: if it
    answers "up to date" and [sync_force] is unset, the probe is the only
    sync call of the checkout; and the real sync call is issued exactly
    when the probe answered normally (the workspace needs a sync) or
    [sync_force] is set. *)
Theorem checkout_sync_calls (B : boundary) (self : PerforcePy.PerforceSCM)
    (revision : pyval) (w w1 : world) :
  let c := PerforcePy.conn_id (PerforcePy._connection self) in
  let args := PerforcePy.sync_args B self revision in
  let probe := P4Run c "sync" (PStr "-n" :: args) in
  let real := P4Run c "sync" args in
  let outcome := classify_probe (p4_reply B (log w1) probe) in
  let issued := filter is_sync (since w (snd (PerforcePy.checkout B self revision w))) in
  PerforcePy.enter_client B self w = (Ok tt, w1) ->
  outcome <> SyncFailed ->
  (outcome = UpToDate -> truthy (PerforcePy.sync_force self) = false -> issued = [probe])
  /\ (In real issued <-> outcome = NeedsSync \/ truthy (PerforcePy.sync_force self) = true).
Proof.
  cbv zeta. intros Henter Hout.
  unfold PerforcePy.checkout.
  destruct (in_client_log B self (PerforcePy.checkout_body B self revision) w w1 Henter
              (checkout_body_extends B self revision w1)) as (l1 & F1 & _ & E).
  rewrite E, !filter_app.
  rewrite (setup_filtered "sync" l1 eq_refl eq_refl F1 : filter is_sync l1 = []).
  rewrite (checkout_body_log B self revision w1 Hout).
  cbn [filter is_sync runs_command p4_command app].
  rewrite app_nil_r.
  set (c := PerforcePy.conn_id (PerforcePy._connection self)) in *.
  set (args := PerforcePy.sync_args B self revision) in *.
  set (outcome := classify_probe _) in *.
  split.
  - intros -> ->. reflexivity.
  - rewrite real_sync_issued.
    + destruct outcome, (truthy (PerforcePy.sync_force self)); cbn;
        intuition congruence.
    + intros H. injection H as H. now apply list_neq_cons in H.
Qed.

(** A workspace at the head revision, probed without [sync_force]. *)
Lemma checkout_sync_calls_witness :
  let B := Fixture.make Fixture.p4_in_sync Fixture.no_files Fixture.shell_ok in
  filter is_sync
    (since Fixture.w0 (snd (PerforcePy.checkout B (Fixture.scm0 false) PNone Fixture.w0)))
  = [P4Run 0 "sync" [PStr "-n"]].
Proof.
  intros B.
  refine (proj1 (checkout_sync_calls B (Fixture.scm0 false) PNone Fixture.w0
                   (snd (PerforcePy.enter_client B (Fixture.scm0 false) Fixture.w0))
                   eq_refl _) eq_refl eq_refl).
  vm_compute. discriminate.
Defined.

(** C9.  Whatever the value of [sync_clean], a checkout issues no clean
    call, and does exactly what it does for any other value of the flag. *)
Theorem sync_clean_is_ignored (B : boundary) (self : PerforcePy.PerforceSCM)
    (revision : pyval) (w : world) :
  forallb (fun e => negb (is_clean e))
    (since w (snd (PerforcePy.checkout B self revision w))) = true
  /\ forall v : pyval,
      PerforcePy.checkout B (with_sync_clean v self) revision w
      = PerforcePy.checkout B self revision w.
Proof.
  split.
  - assert (H : emits (fun e => is_clean e = false)
                  (PerforcePy.checkout B self revision)).
    { apply in_client_emits.
      - intros e He. now apply setup_is_not_a_command.
      - apply checkout_body_emits.
        + intros e He. destruct e; try discriminate.
          unfold is_sync, is_clean, runs_command in *. cbn in *.
          apply String.eqb_eq in He. now subst.
        + reflexivity. }
    destruct (H w) as (l & E & F).
    rewrite (since_extends _ _ _ E).
    apply forallb_forall. intros e He.
    rewrite Forall_forall in F. now rewrite (F e He).
  - intros v.
    unfold PerforcePy.checkout, PerforcePy._in_client, PerforcePy.checkout_body,
      with_sync_clean.
    cbn [PerforcePy.sync_clean].
    destruct (truthy v), (truthy (PerforcePy.sync_clean self)); reflexivity.
Qed.

(** C10.  When the previous working directory can still be entered, an
    operation run inside the workspace context leaves the working
    directory as it was, whether the operation returns or raises; its
    outcome is passed on, and the last thing done is the change back. *)
Theorem in_client_restores_cwd (B : boundary) (self : PerforcePy.PerforceSCM)
    (A : Type) (body : M A) (w : world) :
  (forall l, chdir_reply B l (cwd w) = None) ->
  let out := PerforcePy._in_client B self body w in
  cwd (snd out) = cwd w
  /\ fst out = fst ((PerforcePy.enter_client B self ;; body) w)
  /\ exists l, log (snd out) = l ++ [OsChdir (cwd w)].
Proof.
  intros Hback. cbv zeta.
  change (PerforcePy._in_client B self body w)
    with (try_finally (PerforcePy.enter_client B self ;; body) (chdir B (cwd w)) w).
  unfold try_finally.
  destruct ((PerforcePy.enter_client B self ;; body) w) as [r w1].
  unfold chdir. rewrite Hback. cbn.
  split; [reflexivity | split; [reflexivity | now exists (log w1)]].
Qed.

(** A checkout whose probe fails: the exception goes through, and the
    working directory is the one from before. *)
Lemma in_client_restores_cwd_witness :
  let B := Fixture.make Fixture.p4_sync_fails Fixture.no_files Fixture.shell_ok in
  let out := PerforcePy.checkout B (Fixture.scm0 false) PNone Fixture.w0 in
  fst out = Raise (P4Exception "Connect to server failed; check $P4PORT.")
  /\ cwd (snd out) = "/home/build".
Proof.
  intros B out.
  destruct (in_client_restores_cwd B (Fixture.scm0 false) unit
              (PerforcePy.checkout_body B (Fixture.scm0 false) PNone) Fixture.w0
              (fun _ => eq_refl)) as (Hcwd & Hout & _).
  split; [exact Hout | exact Hcwd].
Defined.

(** ** scm/perforce.py: [upload] *)

Section UploadFacts.

Import PerforcePy.

Variable B : boundary.
Variable self : PerforceSCM.
Variable modified : string -> bool.
Variable expand : string -> list string.

Let c : nat := conn_id (_connection self).

Lemma record_extend (e : event) (l : list event) (w : world) :
  record e (extend l w) = extend (l ++ [e]) w.
Proof. unfold record, extend. cbn. now rewrite app_assoc. Qed.

Lemma record_as_extend (e : event) (w : world) : record e w = extend [e] w.
Proof. reflexivity. Qed.

(** One file: the probe, and the real reconcile if the probe succeeds. *)
Lemma upload_file_run (file : string) (has_changes : bool) (w : world) :
  let abs := abspath B (cwd w) in
  (forall l, classify_reconcile (p4_reply B l (dry_reconcile c abs file))
             = if modified file then Modified else Unchanged) ->
  (forall l, modified file = true -> p4_reply B l (real_reconcile c abs file) = None) ->
  upload_file B self file has_changes w
  = (Ok (modified file || has_changes), extend (file_events c abs modified file) w).
Proof.
  cbv zeta. intros Hdry Hreal.
  unfold upload_file, bind, try_except, os_abspath, run_reconcile, p4_call.
  fold c. specialize (Hdry (log w)). unfold dry_reconcile in Hdry.
  unfold file_events.
  destruct (p4_reply B (log w) (P4Run c "reconcile" _)) as [msg|] eqn:E.
  - cbn in Hdry.
    destruct (contains nothing_to_reconcile_text msg); destruct (modified file);
      try discriminate.
    cbn [orb]. unfold logging, emit, bind, ret.
    now rewrite !record_as_extend, !extend_extend.
  - cbn in Hdry. destruct (modified file) eqn:Em; [|discriminate].
    cbn [ret].
    specialize (Hreal (log (record (P4Run c "reconcile"
                  [PStr "-n"; PStr (abspath B (cwd w) file)]) w)) eq_refl).
    unfold real_reconcile in Hreal. cbn [cwd record] in *. rewrite Hreal.
    cbn [orb]. unfold logging, emit, bind, ret.
    now rewrite !record_as_extend, !extend_extend.
Qed.

(** The inner loop. *)
Lemma upload_files_run (files : list string) (has_changes : bool) (w : world) :
  let abs := abspath B (cwd w) in
  (forall l f, In f files ->
     classify_reconcile (p4_reply B l (dry_reconcile c abs f))
     = if modified f then Modified else Unchanged) ->
  (forall l f, In f files -> modified f = true ->
     p4_reply B l (real_reconcile c abs f) = None) ->
  for_each files (upload_file B self) has_changes w
  = (Ok (existsb modified files || has_changes),
     extend (flat_map (file_events c abs modified) files) w).
Proof.
  cbv zeta. revert has_changes w.
  induction files as [|f files IH]; intros has_changes w Hdry Hreal.
  - cbn. now rewrite extend_nil.
  - cbn [for_each]. unfold bind.
    rewrite upload_file_run.
    + rewrite IH.
      * cbn [existsb flat_map cwd extend]. rewrite extend_extend.
        f_equal. f_equal.
        now destruct (modified f), (existsb modified files), has_changes.
      * intros l g Hg. apply Hdry. now right.
      * intros l g Hg. apply Hreal. now right.
    + intros l. apply Hdry. now left.
    + intros l. apply Hreal. now left.
Qed.

(** One path pattern. *)
Lemma upload_path_run (file_path : string) (has_changes : bool) (w : world) :
  let abs := abspath B (cwd w) in
  (forall l, glob_glob B l (cwd w) file_path = expand file_path) ->
  (forall l f, In f (expand file_path) ->
     classify_reconcile (p4_reply B l (dry_reconcile c abs f))
     = if modified f then Modified else Unchanged) ->
  (forall l f, In f (expand file_path) -> modified f = true ->
     p4_reply B l (real_reconcile c abs f) = None) ->
  upload_path B self file_path has_changes w
  = (Ok (existsb modified (expand file_path) || has_changes),
     extend (path_events c abs modified expand file_path) w).
Proof.
  cbv zeta. intros Hglob Hdry Hreal.
  unfold upload_path, bind, glob. rewrite Hglob.
  unfold path_events.
  destruct (expand file_path) as [|f files] eqn:E.
  - unfold logging, emit, ret. cbn [existsb orb].
    now rewrite !record_as_extend, !extend_extend.
  - rewrite record_as_extend.
    rewrite (upload_files_run (f :: files) has_changes (extend [GlobGlob file_path] w)).
    + now rewrite extend_extend.
    + exact Hdry.
    + exact Hreal.
Qed.

(** The outer loop. *)
Lemma upload_paths_run (paths : list string) (has_changes : bool) (w : world) :
  let abs := abspath B (cwd w) in
  (forall l p, In p paths -> glob_glob B l (cwd w) p = expand p) ->
  (forall l f, In f (flat_map expand paths) ->
     classify_reconcile (p4_reply B l (dry_reconcile c abs f))
     = if modified f then Modified else Unchanged) ->
  (forall l f, In f (flat_map expand paths) -> modified f = true ->
     p4_reply B l (real_reconcile c abs f) = None) ->
  for_each paths (upload_path B self) has_changes w
  = (Ok (existsb modified (flat_map expand paths) || has_changes),
     extend (flat_map (path_events c abs modified expand) paths) w).
Proof.
  cbv zeta. revert has_changes w.
  induction paths as [|p paths IH]; intros has_changes w Hglob Hdry Hreal.
  - cbn. now rewrite extend_nil.
  - cbn [for_each]. unfold bind.
    rewrite upload_path_run.
    + rewrite IH.
      * cbn [flat_map cwd extend]. rewrite extend_extend, existsb_app.
        f_equal. f_equal.
        now destruct (existsb modified (expand p)),
          (existsb modified (flat_map expand paths)), has_changes.
      * intros l q Hq. apply Hglob. now right.
      * intros l g Hg. apply Hdry. cbn. apply in_or_app. now right.
      * intros l g Hg. apply Hreal. cbn. apply in_or_app. now right.
    + intros l. apply Hglob. now left.
    + intros l g Hg. apply Hdry. cbn. apply in_or_app. now left.
    + intros l g Hg. apply Hreal. cbn. apply in_or_app. now left.
Qed.

(** The files reconciled and the submit calls among the expected events. *)
Lemma reconciled_file_events (abs : string -> string) (f : string) :
  reconciled_files (file_events c abs modified f)
  = if modified f then [abs f] else [].
Proof. unfold file_events. now destruct (modified f). Qed.

Lemma reconciled_files_events (abs : string -> string) (files : list string) :
  reconciled_files (flat_map (file_events c abs modified) files)
  = map abs (filter modified files).
Proof.
  unfold reconciled_files.
  induction files as [|f files IH]; [reflexivity|].
  cbn [flat_map filter]. rewrite flat_map_app, IH.
  fold (reconciled_files (file_events c abs modified f)).
  rewrite reconciled_file_events. now destruct (modified f).
Qed.

Lemma reconciled_path_events (abs : string -> string) (paths : list string) :
  reconciled_files (flat_map (path_events c abs modified expand) paths)
  = map abs (filter modified (flat_map expand paths)).
Proof.
  induction paths as [|p paths IH]; [reflexivity|].
  cbn [flat_map]. unfold reconciled_files in *.
  rewrite flat_map_app, IH, filter_app, map_app. f_equal.
  unfold path_events. cbn [flat_map reconciled_file app].
  destruct (expand p) as [|f files] eqn:E; [reflexivity|].
  apply (reconciled_files_events abs (f :: files)).
Qed.

Lemma submit_file_events (abs : string -> string) (files : list string) :
  submit_calls (flat_map (file_events c abs modified) files) = [].
Proof.
  unfold submit_calls.
  induction files as [|f files IH]; [reflexivity|].
  cbn [flat_map]. rewrite flat_map_app, IH, app_nil_r.
  unfold file_events. now destruct (modified f).
Qed.

Lemma submit_path_events (abs : string -> string) (paths : list string) :
  submit_calls (flat_map (path_events c abs modified expand) paths) = [].
Proof.
  induction paths as [|p paths IH]; [reflexivity|].
  cbn [flat_map]. unfold submit_calls in *.
  rewrite flat_map_app, IH, app_nil_r.
  unfold path_events. cbn [flat_map submit_call app].
  destruct (expand p) as [|f files] eqn:E; [reflexivity|].
  apply (submit_file_events abs (f :: files)).
Qed.

Lemma setup_not_reconciled (l : list event) :
  Forall (fun e => is_setup e = true) l ->
  reconciled_files l = [] /\ submit_calls l = [].
Proof.
  intros F. induction F as [|e l He _ [IH1 IH2]]; [now split|].
  unfold reconciled_files, submit_calls in *. cbn [flat_map].
  rewrite IH1, IH2, !app_nil_r.
  destruct e; try discriminate; try (now split).
  cbn in He. apply orb_true_iff in He as [He|He];
    apply String.eqb_eq in He; subst; cbn; split; try reflexivity;
    now destruct args as [|[] []].
Qed.

Lemma existsb_filter {X} (f : X -> bool) (l : list X) :
  existsb f l = match filter f l with [] => false | _ => true end.
Proof.
  induction l as [|x l IH]; [reflexivity|].
  cbn. destruct (f x); [reflexivity | exact IH].
Qed.

End UploadFacts.

Section UploadOperation.

Import PerforcePy.

Variable B : boundary.
Variable self : PerforceSCM.

Lemma enter_client_cwd (w w1 : world) :
  enter_client B self w = (Ok tt, w1) -> cwd w1 = client_root self.
Proof.
  unfold enter_client, bind, p4_connected.
  destruct (negb (connected w (conn_id (_connection self)))).
  - destruct (_connect B self w) as [[[]|e] w']; [|discriminate].
    unfold chdir. destruct (chdir_reply B (log w') (client_root self));
      [discriminate|].
    intros H. injection H as <-. reflexivity.
  - unfold ret, chdir. destruct (chdir_reply B (log w) (client_root self));
      [discriminate|].
    intros H. injection H as <-. reflexivity.
Qed.

(** The outcome of an operation run inside the workspace context, when
    the previous directory can be entered again. *)
Lemma in_client_outcome {A} (body : M A) (w : world) :
  (forall l, chdir_reply B l (cwd w) = None) ->
  fst (_in_client B self body w) = fst ((enter_client B self ;; body) w).
Proof.
  intros Hback.
  change (_in_client B self body w)
    with (try_finally (enter_client B self ;; body) (chdir B (cwd w)) w).
  unfold try_finally.
  destruct ((enter_client B self ;; body) w) as [r w1].
  unfold chdir. now rewrite Hback.
Qed.

Variable modified : string -> bool.
Variable expand : string -> list string.

(** The body of [upload]: the events of all patterns, then one submit call
    if some file is modified, and a log line otherwise. *)
Lemma upload_body_run (paths : list string) (message : pyval) (w : world) :
  let c := conn_id (_connection self) in
  let abs := abspath B (cwd w) in
  let has_changes := existsb modified (flat_map expand paths) in
  let out := upload_body B self paths message w in
  (forall l p, In p paths -> glob_glob B l (cwd w) p = expand p) ->
  (forall l f, In f (flat_map expand paths) ->
     classify_reconcile (p4_reply B l (dry_reconcile c abs f))
     = if modified f then Modified else Unchanged) ->
  (forall l f, In f (flat_map expand paths) -> modified f = true ->
     p4_reply B l (real_reconcile c abs f) = None) ->
  log (snd out)
  = log w ++ flat_map (path_events c abs modified expand) paths
      ++ [if has_changes then P4Run c "submit" [PStr "-d"; message]
          else Logging "INFO" "Nothing to submit"]
  /\ (has_changes = false -> fst out = Ok tt).
Proof.
  cbv zeta. intros Hglob Hdry Hreal.
  unfold upload_body, bind.
  rewrite (upload_paths_run B self modified expand paths false w Hglob Hdry Hreal).
  rewrite orb_false_r.
  destruct (existsb modified (flat_map expand paths)).
  - unfold run_submit, p4_call.
    split; [|discriminate].
    now destruct (p4_reply B _ _); cbn; rewrite <- app_assoc.
  - split; [|reflexivity]. cbn. now rewrite <- app_assoc.
Qed.

End UploadOperation.

(** The calls of one upload over the given path patterns, on a depot that
    answers every probe [reconcile -n] either normally (the file is
    modified) or with "nothing to reconcile": the files given to the real
    reconcile calls are exactly the modified ones among the files the
    patterns match; the submit call is issued once if there is such a
    file; otherwise none is issued and the operation returns normally. *)
Theorem upload_submits_modified_files (B : boundary) (self : PerforcePy.PerforceSCM)
    (paths : list string) (message : pyval) (w w1 : world)
    (expand : string -> list string) (modified : string -> bool) :
  let c := PerforcePy.conn_id (PerforcePy._connection self) in
  let abs := abspath B (PerforcePy.client_root self) in
  let candidates := flat_map expand paths in
  let dirty := filter modified candidates in
  let out := PerforcePy.upload B self (Some paths) message w in
  PerforcePy.enter_client B self w = (Ok tt, w1) ->
  (forall l p, In p paths -> glob_glob B l (PerforcePy.client_root self) p = expand p) ->
  (forall l f, In f candidates ->
     classify_reconcile (p4_reply B l (dry_reconcile c abs f))
     = if modified f then Modified else Unchanged) ->
  (forall l f, In f candidates -> modified f = true ->
     p4_reply B l (real_reconcile c abs f) = None) ->
  (forall l, chdir_reply B l (cwd w) = None) ->
  reconciled_files (since w (snd out)) = map abs dirty
  /\ submit_calls (since w (snd out))
     = match dirty with [] => [] | _ => [[PStr "-d"; message]] end
  /\ (dirty = [] -> fst out = Ok tt).
Proof.
  cbv zeta. intros Henter Hglob Hdry Hreal Hback.
  pose proof (enter_client_cwd B self w w1 Henter) as Hcwd.
  rewrite <- Hcwd in Hglob, Hdry, Hreal.
  destruct (upload_body_run B self modified expand paths message w1 Hglob Hdry Hreal)
    as [Elog Hok].
  unfold PerforcePy.upload.
  destruct (in_client_log B self (PerforcePy.upload_body B self paths message) w w1
              Henter (ex_intro _ _ Elog)) as (l1 & F1 & _ & E).
  destruct (setup_not_reconciled l1 F1) as [R1 S1].
  rewrite E, (since_extends _ _ _ Elog).
  unfold reconciled_files, submit_calls in *.
  rewrite !flat_map_app, R1, S1. cbn [app].
  fold (reconciled_files
          (flat_map (path_events (PerforcePy.conn_id (PerforcePy._connection self))
                       (abspath B (cwd w1)) modified expand) paths)).
  fold (submit_calls
          (flat_map (path_events (PerforcePy.conn_id (PerforcePy._connection self))
                       (abspath B (cwd w1)) modified expand) paths)).
  rewrite reconciled_path_events, submit_path_events, Hcwd.
  rewrite existsb_filter in *.
  split; [|split].
  - destruct (filter modified (flat_map expand paths)); cbn;
      rewrite ?app_nil_r; reflexivity.
  - destruct (filter modified (flat_map expand paths)); cbn;
      rewrite ?app_nil_r; reflexivity.
  - intros Hnone. rewrite in_client_outcome by exact Hback.
    unfold bind. rewrite Henter. apply Hok. now rewrite Hnone.
Qed.

(** Two patterns that match three files, of which two are modified. *)
Lemma upload_submits_modified_files_witness :
  let B := Fixture.make Fixture.p4_b_unchanged Fixture.three_files Fixture.shell_ok in
  let out := PerforcePy.upload B (Fixture.scm0 false) (Some ["out/*.txt"; "c.bin"])
               (PStr "Nightly artefacts") Fixture.w0 in
  reconciled_files (since Fixture.w0 (snd out)) = ["/ws/out/a.txt"; "/ws/c.bin"]
  /\ submit_calls (since Fixture.w0 (snd out))
     = [[PStr "-d"; PStr "Nightly artefacts"]].
Proof.
  intros B out.
  destruct (upload_submits_modified_files B (Fixture.scm0 false)
              ["out/*.txt"; "c.bin"] (PStr "Nightly artefacts") Fixture.w0
              (snd (PerforcePy.enter_client B (Fixture.scm0 false) Fixture.w0))
              Fixture.three_files
              (fun f => negb (String.eqb f "out/b.txt")))
    as (Hfiles & Hsubmit & _).
  - reflexivity.
  - intros l p _. reflexivity.
  - intros l f [<-|[<-|[<-|[]]]]; reflexivity.
  - intros l f [<-|[<-|[<-|[]]]] _; reflexivity.
  - intros l. reflexivity.
  - split; [exact Hfiles | exact Hsubmit].
Defined.

(** ** What the submit call of [upload] submits *)

Section DepotFacts.

Variable B : boundary.

Lemma after_call_other (history : list event) (opened : list string) (e : event) :
  is_submit e = false -> reconciled_file e = [] ->
  Depot.after_call B history opened e = opened.
Proof.
  intros Hs Hr. unfold Depot.after_call. rewrite Hs, Hr.
  now destruct (Depot.accepted B history e).
Qed.

Lemma pending_app (history : list event) (opened : list string) (l l' : list event) :
  Depot.pending B history opened (l ++ l')
  = Depot.pending B (history ++ l) (Depot.pending B history opened l) l'.
Proof.
  revert history opened. induction l as [|e l IH]; intros history opened; cbn.
  - now rewrite app_nil_r.
  - now rewrite IH, <- app_assoc.
Qed.

Lemma submit_filesets_app (history : list event) (opened : list string)
    (l l' : list event) :
  Depot.submit_filesets B history opened (l ++ l')
  = Depot.submit_filesets B history opened l
    ++ Depot.submit_filesets B (history ++ l) (Depot.pending B history opened l) l'.
Proof.
  revert history opened. induction l as [|e l IH]; intros history opened; cbn.
  - now rewrite app_nil_r.
  - now rewrite IH, <- !app_assoc.
Qed.

(** Events that are neither a real reconcile nor a submit leave the
    changelist as it is. *)
Lemma other_events (history : list event) (opened : list string) (l : list event) :
  Forall (fun e => is_submit e = false /\ reconciled_file e = []) l ->
  Depot.pending B history opened l = opened
  /\ Depot.submit_filesets B history opened l = [].
Proof.
  intros F. revert history. induction F as [|e l [Hs Hr] _ IH]; intros history.
  - now split.
  - cbn. rewrite after_call_other, Hs by assumption. apply IH.
Qed.

Lemma setup_is_other (e : event) :
  is_setup e = true -> is_submit e = false /\ reconciled_file e = [].
Proof.
  destruct e; try discriminate; try (now split).
  cbn. intros [He|He]%orb_true_iff; apply String.eqb_eq in He; subst;
    (split; [reflexivity | now destruct args as [|[] []]]).
Qed.

Lemma In_open_file (opened : list string) (path f : string) :
  In f (Depot.open_file opened path) <-> In f opened \/ f = path.
Proof.
  unfold Depot.open_file.
  destruct (existsb (String.eqb path) opened) eqn:E.
  - apply existsb_exists in E as (g & Hg & ->%String.eqb_eq).
    split; [now left | now intros [H| ->]].
  - rewrite in_app_iff. cbn. intuition.
Qed.

Variable c : nat.
Variable abs : string -> string.
Variable modified : string -> bool.
Variable expand : string -> list string.

Lemma pending_file_events (history : list event) (opened : list string) (file : string) :
  (forall l, modified file = true -> p4_reply B l (real_reconcile c abs file) = None) ->
  Depot.submit_filesets B history opened (file_events c abs modified file) = []
  /\ forall f,
       In f (Depot.pending B history opened (file_events c abs modified file))
       <-> In f opened \/ (modified file = true /\ f = abs file).
Proof.
  intros Hreal. unfold file_events. destruct (modified file).
  - cbn [Depot.pending Depot.submit_filesets].
    rewrite (after_call_other _ _ (dry_reconcile c abs file)) by reflexivity.
    split; [reflexivity|]. intros f.
    rewrite (after_call_other _ _ (Logging _ _)) by reflexivity.
    unfold Depot.after_call at 1, Depot.accepted. rewrite Hreal by reflexivity.
    cbn. rewrite In_open_file. intuition.
  - cbn [Depot.pending Depot.submit_filesets].
    rewrite (after_call_other _ _ (dry_reconcile c abs file)) by reflexivity.
    rewrite (after_call_other _ _ (Logging _ _)) by reflexivity.
    split; [reflexivity|]. intros f. intuition discriminate.
Qed.

Lemma pending_files_events (history : list event) (opened : list string)
    (files : list string) :
  (forall l f, In f files -> modified f = true ->
     p4_reply B l (real_reconcile c abs f) = None) ->
  Depot.submit_filesets B history opened (flat_map (file_events c abs modified) files) = []
  /\ forall f,
       In f (Depot.pending B history opened (flat_map (file_events c abs modified) files))
       <-> In f opened \/ In f (map abs (filter modified files)).
Proof.
  revert history opened.
  induction files as [|g files IH]; intros history opened Hreal.
  - cbn. split; [reflexivity | intuition].
  - cbn [flat_map]. rewrite submit_filesets_app, pending_app.
    destruct (pending_file_events history opened g) as [S1 P1].
    { intros l. apply Hreal. now left. }
    destruct (IH (history ++ file_events c abs modified g)
                (Depot.pending B history opened (file_events c abs modified g)))
      as [S2 P2].
    { intros l f Hf. apply Hreal. now right. }
    rewrite S1, S2. split; [reflexivity|]. intros f.
    rewrite P2, P1. cbn [filter].
    destruct (modified g); cbn [map In]; intuition (try discriminate; auto).
Qed.

Lemma pending_paths_events (history : list event) (opened : list string)
    (paths : list string) :
  (forall l f, In f (flat_map expand paths) -> modified f = true ->
     p4_reply B l (real_reconcile c abs f) = None) ->
  Depot.submit_filesets B history opened
    (flat_map (path_events c abs modified expand) paths) = []
  /\ forall f,
       In f (Depot.pending B history opened
               (flat_map (path_events c abs modified expand) paths))
       <-> In f opened \/ In f (map abs (filter modified (flat_map expand paths))).
Proof.
  revert history opened.
  induction paths as [|p paths IH]; intros history opened Hreal.
  - cbn. split; [reflexivity | intuition].
  - cbn [flat_map]. rewrite submit_filesets_app, pending_app.
    assert (Depot.submit_filesets B history opened (path_events c abs modified expand p) = []
            /\ forall f,
                 In f (Depot.pending B history opened (path_events c abs modified expand p))
                 <-> In f opened \/ In f (map abs (filter modified (expand p))))
      as [S1 P1].
    { unfold path_events. cbn [Depot.pending Depot.submit_filesets].
      rewrite (after_call_other _ _ (GlobGlob p)) by reflexivity.
      destruct (expand p) as [|g files] eqn:E.
      - cbn [Depot.pending Depot.submit_filesets].
        rewrite (after_call_other _ _ (Logging _ _)) by reflexivity.
        cbn. split; [reflexivity | intuition].
      - apply pending_files_events. intros l f Hf. apply Hreal.
        cbn [flat_map]. rewrite E. apply in_or_app. now left. }
    destruct (IH (history ++ path_events c abs modified expand p)
                (Depot.pending B history opened (path_events c abs modified expand p)))
      as [S2 P2].
    { intros l f Hf. apply Hreal. cbn [flat_map]. apply in_or_app. now right. }
    rewrite S1, S2. split; [reflexivity|]. intros f.
    rewrite P2, P1, filter_app, map_app, in_app_iff. intuition.
Qed.

End DepotFacts.

(** The whole of one upload, in order: the set-up, then for each pattern
    and file the probe and, for a modified file, the real reconcile, then
    the one submit call, then the return to the previous directory.  The
    submit call comes after every reconcile and submits the files that
    were open in the workspace before the operation together with the
    modified files: exactly the modified files when none was open. *)
Lemma upload_submits_pending_changelist (B : boundary) (self : PerforcePy.PerforceSCM)
    (paths : list string) (message : pyval) (w w1 : world)
    (expand : string -> list string) (modified : string -> bool)
    (opened : list string) :
  let c := PerforcePy.conn_id (PerforcePy._connection self) in
  let abs := abspath B (PerforcePy.client_root self) in
  let candidates := flat_map expand paths in
  let dirty := filter modified candidates in
  let out := PerforcePy.upload B self (Some paths) message w in
  PerforcePy.enter_client B self w = (Ok tt, w1) ->
  (forall l p, In p paths -> glob_glob B l (PerforcePy.client_root self) p = expand p) ->
  (forall l f, In f candidates ->
     classify_reconcile (p4_reply B l (dry_reconcile c abs f))
     = if modified f then Modified else Unchanged) ->
  (forall l f, In f candidates -> modified f = true ->
     p4_reply B l (real_reconcile c abs f) = None) ->
  exists setup,
    Forall (fun e => is_setup e = true) setup
    /\ since w (snd out)
       = setup ++ flat_map (path_events c abs modified expand) paths
         ++ [match dirty with
             | [] => Logging "INFO" "Nothing to submit"
             | _ => P4Run c "submit" [PStr "-d"; message]
             end; OsChdir (cwd w)]
    /\ match dirty with
       | [] => Depot.submit_filesets B (log w) opened (since w (snd out)) = []
       | _ => exists fileset,
                Depot.submit_filesets B (log w) opened (since w (snd out)) = [fileset]
                /\ forall f, In f fileset <-> In f opened \/ In f (map abs dirty)
       end.
Proof.
  cbv zeta. intros Henter Hglob Hdry Hreal.
  pose proof (enter_client_cwd B self w w1 Henter) as Hcwd.
  rewrite <- Hcwd in Hglob, Hdry.
  assert (Hreal' := Hreal). rewrite <- Hcwd in Hreal'.
  destruct (upload_body_run B self modified expand paths message w1 Hglob Hdry Hreal')
    as [Elog _].
  unfold PerforcePy.upload.
  destruct (in_client_log B self (PerforcePy.upload_body B self paths message) w w1
              Henter (ex_intro _ _ Elog)) as (l1 & F1 & _ & E).
  rewrite (since_extends _ _ _ Elog), Hcwd, existsb_filter in E.
  exists l1. split; [exact F1|].
  destruct (other_events B (log w) opened l1) as [P1 S1].
  { eapply Forall_impl; [|exact F1]. intros e. apply setup_is_other. }
  destruct (pending_paths_events B (PerforcePy.conn_id (PerforcePy._connection self))
              (abspath B (PerforcePy.client_root self)) modified expand
              (log w ++ l1) opened paths Hreal) as [S2 P2].
  rewrite E. split.
  - rewrite <- !app_assoc.
    now destruct (filter modified (flat_map expand paths)).
  - rewrite !submit_filesets_app, S1, P1, S2. cbn [app].
    destruct (filter modified (flat_map expand paths)) as [|g dirty] eqn:Ed.
    + reflexivity.
    + cbn. eexists. split; [reflexivity|]. exact P2.
Qed.

(** After an upload that a failing probe has aborted, with [out/a.txt]
    left open: the upload of [c.bin] submits both. *)
Lemma upload_submits_pending_changelist_example :
  let B := Fixture.make Fixture2.p4_b_fails Fixture.three_files Fixture.shell_ok in
  let self := Fixture.scm0 false in
  let message := PStr "Nightly artefacts" in
  let first := PerforcePy.upload B self (Some ["out/*.txt"; "c.bin"]) message Fixture.w0 in
  let out := PerforcePy.upload B self (Some ["c.bin"]) message (snd first) in
  exists fileset,
    Depot.submit_filesets B (log (snd first)) ["/ws/out/a.txt"]
      (since (snd first) (snd out)) = [fileset]
    /\ forall f, In f fileset <-> In f ["/ws/out/a.txt"] \/ In f ["/ws/c.bin"].
Proof.
  intros B self message first out.
  destruct (upload_submits_pending_changelist B self ["c.bin"] message (snd first)
              (snd (PerforcePy.enter_client B self (snd first)))
              Fixture.three_files (fun _ => true) ["/ws/out/a.txt"])
    as (setup & _ & _ & H).
  - vm_compute. reflexivity.
  - intros l p _. reflexivity.
  - intros l f [<-|[]]. reflexivity.
  - intros l f [<-|[]] _. reflexivity.
  - exact H.
Defined.

(** C1.  The submit call of [upload] names no file: it submits whatever
    is open in the workspace, not the files this operation has found
    modified.  An upload that is aborted by a failing probe leaves the
    files it has reconciled open; the next upload, here of the one
    pattern [c.bin], finds one modified file and submits two. *)
Theorem upload_submits_files_left_open :
  let B := Fixture.make Fixture2.p4_b_fails Fixture.three_files Fixture.shell_ok in
  let self := Fixture.scm0 false in
  let message := PStr "Nightly artefacts" in
  let first := PerforcePy.upload B self (Some ["out/*.txt"; "c.bin"]) message Fixture.w0 in
  let second := PerforcePy.upload B self (Some ["c.bin"]) message (snd first) in
  (fst first = Raise (P4Exception "Connection to server lost.")
   /\ Depot.pending B [] [] (log (snd first)) = ["/ws/out/a.txt"])
  /\ fst second = Ok tt
  /\ reconciled_files (since (snd first) (snd second)) = ["/ws/c.bin"]
  /\ submit_calls (since (snd first) (snd second)) = [[PStr "-d"; message]]
  /\ Depot.submit_filesets B [] [] (log (snd second))
     = [["/ws/out/a.txt"; "/ws/c.bin"]].
Proof. vm_compute. repeat split. Qed.

(** ** action/action.py and engine.py *)

Section ActionFacts.

Variable B : boundary.
Variable the_config : ConfigPy.Config.

Lemma bind_raises {X Y} (m : M X) (k : X -> M Y) (w w1 : world) (e : exn) :
  m w = (Raise e, w1) -> (x <- m ;; k x) w = (Raise e, w1).
Proof. intros H. unfold bind. now rewrite H. Qed.

Lemma bind_returns {X Y} (m : M X) (k : X -> M Y) (w w1 : world) (x : X) :
  m w = (Ok x, w1) -> (x <- m ;; k x) w = k x w1.
Proof. intros H. unfold bind. now rewrite H. Qed.

Lemma for_each_app {X S} (l1 l2 : list X) (body : X -> S -> M S) (s : S) (w : world) :
  for_each (l1 ++ l2) body s w
  = (s' <- for_each l1 body s ;; for_each l2 body s') w.
Proof.
  revert s w. induction l1 as [|x l1 IH]; intros s w; [reflexivity|].
  cbn [app for_each]. unfold bind.
  destruct (body x s w) as [[s'|e] w']; [|reflexivity].
  rewrite IH. reflexivity.
Qed.

(** A table without any of the three kinds constructs no handler. *)
Lemma construct_without_kind (scms items : dict) (w : world) :
  forallb (fun kv => negb (names_kind (fst kv))) items = true ->
  ActionPy.construct B the_config scms items w = (Ok None, w).
Proof.
  induction items as [|[key value] items IH]; [reflexivity|].
  cbn [forallb fst]. intros H. apply andb_true_iff in H as [Hk Hrest].
  unfold names_kind in Hk. apply negb_true_iff in Hk.
  apply orb_false_iff in Hk as [Hk Hu]. apply orb_false_iff in Hk as [Hc Hm].
  cbn [ActionPy.construct]. rewrite Hc, Hm, Hu. now apply IH.
Qed.

(** Such an action makes [Action.__init__] raise [AttributeError], not the
    [ValueError] of line 86, and nothing has been done by then. *)
Lemma action_without_kind (scms d : dict) (action_name : pyval) (w : world) :
  lookup "name" d = Some action_name ->
  forallb (fun kv => negb (names_kind (fst kv))) (remove "name" d) = true ->
  ActionPy.Action_init B the_config scms (PDict d) w
  = (Raise (AttributeError "'Action' object has no attribute 'action'"), w).
Proof.
  intros Hname Hkind.
  unfold ActionPy.Action_init, as_dict, index, index_key, bind, ret.
  rewrite Hname. now rewrite (construct_without_kind scms _ w Hkind).
Qed.

(** The loop of [Action.__init__] builds a checkout handler without a
    revision, whatever the table of the action says. *)
Lemma constructed_checkout_has_no_revision (scms items : dict) (w w' : world)
    (scm : ScmPy.SCM) (revision : pyval) :
  ActionPy.construct B the_config scms items w
  = (Ok (Some (ActionPy.SCMCheckoutAction scm revision)), w') ->
  revision = PNone.
Proof.
  induction items as [|[key value] items IH]; [discriminate|].
  cbn [ActionPy.construct].
  destruct (String.eqb key "checkout").
  - unfold ActionPy.SCMCheckoutAction_init, bind.
    destruct (ActionPy.BaseSCMAction_init B the_config scms value w) as [[s|e] w1];
      [|discriminate].
    unfold ret. intros H. now injection H.
  - destruct (String.eqb key "command").
    + unfold ActionPy.CommandAction_init, bind.
      destruct (as_dict value "get" w) as [[d|e] w1]; [|discriminate].
      unfold ret. discriminate.
    + destruct (String.eqb key "upload"); [|exact IH].
      unfold ActionPy.SCMUploadAction_init, bind.
      destruct (ActionPy.BaseSCMAction_init B the_config scms value w) as [[s|e] w1];
        [|discriminate].
      destruct (as_dict value "get" w1) as [[d|e] w2]; [|discriminate].
      unfold ret. discriminate.
Qed.

End ActionFacts.

(** C7.  When the actions before the k-th have returned and the k-th
    raises, [run] raises the same exception in the same state: nothing
    happens after the failure, whatever actions follow. *)
Theorem run_is_fail_fast (B : boundary)
    (before : list ActionPy.Action) (failing : ActionPy.Action)
    (after : list ActionPy.Action) (w w1 w2 : world) (e : exn) :
  EnginePy.run_actions B before w = (Ok tt, w1) ->
  ActionPy.execute B failing w1 = (Raise e, w2) ->
  EnginePy.run_actions B (before ++ failing :: after) w = (Raise e, w2)
  /\ since w2 (snd (EnginePy.run_actions B (before ++ failing :: after) w)) = [].
Proof.
  intros Hbefore Hfail.
  assert (E : EnginePy.run_actions B (before ++ failing :: after) w = (Raise e, w2)).
  { unfold EnginePy.run_actions in *.
    rewrite for_each_app. unfold bind at 1. rewrite Hbefore.
    cbn [for_each]. unfold bind. now rewrite Hfail. }
  split; [exact E|].
  rewrite E. apply since_extends. cbn. now rewrite app_nil_r.
Qed.

(** Three command actions, the second of which exits with status 1. *)
Lemma run_is_fail_fast_witness :
  let B := Fixture.make Fixture.p4_ok Fixture.no_files Fixture.shell_exit in
  let out := EnginePy.run_actions B
               [Fixture.action_build; Fixture.action_fail; Fixture.action_after]
               Fixture.w0 in
  fst out = Raise (RuntimeError
              "Command execution failed: Command 'exit 1' returned non-zero exit status 1.")
  /\ log (snd out)
     = [Stdout "Started action 'build'.";
        SubprocessRun (PStr "make all");
        Stdout "Action 'build' completed successfully.";
        Stdout "Started action 'check'.";
        SubprocessRun (PStr "exit 1")].
Proof.
  intros B out.
  pose proof (proj1 (run_is_fail_fast B [Fixture.action_build] Fixture.action_fail
                       [Fixture.action_after] Fixture.w0
                       (snd (EnginePy.run_actions B [Fixture.action_build] Fixture.w0))
                       (snd (ActionPy.execute B Fixture.action_fail
                               (snd (EnginePy.run_actions B [Fixture.action_build]
                                       Fixture.w0))))
                       (RuntimeError
                          "Command execution failed: Command 'exit 1' returned non-zero exit status 1.")
                       eq_refl eq_refl)) as E.
  subst out. cbn [app] in E. rewrite E. split; reflexivity.
Defined.

Section CleanupFacts.

Variable B : boundary.

Lemma cleanup_is_silent (scm : ScmPy.SCM) :
  emits (fun e => is_logging e = false) (ScmPy.cleanup B scm).
Proof.
  unfold ScmPy.cleanup, PerforcePy.cleanup, PerforcePy.run_logout,
    PerforcePy.p4_disconnect.
  repeat emits_step; reflexivity.
Qed.

Lemma handler_execute_scm (h : ActionPy.handler) (scm : ScmPy.SCM) (work : M unit) :
  scm_work B h = Some (scm, work) ->
  ActionPy.handler_execute B h = (work ;; ScmPy.cleanup B scm).
Proof.
  destruct h; cbn; intros H; try discriminate; now injection H as <- <-.
Qed.

(** [SCM.upload] passes no paths on: whatever the workspace holds, the
    operation it starts issues no submit call. *)
Lemma scm_upload_never_submits (scm : ScmPy.SCM) (w : world) :
  submit_calls (since w (snd (ScmPy.upload B scm w))) = [].
Proof.
  assert (H : emits (fun e => submit_call e = []) (ScmPy.upload B scm)).
  { unfold ScmPy.upload, PerforcePy.upload.
    apply in_client_emits.
    - intros e He. destruct e; try reflexivity; try discriminate.
      cbn in He. apply orb_true_iff in He as [He|He];
        apply String.eqb_eq in He; now subst.
    - unfold PerforcePy.upload_body. cbn [for_each].
      repeat emits_step. reflexivity. }
  destruct (H w) as (l & E & F).
  rewrite (since_extends _ _ _ E). clear E.
  unfold submit_calls. induction F as [|e l He _ IH]; [reflexivity|].
  cbn [flat_map]. rewrite He. exact IH.
Qed.

End CleanupFacts.

(** C5, as the code has it.  The clean-up (logout, then disconnect) runs
    only after the main work of the handler has returned; an exception it
    raises is not caught: [execute] raises it, and nothing is logged.  When
    the main work raises, [execute] raises that exception in the same
    state: the clean-up is not attempted, so it cannot replace it. *)
Theorem cleanup_errors_propagate (B : boundary) (h : ActionPy.handler)
    (scm : ScmPy.SCM) (work : M unit) (w : world) :
  scm_work B h = Some (scm, work) ->
  (forall e w1,
      work w = (Raise e, w1) ->
      ActionPy.handler_execute B h w = (Raise e, w1))
  /\ (forall w1 e w2,
         work w = (Ok tt, w1) ->
         ScmPy.cleanup B scm w1 = (Raise e, w2) ->
         ActionPy.handler_execute B h w = (Raise e, w2)
         /\ forallb (fun ev => negb (is_logging ev)) (since w1 w2) = true).
Proof.
  intros Hh. rewrite (handler_execute_scm B h scm work Hh).
  split.
  - intros e w1 Hwork. now apply bind_raises.
  - intros w1 e w2 Hwork Hclean. split.
    + unfold bind. now rewrite Hwork.
    + destruct (cleanup_is_silent B scm w1) as (l & E & F).
      rewrite Hclean in E. cbn in E.
      rewrite (since_extends _ _ _ E).
      apply forallb_forall. intros ev Hev.
      rewrite Forall_forall in F. now rewrite (F ev Hev).
Qed.

(** A checkout that succeeds on a depot whose [logout] fails, and a
    checkout whose probe fails. *)
Lemma cleanup_errors_propagate_witness :
  let h := ActionPy.SCMCheckoutAction Fixture.scm_handle PNone in
  fst (ActionPy.handler_execute
         (Fixture.make Fixture.p4_logout_fails Fixture.no_files Fixture.shell_ok)
         h Fixture.w0)
  = Raise (P4Exception "Perforce password (P4PASSWD) invalid or unset.")
  /\ fst (ActionPy.handler_execute
            (Fixture.make Fixture.p4_sync_fails Fixture.no_files Fixture.shell_ok)
            h Fixture.w0)
     = Raise (P4Exception "Connect to server failed; check $P4PORT.").
Proof.
  intros h. split.
  - set (B := Fixture.make Fixture.p4_logout_fails Fixture.no_files Fixture.shell_ok).
    set (w1 := snd (ScmPy.checkout B Fixture.scm_handle PNone Fixture.w0)).
    destruct (proj2 (cleanup_errors_propagate B h Fixture.scm_handle
                       (ScmPy.checkout B Fixture.scm_handle PNone) Fixture.w0 eq_refl)
                w1 (P4Exception "Perforce password (P4PASSWD) invalid or unset.")
                (snd (ScmPy.cleanup B Fixture.scm_handle w1)) eq_refl eq_refl)
      as [E _].
    now rewrite E.
  - set (B := Fixture.make Fixture.p4_sync_fails Fixture.no_files Fixture.shell_ok).
    rewrite (proj1 (cleanup_errors_propagate B h Fixture.scm_handle
                      (ScmPy.checkout B Fixture.scm_handle PNone) Fixture.w0 eq_refl)
               (P4Exception "Connect to server failed; check $P4PORT.")
               (snd (ScmPy.checkout B Fixture.scm_handle PNone Fixture.w0)) eq_refl).
    reflexivity.
Defined.

(** C5, as it is stated, fails: on a depot whose [logout] fails, the
    checkout handler's main work returns, the clean-up raises, and
    [execute] raises too. *)
Lemma cleanup_error_reaches_caller :
  ~ cleanup_errors_contained
      (Fixture.make Fixture.p4_logout_fails Fixture.no_files Fixture.shell_ok)
      (ActionPy.SCMCheckoutAction Fixture.scm_handle PNone)
      Fixture.w0.
Proof.
  set (B := Fixture.make Fixture.p4_logout_fails Fixture.no_files Fixture.shell_ok).
  intros H.
  specialize (H Fixture.scm_handle (ScmPy.checkout B Fixture.scm_handle PNone)
                (snd (ScmPy.checkout B Fixture.scm_handle PNone Fixture.w0))
                (P4Exception "Perforce password (P4PASSWD) invalid or unset.")
                (snd (ScmPy.cleanup B Fixture.scm_handle
                        (snd (ScmPy.checkout B Fixture.scm_handle PNone Fixture.w0))))
                eq_refl eq_refl eq_refl).
  vm_compute in H. discriminate.
Qed.

(** C3, on the code.  A checkout action whose table gives the revision
    [1234] syncs without a revision: [Action.__init__] constructs the
    handler without passing one.  [PerforceSCM.checkout] itself qualifies
    the sync with a revision it is given, and syncs to the latest revision
    when it is given none. *)
Theorem checkout_action_ignores_revision :
  let B := Fixture.make Fixture.p4_ok Fixture.no_files Fixture.shell_ok in
  filter is_sync
    (log (snd (EnginePy.main B Fixture.the_config Fixture.pipeline_checkout Fixture.w0)))
  = [P4Run 0 "sync" [PStr "-n"]; P4Run 0 "sync" []]
  /\ filter is_sync
       (log (snd (PerforcePy.checkout B (Fixture.scm0 false) (PStr "1234") Fixture.w0)))
     = [P4Run 0 "sync" [PStr "-n"; PStr "@1234"]; P4Run 0 "sync" [PStr "@1234"]]
  /\ filter is_sync
       (log (snd (PerforcePy.checkout B (Fixture.scm0 false) PNone Fixture.w0)))
     = [P4Run 0 "sync" [PStr "-n"]; P4Run 0 "sync" []].
Proof. cbv zeta. repeat split; vm_compute; reflexivity. Qed.

(** C4, on the code.  An upload action without a message: the handler
    holds the placeholder text, but [execute] never reads it (it runs the
    same for any message), and [SCM.upload] passes neither paths nor
    message on: the action issues no submit call at all, on any depot and
    in any state, and [PerforceSCM.upload], called with files to submit
    and its default message, submits with [None] for the message. *)
Theorem upload_action_drops_message :
  let B := Fixture.make Fixture.p4_b_unchanged Fixture.three_files Fixture.shell_ok in
  fst (ActionPy.SCMUploadAction_init B Fixture.the_config [("main", Fixture.scm_main)]
         (PDict [("scm_name", PStr "main")]) Fixture.w0)
  = Ok (ActionPy.SCMUploadAction Fixture.scm_handle
          (PStr ActionPy._DEFAULT_SUBMIT_MESSAGE))
  /\ (forall scm m m',
         ActionPy.handler_execute B (ActionPy.SCMUploadAction scm m)
         = ActionPy.handler_execute B (ActionPy.SCMUploadAction scm m'))
  /\ (forall B' scm w, submit_calls (since w (snd (ScmPy.upload B' scm w))) = [])
  /\ submit_calls
       (log (snd (EnginePy.main B Fixture.the_config Fixture.pipeline_upload Fixture.w0)))
     = []
  /\ submit_calls
       (log (snd (PerforcePy.upload B (Fixture.scm0 false)
                    (Some ["out/*.txt"; "c.bin"]) PNone Fixture.w0)))
     = [[PStr "-d"; PNone]].
Proof.
  cbv zeta. split; [reflexivity|]. split; [reflexivity|].
  split; [exact scm_upload_never_submits|].
  split; vm_compute; reflexivity.
Qed.

(** C6, on the code.  An action of an unknown kind, or without a kind,
    makes the construction fail before anything is executed (the state is
    untouched), but with [AttributeError], raised by the test of
    [self.action], not with the [ValueError] written on the next line. *)
Theorem unknown_kind_raises_attribute_error :
  let B := Fixture.make Fixture.p4_ok Fixture.no_files Fixture.shell_ok in
  EnginePy.main B Fixture.the_config Fixture.pipeline_unknown_kind Fixture.w0
  = (Raise (AttributeError "'Action' object has no attribute 'action'"), Fixture.w0)
  /\ EnginePy.main B Fixture.the_config Fixture.pipeline_no_kind Fixture.w0
     = (Raise (AttributeError "'Action' object has no attribute 'action'"), Fixture.w0).
Proof. cbv zeta. split; reflexivity. Qed.

(** ** config/config.py: further properties *)

Section ConfigMore.

Import ConfigPy.

Variable B : boundary.
Variable self : Config.

Lemma resolve_item_plain (item : string * pyval) (section : dict) (w : world) :
  is_reference (snd item) = false ->
  resolve_item B self item section w = (Ok section, w).
Proof.
  destruct item as [k v]. cbn [snd]. unfold resolve_item.
  destruct v; try reflexivity.
  cbn [is_reference]. now intros ->.
Qed.

Lemma for_each_plain (items section : dict) (w : world) :
  forallb (fun kv => negb (is_reference (snd kv))) items = true ->
  for_each items (resolve_item B self) section w = (Ok section, w).
Proof.
  induction items as [|item items IH]; [reflexivity|].
  cbn [forallb for_each]. intros H. apply andb_true_iff in H as [H1 H2].
  apply negb_true_iff in H1.
  unfold bind. rewrite (resolve_item_plain item section w H1). now apply IH.
Qed.

Lemma set_keeps_keys (k : string) (v : pyval) (d : dict) :
  In k (map fst d) -> map fst (set k v d) = map fst d.
Proof.
  induction d as [|[k' v'] d IH]; [intros []|].
  cbn [map fst set]. destruct (String.eqb_spec k' k) as [->|Hne].
  - reflexivity.
  - intros [H|H]; [contradiction|]. cbn. now rewrite IH.
Qed.

Lemma resolve_item_keys (item : string * pyval) (section section' : dict)
    (w w' : world) :
  In (fst item) (map fst section) ->
  resolve_item B self item section w = (Ok section', w') ->
  map fst section' = map fst section.
Proof.
  destruct item as [k v]. cbn [fst]. intros Hin. unfold resolve_item.
  destruct v; try (intros H; injection H as <- _; reflexivity).
  destruct (startswith "vault://" s);
    [|intros H; injection H as <- _; reflexivity].
  unfold bind.
  destruct (_read_secret_from_vault B self _ w) as [[secret|e] w1]; [|discriminate].
  unfold ret. intros H. injection H as <- _. now apply set_keeps_keys.
Qed.

Lemma for_each_keys (items section section' : dict) (w w' : world) :
  (forall item, In item items -> In (fst item) (map fst section)) ->
  for_each items (resolve_item B self) section w = (Ok section', w') ->
  map fst section' = map fst section.
Proof.
  revert section w. induction items as [|item items IH]; intros section w Hin.
  - cbn. intros H. now injection H as <- _.
  - cbn [for_each]. unfold bind.
    destruct (resolve_item B self item section w) as [[s1|e] w1] eqn:E;
      [|discriminate].
    intros H.
    pose proof (resolve_item_keys item section s1 w w1 (Hin item (or_introl eq_refl)) E)
      as K.
    rewrite <- K. apply (IH s1 w1); [|exact H].
    intros it Hit. rewrite K. apply Hin. now right.
Qed.

Lemma lookup_secret_outcome (mount : string) (path : option string) (key : string)
    (w : world) :
  match fst (lookup_secret B mount path key w) with
  | Ok v => truthy v = true
  | Raise e => exists msg, e = ValueError msg
  end.
Proof.
  unfold lookup_secret, try_except, bind, read_secret_version.
  destruct (vault_reply B (log w) mount path) as [msg|data]; cbn;
    [eexists; reflexivity|].
  destruct (truthy data) eqn:Et; cbn; [|eexists; reflexivity].
  destruct data; cbn; try (eexists; reflexivity).
  destruct (truthy (get key PNone d)) eqn:Ek; cbn; [exact Ek | eexists; reflexivity].
Qed.

End ConfigMore.

(** X1.  A section without secret references comes back from
    [retrieve_secrets_from_vault] as it went in, and nothing is read from
    the secret store (nor are the credentials looked at). *)
Theorem retrieve_without_references (B : boundary) (self : ConfigPy.Config)
    (section : dict) (w : world) :
  forallb (fun kv => negb (is_reference (snd kv))) section = true ->
  ConfigPy.retrieve_secrets_from_vault B self (PDict section) w
  = (Ok (PDict section), w).
Proof.
  intros H. unfold ConfigPy.retrieve_secrets_from_vault, as_dict, bind, ret.
  now rewrite (for_each_plain B self section section w H).
Qed.

Lemma retrieve_without_references_witness :
  ConfigPy.retrieve_secrets_from_vault Fixture2.plain_boundary Fixture.the_config
    (PDict [("username", PStr "builder"); ("server_port", PInt 1667);
            ("server_tls", PBool true)]) Fixture.w0
  = (Ok (PDict [("username", PStr "builder"); ("server_port", PInt 1667);
                ("server_tls", PBool true)]), Fixture.w0).
Proof.
  apply (retrieve_without_references Fixture2.plain_boundary Fixture.the_config).
  reflexivity.
Defined.

(** X2.  Without [main.vault_address] or without [main.vault_token],
    resolving any address raises [ValueError] before the address is looked
    at: nothing is read from the secret store. *)
Theorem secrets_need_credentials (B : boundary) (self : ConfigPy.Config)
    (address : string) (w : world) :
  truthy (get "vault_address" PNone (ConfigPy.main self))
  && truthy (get "vault_token" PNone (ConfigPy.main self)) = false ->
  exists msg,
    ConfigPy._read_secret_from_vault B self address w = (Raise (ValueError msg), w).
Proof.
  intros H. unfold ConfigPy._read_secret_from_vault, bind.
  rewrite !get_main_config_ok.
  destruct (truthy (get "vault_address" PNone (ConfigPy.main self))); cbn [negb];
    [|eexists; reflexivity].
  cbn in H. rewrite H. eexists; reflexivity.
Qed.

Lemma secrets_need_credentials_witness :
  exists msg,
    ConfigPy._read_secret_from_vault Fixture2.plain_boundary
      {| ConfigPy.main := [("vault_address", PStr "https://vault.example:8200")];
         ConfigPy.sections := [] |}
      "kv/app/db#password" Fixture.w0
    = (Raise (ValueError msg), Fixture.w0).
Proof.
  apply (secrets_need_credentials Fixture2.plain_boundary). reflexivity.
Defined.

(** X3.  Whatever the address and whatever the secret store answers,
    [_read_secret_from_vault] either returns a truthy value or raises
    [ValueError], never another exception; and it reads the store at most
    once. *)
Theorem read_secret_outcomes (B : boundary) (self : ConfigPy.Config)
    (address : string) (w : world) :
  let out := ConfigPy._read_secret_from_vault B self address w in
  match fst out with
  | Ok v => truthy v = true
  | Raise e => exists msg, e = ValueError msg
  end
  /\ (since w (snd out) = []
      \/ exists mount path, since w (snd out) = [VaultRead mount path]).
Proof.
  cbv zeta. unfold ConfigPy._read_secret_from_vault, bind.
  rewrite !get_main_config_ok.
  assert (Hnil : forall w0 : world, since w0 w0 = []).
  { intros w0. apply since_extends. now rewrite app_nil_r. }
  destruct (truthy (get "vault_address" PNone (ConfigPy.main self))); cbn [negb];
    [|split; [eexists; reflexivity | left; apply Hnil]].
  destruct (truthy (get "vault_token" PNone (ConfigPy.main self))); cbn [negb];
    [|split; [eexists; reflexivity | left; apply Hnil]].
  destruct (Nat.ltb 1 (length (split "#" address)));
    [|split; [eexists; reflexivity | left; apply Hnil]].
  destruct (nth 1 (split "#" address) EmptyString) as [|k0 key];
    [split; [eexists; reflexivity | left; apply Hnil]|].
  destruct (String.eqb _ EmptyString);
    [split; [eexists; reflexivity | left; apply Hnil]|].
  split.
  - apply lookup_secret_outcome.
  - right. eexists. eexists. apply lookup_secret_reads_once.
Qed.

(** X4.  A reference without a path, [<mount>#<key>], is not refused: the
    secret store is asked for the mount with no path ([None]). *)
Theorem reference_without_path (B : boundary) (self : ConfigPy.Config)
    (mount key : string) (w : world) :
  truthy (get "vault_address" PNone (ConfigPy.main self)) = true ->
  truthy (get "vault_token" PNone (ConfigPy.main self)) = true ->
  mount <> EmptyString -> key <> EmptyString ->
  occurs "/" mount = false -> occurs "#" mount = false -> occurs "#" key = false ->
  ConfigPy._read_secret_from_vault B self (mount +++ "#" +++ key) w
  = ConfigPy.lookup_secret B mount None key w.
Proof.
  intros Haddr Htok Hm Hk Hslash Hhash Hkey.
  unfold ConfigPy._read_secret_from_vault, bind.
  rewrite !get_main_config_ok, Haddr, Htok. cbn [negb].
  change (mount +++ "#" +++ key) with (mount +++ String "#" key).
  rewrite (split_at_first "#" mount key Hhash), (split_absent "#" key Hkey).
  cbn [length Nat.ltb Nat.leb nth].
  destruct key as [|k0 key']; [contradiction|].
  rewrite (split_absent "/" mount Hslash). cbn [length Nat.ltb Nat.leb nth].
  destruct mount; [contradiction | reflexivity].
Qed.

Lemma reference_without_path_witness :
  ConfigPy._read_secret_from_vault Fixture2.plain_boundary Fixture.the_config
    "kv#password" Fixture.w0
  = (Raise (ValueError "Error retrieving secret: InvalidPath"),
     record (VaultRead "kv" None) Fixture.w0).
Proof.
  refine (eq_trans
            (reference_without_path Fixture2.plain_boundary Fixture.the_config
               "kv" "password" Fixture.w0 eq_refl eq_refl _ _ eq_refl eq_refl eq_refl)
            _);
    [discriminate | discriminate | reflexivity].
Defined.

(** X5.  Only the text between the first and the second [#] is the key:
    what follows a second [#] in an address is ignored. *)
Theorem reference_second_hash_ignored (B : boundary) (self : ConfigPy.Config)
    (full_path key rest : string) (w : world) :
  occurs "#" full_path = false -> occurs "#" key = false ->
  ConfigPy._read_secret_from_vault B self
    (full_path +++ "#" +++ key +++ "#" +++ rest) w
  = ConfigPy._read_secret_from_vault B self (full_path +++ "#" +++ key) w.
Proof.
  intros Hp Hk. unfold ConfigPy._read_secret_from_vault, bind.
  change (full_path +++ "#" +++ key +++ "#" +++ rest)
    with (full_path +++ String "#" (key +++ String "#" rest)).
  change (full_path +++ "#" +++ key) with (full_path +++ String "#" key).
  rewrite !(split_at_first "#" full_path _ Hp).
  rewrite (split_at_first "#" key rest Hk), (split_absent "#" key Hk).
  destruct (split_nonempty "#" rest) as (x & xs & ->).
  reflexivity.
Qed.

Lemma reference_second_hash_ignored_witness :
  ConfigPy._read_secret_from_vault Fixture2.plain_boundary Fixture.the_config
    "kv/app/db#password#v2" Fixture.w0
  = (Ok (PStr "s3cret"), record (VaultRead "kv" (Some "app/db")) Fixture.w0).
Proof.
  refine (eq_trans
            (reference_second_hash_ignored Fixture2.plain_boundary Fixture.the_config
               "kv/app/db" "password" "v2" Fixture.w0 eq_refl eq_refl)
            _).
  reflexivity.
Defined.

(** X6.  Asking for a section that the configuration does not have, or for
    a name the section does not have, raises [ValueError] and reads
    nothing. *)
Theorem missing_config_section (B : boundary) (self : ConfigPy.Config)
    (section name : string) (w : world) :
  match lookup section (ConfigPy._config self) with
  | None => True
  | Some (PDict s) => lookup name s = None
  | Some _ => False
  end ->
  exists msg,
    ConfigPy._get_config_section B self section (PStr name) w
    = (Raise (ValueError msg), w).
Proof.
  intros H. unfold ConfigPy._get_config_section, bind, get_key, get.
  destruct (lookup section (ConfigPy._config self)) as [[| | | | |s]|];
    try contradiction.
  - cbn. rewrite H. cbn. eexists; reflexivity.
  - cbn. eexists; reflexivity.
Qed.

Lemma missing_config_section_witness :
  exists msg,
    ConfigPy.get_connection_config Fixture2.plain_boundary Fixture.the_config
      (PStr "staging") Fixture.w0
    = (Raise (ValueError msg), Fixture.w0).
Proof.
  apply (missing_config_section Fixture2.plain_boundary Fixture.the_config
           "perforce_connection" "staging" Fixture.w0).
  reflexivity.
Defined.

(** X7.  [retrieve_secrets_from_vault] changes values only: the section it
    returns has the keys of the section it was given, in the same order. *)
Theorem retrieve_keeps_keys (B : boundary) (self : ConfigPy.Config)
    (section : dict) (resolved : pyval) (w w' : world) :
  ConfigPy.retrieve_secrets_from_vault B self (PDict section) w = (Ok resolved, w') ->
  exists section',
    resolved = PDict section' /\ map fst section' = map fst section.
Proof.
  unfold ConfigPy.retrieve_secrets_from_vault, as_dict, bind, ret.
  destruct (for_each section (ConfigPy.resolve_item B self) section w)
    as [[s1|e] w1] eqn:E; [|discriminate].
  intros H. injection H as <- _.
  exists s1. split; [reflexivity|].
  apply (for_each_keys B self section section s1 w w1); [|exact E].
  intros item Hin. now apply in_map.
Qed.

Lemma retrieve_keeps_keys_witness :
  exists section',
    fst (ConfigPy.get_connection_config Fixture2.plain_boundary Fixture.the_config
           (PStr "default") Fixture.w0) = Ok (PDict section')
    /\ map fst section' = ["username"; "password"; "server_host"].
Proof.
  destruct (retrieve_keeps_keys Fixture2.plain_boundary Fixture.the_config
              [("username", PStr "builder");
               ("password", PStr "vault://kv/app/db#password");
               ("server_host", PStr "p4.example")]
              (PDict [("username", PStr "builder"); ("password", PStr "s3cret");
                      ("server_host", PStr "p4.example")])
              Fixture.w0 (record (VaultRead "kv" (Some "app/db")) Fixture.w0)
              eq_refl) as (s & Hs & Hk).
  exists s. split; [now rewrite <- Hs | exact Hk].
Defined.

(** ** Dictionaries *)

Section DictFacts.

Lemma lookup_set_same (k : string) (v : pyval) (d : dict) :
  lookup k (set k v d) = Some v.
Proof.
  induction d as [|[k' v'] d IH]; cbn.
  - now rewrite String.eqb_refl.
  - destruct (String.eqb k' k) eqn:E; cbn; rewrite E; [reflexivity | exact IH].
Qed.

Lemma lookup_set_other (k k' : string) (v : pyval) (d : dict) :
  k' <> k -> lookup k' (set k v d) = lookup k' d.
Proof.
  intros Hne. induction d as [|[k0 v0] d IH]; cbn.
  - destruct (String.eqb_spec k k'); [congruence | reflexivity].
  - destruct (String.eqb_spec k0 k) as [->|Hk]; cbn.
    + destruct (String.eqb_spec k k'); [congruence | reflexivity].
    + destruct (String.eqb k0 k'); [reflexivity | exact IH].
Qed.

Lemma set_present (k : string) (v : pyval) (d : dict) :
  lookup k d = Some v -> set k v d = d.
Proof.
  induction d as [|[k0 v0] d IH]; cbn; [discriminate|].
  destruct (String.eqb k0 k) eqn:E.
  - intros H. now injection H as ->.
  - intros H. now rewrite IH.
Qed.

End DictFacts.

(** X8.  Loading a configuration file whose [main] table has a textual
    [ci_home] or none: the load succeeds exactly when
    [changes_collection_mode] is absent, "timestamp" or "changelist", and
    raises [ValueError] otherwise; the loaded [main] has [ci_home] made
    absolute (from "./ci_home" when absent) and its other entries as in
    the file. *)
Theorem load_config_validates (B : boundary) (config_path : string)
    (file : string -> option dict) (loaded m : dict) (w : world) :
  let mode := get "changes_collection_mode" (PStr "timestamp") m in
  let ci_home :=
    match lookup "ci_home" m with Some (PStr p) => p | _ => "./ci_home" end in
  file (abspath B (cwd w) config_path) = Some loaded ->
  lookup "main" loaded = Some (PDict m) ->
  match lookup "ci_home" m with Some (PStr _) | None => True | Some _ => False end ->
  (ConfigLoadPy.allowed_mode mode = false ->
     exists msg,
       ConfigLoadPy._load_config B config_path file w = (Raise (ValueError msg), w))
  /\ (ConfigLoadPy.allowed_mode mode = true ->
        exists cfg,
          ConfigLoadPy._load_config B config_path file w = (Ok cfg, w)
          /\ lookup "ci_home" (ConfigPy.main cfg)
             = Some (PStr (abspath B (cwd w) ci_home))
          /\ (forall k, k <> "ci_home" ->
                lookup k (ConfigPy.main cfg) = lookup k m)
          /\ ConfigPy.sections cfg = remove "main" loaded).
Proof.
  cbv zeta. intros Hfile Hmain Hci.
  unfold ConfigLoadPy._load_config, bind, os_abspath, index, index_key.
  rewrite Hfile, Hmain. cbn [as_dict ret].
  assert (Hmode : forall p,
             get "changes_collection_mode" (PStr "timestamp")
               (set "ci_home" (PStr p) m)
             = get "changes_collection_mode" (PStr "timestamp") m).
  { intros p. unfold get. now rewrite lookup_set_other by discriminate. }
  assert (Hget : exists p,
             get "ci_home" (PStr "./ci_home") m = PStr p
             /\ p = match lookup "ci_home" m with Some (PStr p) => p | _ => "./ci_home" end).
  { unfold get. destruct (lookup "ci_home" m) as [[| | |p| |]|];
      try contradiction; eexists; split; reflexivity. }
  destruct Hget as (p & -> & <-).
  cbn [ret]. rewrite Hmode.
  split; intros Ha; rewrite Ha; cbn [negb].
  - eexists; reflexivity.
  - eexists; split; [reflexivity|]. cbn [ConfigPy.main ConfigPy.sections].
    split; [apply lookup_set_same|].
    split; [intros k Hk; now apply lookup_set_other | reflexivity].
Qed.

Lemma load_config_validates_witness :
  exists cfg,
    ConfigLoadPy._load_config Fixture2.plain_boundary "config.toml"
      Fixture2.config_file Fixture.w0 = (Ok cfg, Fixture.w0)
    /\ lookup "ci_home" (ConfigPy.main cfg) = Some (PStr "/home/build/./ci_home")
    /\ lookup "vault_token" (ConfigPy.main cfg) = Some (PStr "t0ken").
Proof.
  destruct (proj2 (load_config_validates Fixture2.plain_boundary "config.toml"
                     Fixture2.config_file
                     [("main", PDict [("vault_address", PStr "https://vault.example:8200");
                                      ("vault_token", PStr "t0ken")]);
                      ("perforce_connection",
                       PDict [("default",
                               PDict [("username", PStr "builder");
                                      ("password", PStr "vault://kv/app/db#password");
                                      ("server_host", PStr "p4.example")])])]
                     [("vault_address", PStr "https://vault.example:8200");
                      ("vault_token", PStr "t0ken")]
                     Fixture.w0 eq_refl eq_refl I) eq_refl)
    as (cfg & Hload & Hci & Hother & _).
  exists cfg. split; [exact Hload|]. split; [exact Hci|].
  rewrite Hother by discriminate. reflexivity.
Defined.

(** ** scm/perforce.py: further properties *)

Section ConnectionMore.

Import PerforcePy.

Variable B : boundary.
Variable self : PerforceSCM.

Let c : nat := conn_id (_connection self).

(** The log of an operation run inside the workspace context, whether or
    not the context could be entered. *)
Lemma in_client_log_cases {A} (body : M A) (w : world) :
  (forall w1, exists l, log (snd (body w1)) = log w1 ++ l) ->
  exists l1 lb,
    Forall (fun e => is_setup e = true) l1
    /\ since w (snd (_in_client B self body w)) = l1 ++ lb ++ [OsChdir (cwd w)]
    /\ (lb = [] \/ exists w1, lb = since w1 (snd (body w1))).
Proof.
  intros Hbody.
  destruct (enter_client B self w) as [[[]|e] w1] eqn:Henter.
  - destruct (in_client_log B self body w w1 Henter (Hbody w1)) as (l1 & F1 & _ & E).
    exists l1, (since w1 (snd (body w1))). split; [exact F1|]. split; [exact E|].
    right. now exists w1.
  - destruct (enter_client_setup B self w) as (l1 & E1 & F1).
    rewrite Henter in E1. cbn in E1.
    exists l1, []. split; [exact F1|]. split; [|now left].
    change (_in_client B self body w)
      with (try_finally (enter_client B self ;; body) (chdir B (cwd w)) w).
    unfold try_finally, bind. rewrite Henter.
    apply since_extends. unfold chdir.
    destruct (chdir_reply B (log w1) (cwd w)); cbn; rewrite E1, <- app_assoc; reflexivity.
Qed.

Lemma no_submit_calls (l : list event) :
  Forall (fun e => submit_call e = []) l -> submit_calls l = [].
Proof.
  intros F. unfold submit_calls. induction F as [|e l He _ IH]; [reflexivity|].
  cbn [flat_map]. rewrite He. exact IH.
Qed.

Lemma upload_file_emits (P : event -> Prop) (file : string) (has_changes : bool) :
  (forall e, is_reconcile e = true -> P e) ->
  (forall level msg, P (Logging level msg)) ->
  emits P (upload_file B self file has_changes).
Proof.
  intros Hrec Hlog. unfold upload_file, run_reconcile.
  apply emits_bind.
  - apply emits_try_except.
    + repeat emits_step. now apply Hrec.
    + intros e h Eh. destruct e; try discriminate. injection Eh as <-.
      destruct (contains nothing_to_reconcile_text msg); repeat emits_step.
      apply Hlog.
  - intros modified. destruct modified; repeat emits_step; [now apply Hrec | apply Hlog].
Qed.

Lemma upload_path_emits (P : event -> Prop) (file_path : string) (has_changes : bool) :
  (forall e, is_reconcile e = true -> P e) ->
  (forall level msg, P (Logging level msg)) ->
  (forall pattern, P (GlobGlob pattern)) ->
  emits P (upload_path B self file_path has_changes).
Proof.
  intros Hrec Hlog Hglob. unfold upload_path.
  apply emits_bind.
  - intros w. exists [GlobGlob file_path]. split; [reflexivity | auto].
  - intros files. destruct files as [|f files].
    + repeat emits_step. apply Hlog.
    + apply emits_for_each. intros x s. now apply upload_file_emits.
Qed.

Lemma upload_loop_emits (P : event -> Prop) (paths : list string) (has_changes : bool) :
  (forall e, is_reconcile e = true -> P e) ->
  (forall level msg, P (Logging level msg)) ->
  (forall pattern, P (GlobGlob pattern)) ->
  emits P (for_each paths (upload_path B self) has_changes).
Proof.
  intros Hrec Hlog Hglob. apply emits_for_each.
  intros x s. now apply upload_path_emits.
Qed.

Lemma reconcile_is_no_submit (e : event) : is_reconcile e = true -> submit_call e = [].
Proof.
  destruct e; try discriminate. unfold is_reconcile, runs_command. cbn.
  intros H. apply String.eqb_eq in H. now subst.
Qed.

Lemma upload_body_extends (paths : list string) (message : pyval) (w : world) :
  exists l, log (snd (upload_body B self paths message w)) = log w ++ l.
Proof.
  assert (H : emits (fun _ => True) (upload_body B self paths message)).
  { unfold upload_body. apply emits_bind.
    - now apply upload_loop_emits.
    - intros has. destruct has; unfold run_submit; now repeat emits_step. }
  destruct (H w) as (l & E & _). now exists l.
Qed.

(** The body of [upload] issues no submit call, or one, the last event. *)
Lemma upload_body_submits (paths : list string) (message : pyval) (w : world) :
  let calls := submit_calls (since w (snd (upload_body B self paths message w))) in
  calls = [] \/ calls = [[PStr "-d"; message]].
Proof.
  cbv zeta. unfold upload_body, bind.
  destruct (upload_loop_emits (fun e => submit_call e = []) paths false
              reconcile_is_no_submit (fun _ _ => eq_refl) (fun _ => eq_refl) w)
    as (l & E & F).
  destruct (for_each paths (upload_path B self) false w) as [[has|e] w2]; cbn in E.
  - destruct has.
    + right. unfold run_submit, p4_call.
      assert (Es : forall r : result unit,
                 since w (snd (r, record (P4Run c "submit" [PStr "-d"; message]) w2))
                 = l ++ [P4Run c "submit" [PStr "-d"; message]]).
      { intros r. apply since_extends. cbn. now rewrite E, <- app_assoc. }
      fold c. destruct (p4_reply B (log w2) _); rewrite Es;
        unfold submit_calls; rewrite flat_map_app;
        fold (submit_calls l); rewrite (no_submit_calls l F); reflexivity.
    + left. cbn.
      erewrite since_extends by (cbn; rewrite E, <- app_assoc; reflexivity).
      unfold submit_calls. rewrite flat_map_app.
      fold (submit_calls l). now rewrite (no_submit_calls l F).
  - left. cbn. rewrite (since_extends _ _ _ E). now apply no_submit_calls.
Qed.

End ConnectionMore.

(** The fields of a world after one of the updates. *)
Section WorldFacts.

Variables (e : event) (c : nat) (b : bool) (d : string) (name : pyval) (w : world).

Lemma log_record : log (record e w) = log w ++ [e].
Proof. reflexivity. Qed.
Lemma log_set_connected : log (set_connected c b w) = log w.
Proof. reflexivity. Qed.
Lemma log_set_p4_client : log (set_p4_client c name w) = log w.
Proof. reflexivity. Qed.
Lemma log_set_cwd : log (set_cwd d w) = log w.
Proof. reflexivity. Qed.
Lemma connected_record : connected (record e w) = connected w.
Proof. reflexivity. Qed.
Lemma connected_set_p4_client : connected (set_p4_client c name w) = connected w.
Proof. reflexivity. Qed.
Lemma connected_set_cwd : connected (set_cwd d w) = connected w.
Proof. reflexivity. Qed.
Lemma connected_set_connected : connected (set_connected c b w) c = b.
Proof. cbn. now rewrite Nat.eqb_refl. Qed.
Lemma p4_client_record : p4_client (record e w) = p4_client w.
Proof. reflexivity. Qed.
Lemma p4_client_set_cwd : p4_client (set_cwd d w) = p4_client w.
Proof. reflexivity. Qed.
Lemma p4_client_set_p4_client : p4_client (set_p4_client c name w) c = Some name.
Proof. cbn. now rewrite Nat.eqb_refl. Qed.
Lemma cwd_record : cwd (record e w) = cwd w.
Proof. reflexivity. Qed.
Lemma cwd_set_cwd : cwd (set_cwd d w) = d.
Proof. reflexivity. Qed.
Lemma cwd_set_connected : cwd (set_connected c b w) = cwd w.
Proof. reflexivity. Qed.

End WorldFacts.

Ltac world_simpl :=
  repeat (progress
            rewrite ?log_record, ?log_set_connected, ?log_set_p4_client, ?log_set_cwd,
              ?connected_record, ?connected_set_p4_client, ?connected_set_cwd,
              ?connected_set_connected, ?p4_client_record, ?p4_client_set_cwd,
              ?p4_client_set_p4_client, ?cwd_record, ?cwd_set_cwd, ?cwd_set_connected).

(** X9.  Entering the workspace context with a connection that is already
    connected connects nothing: the only thing done is the change to the
    workspace root (no connect, trust, login or client definition). *)
Theorem reentry_skips_connect (B : boundary) (self : PerforcePy.PerforceSCM)
    (w : world) :
  connected w (PerforcePy.conn_id (PerforcePy._connection self)) = true ->
  since w (snd (PerforcePy.enter_client B self w))
  = [OsChdir (PerforcePy.client_root self)].
Proof.
  intros H. unfold PerforcePy.enter_client, PerforcePy.p4_connected, bind.
  rewrite H. cbn [negb ret]. unfold chdir.
  destruct (chdir_reply B (log w) (PerforcePy.client_root self)); now since_log.
Qed.

Lemma reentry_skips_connect_witness :
  since Fixture2.w_connected
    (snd (PerforcePy.enter_client Fixture2.plain_boundary (Fixture.scm0 false)
            Fixture2.w_connected))
  = [OsChdir "/ws"].
Proof.
  apply (reentry_skips_connect Fixture2.plain_boundary (Fixture.scm0 false)
           Fixture2.w_connected).
  reflexivity.
Defined.

(** X10.  On a depot and a file system on which no call fails, entering the
    workspace context with a connection that is not connected does, in
    this order: connect; the two trust calls (reset, then accept) when
    [server_trust] is set; login; fetch of the client spec; save of that
    spec with stream, root and options set; creation of the root
    directory; change to it.  Afterwards the connection is connected and
    bound to the client name. *)
Theorem connect_sequence (B : boundary) (self : PerforcePy.PerforceSCM) (w : world) :
  let c := PerforcePy.conn_id (PerforcePy._connection self) in
  connected w c = false ->
  (forall l e, p4_reply B l e = None) ->
  (forall l p, makedirs_reply B l p = None) ->
  (forall l p, chdir_reply B l p = None) ->
  exists w',
    PerforcePy.enter_client B self w = (Ok tt, w')
    /\ since w w'
       = connect_events B self (log w) ++ [OsChdir (PerforcePy.client_root self)]
    /\ connected w' c = true
    /\ p4_client w' c = Some (PerforcePy.client_name self)
    /\ cwd w' = PerforcePy.client_root self.
Proof.
  cbv zeta. intros Hoff Hp4 Hmk Hcd.
  unfold PerforcePy.enter_client, PerforcePy.p4_connected, bind.
  rewrite Hoff. cbn [negb].
  unfold PerforcePy._connect, PerforcePy.p4_connect, PerforcePy.run_login,
    PerforcePy._create_client, PerforcePy.fetch_client, PerforcePy.run_trust,
    connect_events, trust_events, saved_client_spec, bind, p4_call, makedirs, chdir, ret.
  destruct (truthy (PerforcePy.server_trust self));
    repeat (rewrite ?Hp4, ?Hmk, ?Hcd; world_simpl);
    eexists; (split; [reflexivity|]);
    (split;
     [ unfold since; world_simpl;
       rewrite <- !app_assoc; rewrite skipn_app, skipn_all, Nat.sub_diag;
       cbn [skipn app]; reflexivity
     |]);
    world_simpl; auto.
Qed.

Lemma connect_sequence_witness :
  exists w',
    PerforcePy.enter_client Fixture2.plain_boundary (Fixture.scm0 false) Fixture.w0
    = (Ok tt, w')
    /\ since Fixture.w0 w'
       = [P4Connect 0; P4Run 0 "trust" [PStr "-d"];
          P4Run 0 "trust" [PStr "-y"; PStr "-f"]; P4Run 0 "login" [];
          P4FetchClient 0 (PStr "builder-ws");
          P4SaveClient 0
            [("Client", PStr "builder-ws"); ("Stream", PStr "//depot/main");
             ("Root", PStr "/ws"); ("Options", PStr "rmdir allwrite")];
          OsMakedirs "/ws"; OsChdir "/ws"]
    /\ connected w' 0 = true.
Proof.
  destruct (connect_sequence Fixture2.plain_boundary (Fixture.scm0 false) Fixture.w0
              eq_refl (fun _ _ => eq_refl) (fun _ _ => eq_refl) (fun _ _ => eq_refl))
    as (w' & He & Hs & Hc & _).
  exists w'. split; [exact He|]. split; [exact Hs | exact Hc].
Defined.

(** X11.  A failed login is fatal and leaves the connection connected: on
    a depot on which only [login] fails, an operation run inside the
    workspace context raises the error of the login; the body is not run,
    no client is defined, the login is attempted once, and the working
    directory is as before. *)
Theorem login_failure_is_fatal (B : boundary) (self : PerforcePy.PerforceSCM)
    (A : Type) (body : M A) (w : world) (msg : string) :
  let c := PerforcePy.conn_id (PerforcePy._connection self) in
  connected w c = false ->
  (forall l e, p4_reply B l e = if runs_command "login" e then Some msg else None) ->
  (forall l, chdir_reply B l (cwd w) = None) ->
  exists w',
    PerforcePy._in_client B self body w = (Raise (P4Exception msg), w')
    /\ since w w'
       = [P4Connect c] ++ trust_events self ++ [P4Run c "login" []; OsChdir (cwd w)]
    /\ connected w' c = true
    /\ cwd w' = cwd w.
Proof.
  cbv zeta. intros Hoff Hp4 Hback.
  change (PerforcePy._in_client B self body w)
    with (try_finally (PerforcePy.enter_client B self ;; body) (chdir B (cwd w)) w).
  unfold try_finally, PerforcePy.enter_client, PerforcePy.p4_connected, bind.
  rewrite Hoff. cbn [negb].
  unfold PerforcePy._connect, PerforcePy.p4_connect, PerforcePy.run_login,
    PerforcePy.run_trust, trust_events, bind, p4_call, chdir, ret.
  destruct (truthy (PerforcePy.server_trust self));
    repeat (rewrite Hp4;
            cbn [runs_command p4_command String.eqb Ascii.eqb Bool.eqb andb]);
    rewrite Hback;
    eexists; (split; [reflexivity|]);
    (split;
     [ unfold since; world_simpl;
       rewrite <- !app_assoc; rewrite skipn_app, skipn_all, Nat.sub_diag;
       cbn [skipn app]; reflexivity
     |]);
    world_simpl; auto.
Qed.

Lemma login_failure_is_fatal_witness :
  exists w',
    PerforcePy.checkout (Fixture.make Fixture2.p4_login_fails Fixture.no_files
                           Fixture.shell_ok)
      (Fixture.scm0 false) PNone Fixture.w0
    = (Raise (P4Exception "Password invalid."), w')
    /\ since Fixture.w0 w'
       = [P4Connect 0; P4Run 0 "trust" [PStr "-d"];
          P4Run 0 "trust" [PStr "-y"; PStr "-f"]; P4Run 0 "login" [];
          OsChdir "/home/build"]
    /\ connected w' 0 = true.
Proof.
  destruct (login_failure_is_fatal
              (Fixture.make Fixture2.p4_login_fails Fixture.no_files Fixture.shell_ok)
              (Fixture.scm0 false) unit
              (PerforcePy.checkout_body
                 (Fixture.make Fixture2.p4_login_fails Fixture.no_files Fixture.shell_ok)
                 (Fixture.scm0 false) PNone)
              Fixture.w0 "Password invalid." eq_refl)
    as (w' & He & Hs & Hc & _).
  - intros l e. destruct e; reflexivity.
  - intros l. reflexivity.
  - exists w'. split; [exact He|]. split; [exact Hs | exact Hc].
Defined.

(** X12.  When the client spec can be fetched, [_create_client] saves the
    fetched spec with [Stream] set to [//<depot>/<stream>], [Root] to the
    client root and [Options] to "rmdir allwrite", every other field as
    fetched; saving is the second depot call.  Applying the same
    definition to a spec that already has it changes nothing. *)
Theorem client_spec_saved (B : boundary) (self : PerforcePy.PerforceSCM) (w : world) :
  let c := PerforcePy.conn_id (PerforcePy._connection self) in
  let name := PerforcePy.client_name self in
  let fetched := p4_client_spec B (log w) name in
  let spec := saved_client_spec B self fetched in
  p4_reply B (log w) (P4FetchClient c name) = None ->
  (exists rest,
      since w (snd (PerforcePy._create_client B self w))
      = P4FetchClient c name :: P4SaveClient c spec :: rest)
  /\ lookup "Stream" spec
     = Some (PStr ("//" +++ py_str B (PerforcePy.depot_name self) +++ "/" +++
                   py_str B (PerforcePy.stream_name self)))
  /\ lookup "Root" spec = Some (PStr (PerforcePy.client_root self))
  /\ lookup "Options" spec = Some (PStr "rmdir allwrite")
  /\ (forall k, k <> "Stream" -> k <> "Root" -> k <> "Options" ->
        lookup k spec = lookup k fetched)
  /\ saved_client_spec B self spec = spec.
Proof.
  cbv zeta. intros Hfetch.
  assert (Hs : lookup "Stream"
                 (saved_client_spec B self
                    (p4_client_spec B (log w) (PerforcePy.client_name self)))
               = Some (PStr ("//" +++ py_str B (PerforcePy.depot_name self) +++ "/" +++
                             py_str B (PerforcePy.stream_name self)))).
  { unfold saved_client_spec.
    rewrite !lookup_set_other by discriminate. apply lookup_set_same. }
  assert (Hr : lookup "Root"
                 (saved_client_spec B self
                    (p4_client_spec B (log w) (PerforcePy.client_name self)))
               = Some (PStr (PerforcePy.client_root self))).
  { unfold saved_client_spec.
    rewrite lookup_set_other by discriminate. apply lookup_set_same. }
  assert (Ho : lookup "Options"
                 (saved_client_spec B self
                    (p4_client_spec B (log w) (PerforcePy.client_name self)))
               = Some (PStr "rmdir allwrite")).
  { unfold saved_client_spec. apply lookup_set_same. }
  split; [|split; [exact Hs | split; [exact Hr | split; [exact Ho | split]]]].
  - unfold PerforcePy._create_client, PerforcePy.fetch_client, bind, p4_call, makedirs.
    rewrite Hfetch. fold (saved_client_spec B self
                            (p4_client_spec B (log w) (PerforcePy.client_name self))).
    destruct (p4_reply B _ (P4SaveClient _ _)).
    + exists []. apply since_extends. cbn [snd]. world_simpl.
      now rewrite <- !app_assoc.
    + destruct (makedirs_reply B _ _); eexists; apply since_extends; cbn [snd];
        world_simpl; rewrite <- !app_assoc; reflexivity.
  - intros k H1 H2 H3. unfold saved_client_spec.
    now rewrite !lookup_set_other by congruence.
  - set (spec := saved_client_spec B self _) in *.
    unfold saved_client_spec at 1.
    rewrite (set_present "Stream" _ spec Hs), (set_present "Root" _ spec Hr).
    now apply set_present.
Qed.

Lemma client_spec_saved_witness :
  saved_client_spec Fixture2.plain_boundary (Fixture.scm0 false)
    (saved_client_spec Fixture2.plain_boundary (Fixture.scm0 false)
       [("Client", PStr "builder-ws")])
  = [("Client", PStr "builder-ws"); ("Stream", PStr "//depot/main");
     ("Root", PStr "/ws"); ("Options", PStr "rmdir allwrite")].
Proof.
  destruct (client_spec_saved Fixture2.plain_boundary (Fixture.scm0 false) Fixture.w0
              eq_refl) as (_ & _ & _ & _ & _ & Hidem).
  exact Hidem.
Defined.

Section CheckoutMore.

Import PerforcePy.

Variable B : boundary.
Variable self : PerforceSCM.

(** The body of [checkout] when the probe fails for another reason. *)
Lemma checkout_body_probe_failure (revision : pyval) (w : world) (msg : string) :
  let probe := P4Run (conn_id (_connection self)) "sync"
                 (PStr "-n" :: sync_args B self revision) in
  p4_reply B (log w) probe = Some msg ->
  contains up_to_date_text msg = false ->
  checkout_body B self revision w = (Raise (P4Exception msg), record probe w).
Proof.
  cbv zeta. intros Hprobe Hmsg.
  unfold checkout_body, bind, try_except, run_sync, p4_call.
  now rewrite Hprobe, Hmsg.
Qed.

End CheckoutMore.

(** X13.  When the probe [sync -n] fails with an error other than "up to
    date", [checkout] raises that error and the probe is the only sync
    call: the real sync is not issued, also with [sync_force] set. *)
Theorem checkout_probe_failure (B : boundary) (self : PerforcePy.PerforceSCM)
    (revision : pyval) (w w1 : world) (msg : string) :
  let probe := P4Run (PerforcePy.conn_id (PerforcePy._connection self)) "sync"
                 (PStr "-n" :: PerforcePy.sync_args B self revision) in
  let out := PerforcePy.checkout B self revision w in
  PerforcePy.enter_client B self w = (Ok tt, w1) ->
  p4_reply B (log w1) probe = Some msg ->
  contains PerforcePy.up_to_date_text msg = false ->
  (forall l, chdir_reply B l (cwd w) = None) ->
  fst out = Raise (P4Exception msg)
  /\ filter is_sync (since w (snd out)) = [probe].
Proof.
  cbv zeta. intros Henter Hprobe Hmsg Hback.
  pose proof (checkout_body_probe_failure B self revision w1 msg Hprobe Hmsg) as Eb.
  unfold PerforcePy.checkout. split.
  - rewrite in_client_outcome by exact Hback.
    unfold bind. now rewrite Henter, Eb.
  - destruct (in_client_log B self (PerforcePy.checkout_body B self revision) w w1
                Henter (checkout_body_extends B self revision w1))
      as (l1 & F1 & _ & E).
    rewrite E, !filter_app.
    rewrite (setup_filtered "sync" l1 eq_refl eq_refl F1 : filter is_sync l1 = []).
    rewrite Eb. cbn [snd].
    rewrite (since_extends w1 (record _ w1) [_] eq_refl).
    reflexivity.
Qed.

Lemma checkout_probe_failure_witness :
  let B := Fixture.make Fixture.p4_sync_fails Fixture.no_files Fixture.shell_ok in
  let out := PerforcePy.checkout B (Fixture.scm0 true) PNone Fixture.w0 in
  fst out = Raise (P4Exception "Connect to server failed; check $P4PORT.")
  /\ filter is_sync (since Fixture.w0 (snd out))
     = [P4Run 0 "sync" [PStr "-n"; PStr "-f"]].
Proof.
  intros B out.
  apply (checkout_probe_failure B (Fixture.scm0 true) PNone Fixture.w0
           (snd (PerforcePy.enter_client B (Fixture.scm0 true) Fixture.w0))
           "Connect to server failed; check $P4PORT.");
    reflexivity.
Defined.

(** X14.  Whatever the depot answers, an upload issues at most one submit
    call, and that call has the arguments [-d] and the message. *)
Theorem upload_submits_at_most_once (B : boundary) (self : PerforcePy.PerforceSCM)
    (paths : option (list string)) (message : pyval) (w : world) :
  let calls :=
    submit_calls (since w (snd (PerforcePy.upload B self paths message w))) in
  calls = [] \/ calls = [[PStr "-d"; message]].
Proof.
  cbv zeta. unfold PerforcePy.upload.
  set (l := match paths with Some l => l | None => [] end).
  destruct (in_client_log_cases B self (PerforcePy.upload_body B self l message) w
              (upload_body_extends B self l message))
    as (l1 & lb & F1 & E & Hlb).
  rewrite E. unfold submit_calls. rewrite !flat_map_app.
  fold (submit_calls l1). fold (submit_calls lb).
  rewrite (proj2 (setup_not_reconciled l1 F1)). cbn [app flat_map submit_call].
  rewrite app_nil_r.
  destruct Hlb as [->|[w1 ->]]; [now left|].
  apply upload_body_submits.
Qed.

Section UploadAbort.

Import PerforcePy.

Variable B : boundary.
Variable self : PerforceSCM.

Let c : nat := conn_id (_connection self).

Lemma cwd_extend (l : list event) (w : world) : cwd (extend l w) = cwd w.
Proof. reflexivity. Qed.

(** A pattern that matches something: the loop over the matches. *)
Lemma upload_path_matching (file_path : string) (has_changes : bool) (w : world)
    (files : list string) :
  glob_glob B (log w) (cwd w) file_path = files ->
  files <> [] ->
  upload_path B self file_path has_changes w
  = for_each files (upload_file B self) has_changes (extend [GlobGlob file_path] w).
Proof.
  intros Hglob Hne. unfold upload_path, bind, glob. rewrite Hglob.
  destruct files; [contradiction | reflexivity].
Qed.

(** A file whose probe fails for another reason. *)
Lemma upload_file_fails (file : string) (has_changes : bool) (w : world) (msg : string) :
  p4_reply B (log w) (dry_reconcile c (abspath B (cwd w)) file) = Some msg ->
  contains nothing_to_reconcile_text msg = false ->
  upload_file B self file has_changes w
  = (Raise (P4Exception msg),
     extend [dry_reconcile c (abspath B (cwd w)) file] w).
Proof.
  intros Hprobe Hmsg.
  unfold upload_file, bind, try_except, os_abspath, run_reconcile, p4_call.
  fold c. unfold dry_reconcile in Hprobe. now rewrite Hprobe, Hmsg.
Qed.

Variable modified : string -> bool.
Variable expand : string -> list string.

(** The body of [upload] up to the first file whose probe fails. *)
Lemma upload_body_aborts (before after pre post : list string) (p f : string)
    (message : pyval) (w : world) (msg : string) :
  let abs := abspath B (cwd w) in
  let done := flat_map expand before ++ pre in
  (forall l q, In q (before ++ [p]) -> glob_glob B l (cwd w) q = expand q) ->
  expand p = pre ++ f :: post ->
  (forall l g, In g done ->
     classify_reconcile (p4_reply B l (dry_reconcile c abs g))
     = if modified g then Modified else Unchanged) ->
  (forall l g, In g done -> modified g = true ->
     p4_reply B l (real_reconcile c abs g) = None) ->
  (forall l, p4_reply B l (dry_reconcile c abs f) = Some msg) ->
  contains nothing_to_reconcile_text msg = false ->
  upload_body B self (before ++ p :: after) message w
  = (Raise (P4Exception msg),
     extend (flat_map (path_events c abs modified expand) before
             ++ [GlobGlob p]
             ++ flat_map (file_events c abs modified) pre
             ++ [dry_reconcile c abs f]) w).
Proof.
  cbv zeta. intros Hglob Hexp Hdry Hreal Hfail Hmsg.
  unfold upload_body. unfold bind at 1.
  rewrite for_each_app. unfold bind at 1.
  rewrite (upload_paths_run B self modified expand before false w).
  - cbn [for_each]. unfold bind at 1.
    rewrite (upload_path_matching p _ _ (pre ++ f :: post)).
    + rewrite for_each_app. unfold bind at 1.
      rewrite (upload_files_run B self modified pre).
      * cbn [for_each]. unfold bind.
        rewrite (upload_file_fails f _ _ msg).
        -- rewrite !cwd_extend, !extend_extend.
           rewrite <- ?app_assoc. reflexivity.
        -- apply Hfail.
        -- exact Hmsg.
      * intros l g Hg. apply Hdry. apply in_or_app. now right.
      * intros l g Hg Hm. apply Hreal; [apply in_or_app; now right | exact Hm].
    + rewrite cwd_extend, Hglob; [exact Hexp|].
      apply in_or_app. right. now left.
    + destruct pre; discriminate.
  - intros l q Hq. apply Hglob. apply in_or_app. now left.
  - intros l g Hg. apply Hdry. apply in_or_app. now left.
  - intros l g Hg Hm. apply Hreal; [apply in_or_app; now left | exact Hm].
Qed.

End UploadAbort.

(** X15.  When the probe [reconcile -n] of a file fails with an error other
    than "nothing to reconcile", [upload] raises that error and issues no
    submit call; the modified files scanned before it have been really
    reconciled (they stay open in the workspace), the later ones are not
    looked at. *)
Theorem upload_aborts_on_reconcile_error (B : boundary)
    (self : PerforcePy.PerforceSCM) (before after pre post : list string)
    (p f : string) (message : pyval) (w w1 : world) (msg : string)
    (expand : string -> list string) (modified : string -> bool) :
  let c := PerforcePy.conn_id (PerforcePy._connection self) in
  let abs := abspath B (PerforcePy.client_root self) in
  let done := flat_map expand before ++ pre in
  let out := PerforcePy.upload B self (Some (before ++ p :: after)) message w in
  PerforcePy.enter_client B self w = (Ok tt, w1) ->
  (forall l q, In q (before ++ [p]) ->
     glob_glob B l (PerforcePy.client_root self) q = expand q) ->
  expand p = pre ++ f :: post ->
  (forall l g, In g done ->
     classify_reconcile (p4_reply B l (dry_reconcile c abs g))
     = if modified g then Modified else Unchanged) ->
  (forall l g, In g done -> modified g = true ->
     p4_reply B l (real_reconcile c abs g) = None) ->
  (forall l, p4_reply B l (dry_reconcile c abs f) = Some msg) ->
  contains PerforcePy.nothing_to_reconcile_text msg = false ->
  (forall l, chdir_reply B l (cwd w) = None) ->
  fst out = Raise (P4Exception msg)
  /\ submit_calls (since w (snd out)) = []
  /\ reconciled_files (since w (snd out)) = map abs (filter modified done).
Proof.
  cbv zeta. intros Henter Hglob Hexp Hdry Hreal Hfail Hmsg Hback.
  pose proof (enter_client_cwd B self w w1 Henter) as Hcwd.
  rewrite <- Hcwd in Hglob, Hdry, Hreal, Hfail.
  pose proof (upload_body_aborts B self modified expand before after pre post p f
                message w1 msg Hglob Hexp Hdry Hreal Hfail Hmsg) as Eb.
  unfold PerforcePy.upload. split; [|split].
  - rewrite in_client_outcome by exact Hback.
    unfold bind. now rewrite Henter, Eb.
  - destruct (in_client_log B self _ w w1 Henter
                (upload_body_extends B self (before ++ p :: after) message w1))
      as (l1 & F1 & _ & E).
    rewrite E, Eb. cbn [snd]. rewrite since_extend.
    unfold submit_calls. rewrite !flat_map_app.
    fold (submit_calls l1).
    fold (submit_calls (flat_map (path_events (PerforcePy.conn_id
            (PerforcePy._connection self)) (abspath B (cwd w1)) modified expand) before)).
    fold (submit_calls (flat_map (file_events (PerforcePy.conn_id
            (PerforcePy._connection self)) (abspath B (cwd w1)) modified) pre)).
    rewrite (proj2 (setup_not_reconciled l1 F1)), submit_path_events,
      submit_file_events.
    reflexivity.
  - destruct (in_client_log B self _ w w1 Henter
                (upload_body_extends B self (before ++ p :: after) message w1))
      as (l1 & F1 & _ & E).
    rewrite E, Eb. cbn [snd]. rewrite since_extend.
    unfold reconciled_files. rewrite !flat_map_app.
    fold (reconciled_files l1).
    fold (reconciled_files (flat_map (path_events (PerforcePy.conn_id
            (PerforcePy._connection self)) (abspath B (cwd w1)) modified expand) before)).
    fold (reconciled_files (flat_map (file_events (PerforcePy.conn_id
            (PerforcePy._connection self)) (abspath B (cwd w1)) modified) pre)).
    rewrite (proj1 (setup_not_reconciled l1 F1)), reconciled_path_events,
      reconciled_files_events.
    cbn [app flat_map reconciled_file dry_reconcile].
    rewrite !app_nil_r, filter_app, map_app, Hcwd. reflexivity.
Qed.

Lemma upload_aborts_on_reconcile_error_witness :
  let B := Fixture.make Fixture2.p4_b_fails Fixture.three_files Fixture.shell_ok in
  let out := PerforcePy.upload B (Fixture.scm0 false) (Some ["out/*.txt"; "c.bin"])
               (PStr "Nightly artefacts") Fixture.w0 in
  fst out = Raise (P4Exception "Connection to server lost.")
  /\ submit_calls (since Fixture.w0 (snd out)) = []
  /\ reconciled_files (since Fixture.w0 (snd out)) = ["/ws/out/a.txt"].
Proof.
  intros B out.
  apply (upload_aborts_on_reconcile_error B (Fixture.scm0 false)
           [] ["c.bin"] ["out/a.txt"] [] "out/*.txt" "out/b.txt"
           (PStr "Nightly artefacts") Fixture.w0
           (snd (PerforcePy.enter_client B (Fixture.scm0 false) Fixture.w0))
           "Connection to server lost." Fixture.three_files (fun _ => true)).
  - reflexivity.
  - intros l q [<-|[]]. reflexivity.
  - reflexivity.
  - intros l g [<-|[]]. reflexivity.
  - intros l g [<-|[]] _. reflexivity.
  - intros l. reflexivity.
  - reflexivity.
  - intros l. reflexivity.
Defined.

(** X16.  [cleanup] logs out and then disconnects.  When the logout fails,
    its error is raised and the disconnect is not attempted: the
    connection stays as it was.  When both succeed the connection is
    disconnected afterwards. *)
Theorem cleanup_outcomes (B : boundary) (self : PerforcePy.PerforceSCM) (w : world) :
  let c := PerforcePy.conn_id (PerforcePy._connection self) in
  let logout := P4Run c "logout" [] in
  (forall msg,
      p4_reply B (log w) logout = Some msg ->
      PerforcePy.cleanup B self w = (Raise (P4Exception msg), record logout w))
  /\ (p4_reply B (log w) logout = None ->
      p4_reply B (log w ++ [logout]) (P4Disconnect c) = None ->
      exists w',
        PerforcePy.cleanup B self w = (Ok tt, w')
        /\ since w w' = [logout; P4Disconnect c]
        /\ connected w' c = false).
Proof.
  cbv zeta.
  unfold PerforcePy.cleanup, PerforcePy.run_logout, PerforcePy.p4_disconnect,
    bind, p4_call.
  split.
  - intros msg ->. reflexivity.
  - intros -> Hd. cbn [record log]. rewrite Hd.
    eexists. split; [reflexivity|]. split.
    + apply since_extends. world_simpl. now rewrite <- app_assoc.
    + now world_simpl.
Qed.

Lemma cleanup_outcomes_witness :
  PerforcePy.cleanup
    (Fixture.make Fixture.p4_logout_fails Fixture.no_files Fixture.shell_ok)
    (Fixture.scm0 false) Fixture2.w_connected
  = (Raise (P4Exception "Perforce password (P4PASSWD) invalid or unset."),
     record (P4Run 0 "logout" []) Fixture2.w_connected)
  /\ exists w',
      PerforcePy.cleanup Fixture2.plain_boundary (Fixture.scm0 false)
        Fixture2.w_connected = (Ok tt, w')
      /\ connected w' 0 = false.
Proof.
  split.
  - apply (proj1 (cleanup_outcomes
                    (Fixture.make Fixture.p4_logout_fails Fixture.no_files
                       Fixture.shell_ok)
                    (Fixture.scm0 false) Fixture2.w_connected)).
    reflexivity.
  - destruct (proj2 (cleanup_outcomes Fixture2.plain_boundary (Fixture.scm0 false)
                       Fixture2.w_connected) eq_refl eq_refl)
      as (w' & He & _ & Hc).
    exists w'. split; [exact He | exact Hc].
Defined.

(** ** action/action.py: further properties *)

Section CommandFacts.

Variable B : boundary.

Lemma run_command_ok (command : pyval) (w : world) :
  ActionPy.popen_error command = None ->
  shell_reply B (log w) command = 0%Z ->
  ActionPy.run_command B command w = (Ok tt, extend [SubprocessRun command] w).
Proof. intros Ht H. unfold ActionPy.run_command. now rewrite Ht, H. Qed.

Lemma run_command_fails (command : pyval) (w : world) :
  ActionPy.popen_error command = None ->
  shell_reply B (log w) command <> 0%Z ->
  ActionPy.run_command B command w
  = (Raise (RuntimeError ("Command execution failed: " +++
              ActionPy.called_process_error_str B command
                (shell_reply B (log w) command))),
     extend [SubprocessRun command] w).
Proof.
  intros Ht H. unfold ActionPy.run_command. rewrite Ht.
  now destruct (Z.eqb_spec (shell_reply B (log w) command) 0).
Qed.

Lemma run_command_refused (command : pyval) (msg : string) (w : world) :
  ActionPy.popen_error command = Some msg ->
  ActionPy.run_command B command w = (Raise (TypeError msg), w).
Proof. intros Ht. unfold ActionPy.run_command. now rewrite Ht. Qed.

Lemma run_commands_ok (commands : list pyval) (w : world) :
  (forall q, In q commands -> ActionPy.popen_error q = None) ->
  (forall l q, In q commands -> shell_reply B l q = 0%Z) ->
  for_each commands (fun command _ => ActionPy.run_command B command) tt w
  = (Ok tt, extend (map SubprocessRun commands) w).
Proof.
  revert w. induction commands as [|q commands IH]; intros w Ht H.
  - cbn. now rewrite extend_nil.
  - cbn [for_each map]. unfold bind.
    rewrite run_command_ok by (try apply Ht; try apply H; now left).
    rewrite IH by (intros; try apply Ht; try apply H; now right).
    now rewrite extend_extend.
Qed.

Lemma commands_run_map (commands : list pyval) :
  commands_run (map SubprocessRun commands) = commands.
Proof.
  unfold commands_run. induction commands as [|q commands IH]; [reflexivity|].
  cbn. now rewrite IH.
Qed.

Lemma execute_command_list (commands : list pyval) (w : world) :
  ActionPy.handler_execute B (ActionPy.CommandAction (PList commands)) w
  = for_each commands (fun command _ => ActionPy.run_command B command) tt w.
Proof. reflexivity. Qed.

End CommandFacts.

(** X17.  A command action runs its commands in the order of the list.
    A command is a text (or a list of texts, or a table): when all exit
    with status 0 the action returns, having run each once.  At the first
    command that exits with another status it raises [RuntimeError] with
    the text of the failure after "Command execution failed: "; at the
    first command that is an int, a bool, [None] or a list with such an
    item it raises [TypeError] without running that command.  In both
    cases the commands after it are not run. *)
Theorem commands_run_until_failure (B : boundary) (done rest : list pyval) (w : world) :
  let out := ActionPy.handler_execute B (ActionPy.CommandAction (PList (done ++ rest))) w in
  let before := log w ++ map SubprocessRun done in
  (forall q, In q done -> ActionPy.popen_error q = None) ->
  (forall l q, In q done -> shell_reply B l q = 0%Z) ->
  (rest = [] ->
     fst out = Ok tt /\ commands_run (since w (snd out)) = done)
  /\ (forall command later,
         rest = command :: later ->
         ActionPy.popen_error command = None ->
         shell_reply B before command <> 0%Z ->
         fst out = Raise (RuntimeError ("Command execution failed: " +++
                            ActionPy.called_process_error_str B command
                              (shell_reply B before command)))
         /\ commands_run (since w (snd out)) = done ++ [command])
  /\ (forall command later msg,
         rest = command :: later ->
         ActionPy.popen_error command = Some msg ->
         fst out = Raise (TypeError msg)
         /\ commands_run (since w (snd out)) = done).
Proof.
  cbv zeta. intros Htext Hdone. rewrite !execute_command_list.
  split; [|split].
  - intros ->. rewrite app_nil_r. rewrite (run_commands_ok B done w Htext Hdone).
    cbn [fst snd]. rewrite since_extend. split; [reflexivity | apply commands_run_map].
  - intros command later -> Ht Hfail.
    rewrite for_each_app. unfold bind. rewrite (run_commands_ok B done w Htext Hdone).
    cbn [for_each]. unfold bind.
    rewrite (run_command_fails B command (extend (map SubprocessRun done) w) Ht Hfail).
    split; [reflexivity|].
    cbn [snd]. rewrite extend_extend, since_extend.
    unfold commands_run. rewrite flat_map_app.
    fold (commands_run (map SubprocessRun done)). now rewrite commands_run_map.
  - intros command later msg -> Ht.
    rewrite for_each_app. unfold bind. rewrite (run_commands_ok B done w Htext Hdone).
    cbn [for_each]. unfold bind.
    rewrite (run_command_refused B command msg _ Ht).
    split; [reflexivity|].
    cbn [snd]. rewrite since_extend. apply commands_run_map.
Qed.

(** Three commands of which the second is killed by signal 9, and three
    of which the second is a number. *)
Lemma commands_run_until_failure_witness :
  let B := Fixture.make Fixture.p4_ok Fixture.no_files Fixture2.shell_kill in
  let killed := ActionPy.handler_execute B
               (ActionPy.CommandAction
                  (PList [PStr "make all"; PStr "kill -9 $$"; PStr "make install"]))
               Fixture.w0 in
  let number := ActionPy.handler_execute B
               (ActionPy.CommandAction
                  (PList [PStr "make all"; PInt 1; PStr "make install"]))
               Fixture.w0 in
  (fst killed = Raise (RuntimeError
     "Command execution failed: Command 'kill -9 $$' died with <Signals.SIGKILL: 9>.")
   /\ commands_run (since Fixture.w0 (snd killed)) = [PStr "make all"; PStr "kill -9 $$"])
  /\ (fst number = Raise (TypeError "'int' object is not iterable")
      /\ commands_run (since Fixture.w0 (snd number)) = [PStr "make all"]).
Proof.
  intros B killed number. split.
  - refine (proj1 (proj2 (commands_run_until_failure B [PStr "make all"]
                   [PStr "kill -9 $$"; PStr "make install"] Fixture.w0 _ _))
            (PStr "kill -9 $$") [PStr "make install"] eq_refl eq_refl _).
    + intros q [<-|[]]. reflexivity.
    + intros l q [<-|[]]. reflexivity.
    + discriminate.
  - refine (proj2 (proj2 (commands_run_until_failure B [PStr "make all"]
                   [PInt 1; PStr "make install"] Fixture.w0 _ _))
            (PInt 1) [PStr "make install"] _ eq_refl eq_refl).
    + intros q [<-|[]]. reflexivity.
    + intros l q [<-|[]]. reflexivity.
Defined.

(** X18.  A command action is constructed from any table; the commands are
    looked at only when it executes.  Without a [commands] entry the
    construction succeeds and the execution raises [TypeError] without
    running anything; with a text instead of a list, every character of
    the text is run as a command of its own. *)
Theorem command_action_edge_cases (B : boundary) (d : dict) (s : string) (w : world) :
  (lookup "commands" d = None ->
     ActionPy.CommandAction_init (PDict d) w = (Ok (ActionPy.CommandAction PNone), w)
     /\ exists msg,
         ActionPy.handler_execute B (ActionPy.CommandAction PNone) w
         = (Raise (TypeError msg), w))
  /\ ((forall l q, shell_reply B l q = 0%Z) ->
      commands_run
        (since w (snd (ActionPy.handler_execute B (ActionPy.CommandAction (PStr s)) w)))
      = map (fun ch => PStr (String ch EmptyString)) (list_ascii_of_string s)).
Proof.
  split.
  - intros H. split.
    + unfold ActionPy.CommandAction_init, as_dict, bind, ret, get. now rewrite H.
    + eexists. reflexivity.
  - intros Hok. unfold ActionPy.handler_execute, py_iter, bind, ret.
    rewrite (run_commands_ok B _ w); [|now intros q [ch [<- _]]%in_map_iff
                                       |exact (fun l q _ => Hok l q)].
    cbn [snd]. rewrite since_extend. apply commands_run_map.
Qed.

Lemma command_action_edge_cases_witness :
  (ActionPy.CommandAction_init (PDict [("shell", PStr "bash")]) Fixture.w0
   = (Ok (ActionPy.CommandAction PNone), Fixture.w0)
   /\ exists msg,
       ActionPy.handler_execute Fixture2.plain_boundary (ActionPy.CommandAction PNone)
         Fixture.w0
       = (Raise (TypeError msg), Fixture.w0))
  /\ commands_run
       (since Fixture.w0
          (snd (ActionPy.handler_execute Fixture2.plain_boundary
                  (ActionPy.CommandAction (PStr "ls")) Fixture.w0)))
     = [PStr "l"; PStr "s"].
Proof.
  split.
  - apply (proj1 (command_action_edge_cases Fixture2.plain_boundary
                    [("shell", PStr "bash")] "ls" Fixture.w0)).
    reflexivity.
  - apply (proj2 (command_action_edge_cases Fixture2.plain_boundary [] "ls" Fixture.w0)).
    intros l q. reflexivity.
Defined.

(** ** What executing and constructing handlers adds to the log *)

Section HandlerLog.

Variable B : boundary.
Variable the_config : ConfigPy.Config.

Lemma setup_is_quiet (e : event) : is_setup e = true -> quiet e.
Proof. destruct e; try discriminate; now split. Qed.

Lemma command_is_quiet (cmd : string) (e : event) : runs_command cmd e = true -> quiet e.
Proof. destruct e; try discriminate; now split. Qed.

Lemma handler_execute_quiet (h : ActionPy.handler) :
  emits quiet (ActionPy.handler_execute B h).
Proof.
  destruct h as [scm revision|scm message|commands]; cbn [ActionPy.handler_execute].
  - apply emits_bind.
    + apply in_client_emits; [apply setup_is_quiet|].
      apply checkout_body_emits; [apply command_is_quiet | now split].
    + intros _. unfold ActionPy.BaseSCMAction_execute, ScmPy.cleanup,
        PerforcePy.cleanup, PerforcePy.run_logout, PerforcePy.p4_disconnect.
      repeat emits_step; now split.
  - apply emits_bind.
    + unfold ScmPy.upload, PerforcePy.upload.
      apply in_client_emits; [apply setup_is_quiet|].
      unfold PerforcePy.upload_body. cbn [for_each]. repeat emits_step. now split.
    + intros _. unfold ActionPy.BaseSCMAction_execute, ScmPy.cleanup,
        PerforcePy.cleanup, PerforcePy.run_logout, PerforcePy.p4_disconnect.
      repeat emits_step; now split.
  - apply emits_bind.
    + apply emits_silent. intros w. now destruct commands.
    + intros l. apply emits_for_each. intros command _ w.
      unfold ActionPy.run_command.
      destruct (ActionPy.popen_error command).
      * exists []. split; [now rewrite app_nil_r | constructor].
      * exists [SubprocessRun command]. split; [|repeat constructor].
        now destruct (Z.eqb _ 0).
Qed.

Lemma quiet_no_stdout (l : list event) : Forall quiet l -> filter is_stdout l = [].
Proof.
  intros F. induction F as [|e l [He _] _ IH]; [reflexivity|].
  cbn. now rewrite He.
Qed.

(** What [Action.execute] adds to the log. *)
Lemma execute_log (a : ActionPy.Action) (w : world) :
  let w1 := record (Stdout (started_line B a)) w in
  exists mid,
    Forall quiet mid
    /\ log (snd (ActionPy.handler_execute B (ActionPy.action a) w1)) = log w1 ++ mid
    /\ ActionPy.execute B a w
       = match ActionPy.handler_execute B (ActionPy.action a) w1 with
         | (Ok _, w2) => (Ok tt, record (Stdout (completed_line B a)) w2)
         | (Raise e, w2) => (Raise e, w2)
         end.
Proof.
  cbv zeta.
  destruct (handler_execute_quiet (ActionPy.action a)
              (record (Stdout (started_line B a)) w)) as (mid & E & F).
  exists mid. split; [exact F|]. split; [exact E|].
  unfold ActionPy.execute, print, emit, bind. cbn [fst snd].
  fold (started_line B a). fold (completed_line B a).
  now destruct (ActionPy.handler_execute B (ActionPy.action a) _) as [[[]|e] w2].
Qed.

End HandlerLog.

(** X19.  [Action.execute] prints the "Started" line first; the handler
    prints nothing; the "completed" line is printed last when the handler
    returns and not at all when it raises, in which case the exception of
    the handler is raised. *)
Theorem execute_brackets_handler (B : boundary) (a : ActionPy.Action) (w : world) :
  let out := ActionPy.execute B a w in
  let inner :=
    ActionPy.handler_execute B (ActionPy.action a)
      (record (Stdout (started_line B a)) w) in
  exists mid,
    filter is_stdout mid = []
    /\ match fst inner with
       | Ok _ =>
           fst out = Ok tt
           /\ since w (snd out)
              = Stdout (started_line B a) :: mid ++ [Stdout (completed_line B a)]
       | Raise e =>
           fst out = Raise e
           /\ since w (snd out) = Stdout (started_line B a) :: mid
       end.
Proof.
  cbv zeta. destruct (execute_log B a w) as (mid & F & E & Hex).
  exists mid. split; [now apply quiet_no_stdout|].
  rewrite Hex.
  destruct (ActionPy.handler_execute B (ActionPy.action a) _) as [[[]|e] w2];
    cbn [fst snd] in *; (split; [reflexivity|]); apply since_extends;
    rewrite ?log_record, E, ?log_record; rewrite <- ?app_assoc; reflexivity.
Qed.

Section RunLog.

Variable B : boundary.

(** The lines a run of the actions prints when none fails. *)
Lemma run_prints (l : list ActionPy.Action) (w w' : world) :
  EnginePy.run_actions B l w = (Ok tt, w') ->
  exists events,
    log w' = log w ++ events
    /\ filter is_stdout events
       = flat_map (fun a => [Stdout (started_line B a); Stdout (completed_line B a)]) l.
Proof.
  revert w. induction l as [|a l IH]; intros w.
  - cbn. intros H. injection H as <-. exists []. now rewrite app_nil_r.
  - unfold EnginePy.run_actions. cbn [for_each]. unfold bind.
    destruct (execute_log B a w) as (mid & F & E & Hex). rewrite Hex.
    destruct (ActionPy.handler_execute B (ActionPy.action a) _) as [[[]|e] w2];
      [|discriminate].
    cbn [snd] in E. intros Hrest.
    destruct (IH _ Hrest) as (events & E' & Hf).
    exists ([Stdout (started_line B a)] ++ mid ++ [Stdout (completed_line B a)] ++ events).
    split.
    + rewrite E', log_record, E, log_record. now rewrite <- !app_assoc.
    + rewrite !filter_app, Hf, (quiet_no_stdout mid F). reflexivity.
Qed.

End RunLog.

(** X20.  When [run] returns, the printed lines are, for each action in
    the order of the pipeline, its "Started" line followed by its
    "completed" line: every action has run, one after the other. *)
Theorem run_prints_every_action (B : boundary) (l : list ActionPy.Action)
    (w w' : world) :
  EnginePy.run_actions B l w = (Ok tt, w') ->
  filter is_stdout (since w w')
  = flat_map (fun a => [Stdout (started_line B a); Stdout (completed_line B a)]) l.
Proof.
  intros H. destruct (run_prints B l w w' H) as (events & E & Hf).
  now rewrite (since_extends _ _ _ E).
Qed.

Lemma run_prints_every_action_witness :
  filter is_stdout
    (since Fixture.w0
       (snd (EnginePy.run_actions Fixture2.plain_boundary
               [Fixture.action_build; Fixture.action_after] Fixture.w0)))
  = [Stdout "Started action 'build'."; Stdout "Action 'build' completed successfully.";
     Stdout "Started action 'install'.";
     Stdout "Action 'install' completed successfully."].
Proof.
  apply (run_prints_every_action Fixture2.plain_boundary
           [Fixture.action_build; Fixture.action_after] Fixture.w0).
  reflexivity.
Defined.

(** ** Constructing handlers: errors *)

(** X21.  A checkout or upload action needs an scm: without [scm_name]
    (or with an empty one) the construction raises [ValueError]; with a
    name that the pipeline does not define it raises [KeyError] with the
    text "Unknown SCM config" and the name.  Nothing is done in either
    case. *)
Theorem scm_action_needs_known_scm (B : boundary) (the_config : ConfigPy.Config)
    (scms d : dict) (w : world) :
  (truthy (get "scm_name" PNone d) = false ->
     ActionPy.BaseSCMAction_init B the_config scms (PDict d) w
     = (Raise (ValueError "scm_name is required for SCM Action"), w))
  /\ (forall name,
         get "scm_name" PNone d = PStr name -> name <> EmptyString ->
         lookup name scms = None ->
         ActionPy.BaseSCMAction_init B the_config scms (PDict d) w
         = (Raise (KeyError (PStr ("Unknown SCM config " +++ dq +++
                                   py_repr B (PStr name) +++ dq +++ "."))), w)).
Proof.
  unfold ActionPy.BaseSCMAction_init, as_dict, bind, ret. split.
  - intros ->. reflexivity.
  - intros name -> Hne Hnone. cbn [truthy].
    destruct (String.eqb_spec name EmptyString) as [->|_]; [contradiction|].
    cbn [negb]. unfold try_except, index_key, bind. now rewrite Hnone.
Qed.

Lemma scm_action_needs_known_scm_witness :
  ActionPy.BaseSCMAction_init Fixture2.plain_boundary Fixture.the_config
    [("main", Fixture.scm_main)] (PDict [("revision", PStr "1234")]) Fixture.w0
  = (Raise (ValueError "scm_name is required for SCM Action"), Fixture.w0)
  /\ ActionPy.BaseSCMAction_init Fixture2.plain_boundary Fixture.the_config
       [("main", Fixture.scm_main)] (PDict [("scm_name", PStr "mian")]) Fixture.w0
     = (Raise (KeyError (PStr ("Unknown SCM config " +++ dq +++ "'mian'" +++ dq +++ "."))),
        Fixture.w0).
Proof.
  split.
  - apply (proj1 (scm_action_needs_known_scm Fixture2.plain_boundary Fixture.the_config
                    [("main", Fixture.scm_main)] [("revision", PStr "1234")]
                    Fixture.w0)).
    reflexivity.
  - apply (proj2 (scm_action_needs_known_scm Fixture2.plain_boundary Fixture.the_config
                    [("main", Fixture.scm_main)] [("scm_name", PStr "mian")]
                    Fixture.w0) "mian" eq_refl).
    + discriminate.
    + reflexivity.
Defined.

(** X22.  An scm table of type [perforce] that lacks [depot_name],
    [stream_name] or [client_root] makes the construction of the action
    raise [KeyError]; as the lookup of the scm and its construction share
    one [try], the error reads "Unknown SCM config" around the text about
    the missing option.  No connection object has been made. *)
Theorem missing_option_reported_as_unknown_scm (B : boundary)
    (the_config : ConfigPy.Config) (scms d scm_config : dict)
    (name option : string) (w : world) :
  get "scm_name" PNone d = PStr name -> name <> EmptyString ->
  lookup name scms = Some (PDict scm_config) ->
  eq_str (get "type" PNone scm_config) "perforce" = true ->
  first_missing_option (remove "type" scm_config) = Some option ->
  ActionPy.BaseSCMAction_init B the_config scms (PDict d) w
  = (Raise (KeyError
              (PStr ("Unknown SCM config " +++ dq +++
                     py_repr B (PStr ("Option " +++ py_repr B (PStr option) +++
                                      " is missing from scm configuration")) +++
                     dq +++ "."))), w).
Proof.
  intros Hname Hne Hscm Htype Hmiss.
  unfold ActionPy.BaseSCMAction_init, as_dict, bind, ret. rewrite Hname.
  cbn [truthy]. destruct (String.eqb_spec name EmptyString) as [->|_]; [contradiction|].
  cbn [negb]. unfold try_except at 1. unfold index_key, bind. rewrite Hscm.
  unfold ScmPy.SCM_init, as_dict, bind, ret. rewrite Htype.
  unfold PerforcePy.PerforceSCM_init, bind. unfold try_except, index, index_key, bind.
  unfold first_missing_option in Hmiss.
  destruct (lookup "depot_name" (remove "type" scm_config));
    [|injection Hmiss as <-; reflexivity].
  unfold ret at 1.
  destruct (lookup "stream_name" (remove "type" scm_config));
    [|injection Hmiss as <-; reflexivity].
  unfold ret at 1.
  destruct (lookup "client_root" (remove "type" scm_config));
    [discriminate | injection Hmiss as <-; reflexivity].
Qed.

Lemma missing_option_reported_as_unknown_scm_witness :
  ActionPy.BaseSCMAction_init Fixture2.plain_boundary Fixture.the_config
    [("main", PDict [("type", PStr "perforce"); ("depot_name", PStr "depot");
                     ("client_root", PStr "/ws")])]
    (PDict [("scm_name", PStr "main")]) Fixture.w0
  = (Raise (KeyError
              (PStr ("Unknown SCM config " +++ dq +++
                     "'Option 'stream_name' is missing from scm configuration'" +++
                     dq +++ "."))), Fixture.w0).
Proof.
  apply (missing_option_reported_as_unknown_scm Fixture2.plain_boundary
           Fixture.the_config
           [("main", PDict [("type", PStr "perforce"); ("depot_name", PStr "depot");
                            ("client_root", PStr "/ws")])]
           [("scm_name", PStr "main")]
           [("type", PStr "perforce"); ("depot_name", PStr "depot");
            ("client_root", PStr "/ws")]
           "main" "stream_name" Fixture.w0 eq_refl);
    try reflexivity.
  discriminate.
Defined.

(** X23.  An scm table whose [type] is absent or is not [perforce] makes
    the construction of the action raise [ValueError] ("Invalid
    scm_type"), which the [try] around it lets through. *)
Theorem invalid_scm_type (B : boundary) (the_config : ConfigPy.Config)
    (scms d scm_config : dict) (name : string) (w : world) :
  get "scm_name" PNone d = PStr name -> name <> EmptyString ->
  lookup name scms = Some (PDict scm_config) ->
  eq_str (get "type" PNone scm_config) "perforce" = false ->
  ActionPy.BaseSCMAction_init B the_config scms (PDict d) w
  = (Raise (ValueError ("Invalid scm_type: " +++
                        py_str B (get "type" PNone scm_config))), w).
Proof.
  intros Hname Hne Hscm Htype.
  unfold ActionPy.BaseSCMAction_init, as_dict, bind, ret. rewrite Hname.
  cbn [truthy]. destruct (String.eqb_spec name EmptyString) as [->|_]; [contradiction|].
  cbn [negb]. unfold try_except. unfold index_key, bind. rewrite Hscm.
  unfold ScmPy.SCM_init, as_dict, bind, ret. now rewrite Htype.
Qed.

Lemma invalid_scm_type_witness :
  ActionPy.BaseSCMAction_init Fixture2.plain_boundary Fixture.the_config
    [("main", PDict [("type", PStr "git"); ("depot_name", PStr "depot")])]
    (PDict [("scm_name", PStr "main")]) Fixture.w0
  = (Raise (ValueError "Invalid scm_type: git"), Fixture.w0).
Proof.
  apply (invalid_scm_type Fixture2.plain_boundary Fixture.the_config
           [("main", PDict [("type", PStr "git"); ("depot_name", PStr "depot")])]
           [("scm_name", PStr "main")]
           [("type", PStr "git"); ("depot_name", PStr "depot")]
           "main" Fixture.w0 eq_refl);
    try reflexivity.
  discriminate.
Defined.

(** X24.  Among the entries of an action's table, the first that names a
    kind decides the handler: the entries before it are skipped, the
    entries after it, also those that name another kind, are ignored. *)
Theorem first_kind_decides (B : boundary) (the_config : ConfigPy.Config)
    (scms skipped rest : dict) (key : string) (value : pyval) (w : world) :
  forallb (fun kv => negb (names_kind (fst kv))) skipped = true ->
  names_kind key = true ->
  ActionPy.construct B the_config scms (skipped ++ (key, value) :: rest) w
  = ActionPy.construct B the_config scms [(key, value)] w.
Proof.
  intros Hskip Hkind.
  induction skipped as [|[k v] skipped IH].
  - cbn [app ActionPy.construct]. unfold names_kind in Hkind.
    destruct (String.eqb key "checkout"); [reflexivity|].
    destruct (String.eqb key "command"); [reflexivity|].
    destruct (String.eqb key "upload"); [reflexivity | discriminate].
  - cbn [forallb fst] in Hskip. apply andb_true_iff in Hskip as [Hk Hrest].
    unfold names_kind in Hk. apply negb_true_iff in Hk.
    apply orb_false_iff in Hk as [Hk Hu]. apply orb_false_iff in Hk as [Hc Hm].
    cbn [app ActionPy.construct]. rewrite Hc, Hm, Hu. now apply IH.
Qed.

Lemma first_kind_decides_witness :
  ActionPy.construct Fixture2.plain_boundary Fixture.the_config []
    [("timeout", PInt 30); ("command", PDict [("commands", PList [PStr "make"])]);
     ("checkout", PDict [("scm_name", PStr "main")])] Fixture.w0
  = (Ok (Some (ActionPy.CommandAction (PList [PStr "make"]))), Fixture.w0).
Proof.
  refine (eq_trans
            (first_kind_decides Fixture2.plain_boundary Fixture.the_config []
               [("timeout", PInt 30)] [("checkout", PDict [("scm_name", PStr "main")])]
               "command" (PDict [("commands", PList [PStr "make"])]) Fixture.w0
               eq_refl eq_refl) _).
  reflexivity.
Defined.

(** X25.  A pipeline without an [scms] table cannot be loaded, whatever
    its actions are: the default used for the missing table is a list,
    which has no [items], and [load_pipeline] raises [AttributeError]
    before it looks at the actions. *)
Theorem pipeline_without_scms (B : boundary) (the_config : ConfigPy.Config)
    (pipeline_config : dict) (w : world) :
  match get "pipeline" (PDict []) pipeline_config with
  | PDict p => lookup "scms" p = None
  | _ => False
  end ->
  EnginePy.load_pipeline B the_config pipeline_config w
  = (Raise (AttributeError "'list' object has no attribute 'items'"), w).
Proof.
  intros H. unfold EnginePy.load_pipeline, bind.
  destruct (get "pipeline" (PDict []) pipeline_config); try contradiction.
  cbn [as_dict ret]. unfold get. now rewrite H.
Qed.

Lemma pipeline_without_scms_witness :
  EnginePy.load_pipeline Fixture2.plain_boundary Fixture.the_config
    [("pipeline",
      PDict [("actions",
              PList [PDict [("name", PStr "build");
                            ("command", PDict [("commands", PList [PStr "make"])])]])])]
    Fixture.w0
  = (Raise (AttributeError "'list' object has no attribute 'items'"), Fixture.w0).
Proof.
  apply (pipeline_without_scms Fixture2.plain_boundary Fixture.the_config).
  reflexivity.
Defined.

(** ** Loading the pipeline *)

Section ConstructionLog.

Variable B : boundary.
Variable the_config : ConfigPy.Config.

Let P (e : event) : Prop := is_vault_read e = true.

Lemma emits_as_dict (Q : event -> Prop) (v : pyval) (attr : string) :
  emits Q (as_dict v attr).
Proof. destruct v; (apply emits_ret || apply emits_raise). Qed.

Lemma emits_index_key (Q : event -> Prop) (k : pyval) (d : dict) :
  emits Q (index_key k d).
Proof.
  destruct k; cbn; try apply emits_raise.
  destruct (lookup s d); [apply emits_ret | apply emits_raise].
Qed.

Lemma emits_get_key (Q : event -> Prop) (k default : pyval) (d : dict) :
  emits Q (get_key k default d).
Proof. destruct k; (apply emits_ret || apply emits_raise). Qed.

Lemma emits_py_iter (Q : event -> Prop) (v : pyval) : emits Q (py_iter v).
Proof. destruct v; (apply emits_ret || apply emits_raise). Qed.

Lemma read_secret_emits (address : string) :
  emits P (ConfigPy._read_secret_from_vault B the_config address).
Proof.
  unfold ConfigPy._read_secret_from_vault, ConfigPy.get_main_config, index.
  apply emits_bind;
    [apply emits_bind; [apply emits_index_key | intros; apply emits_as_dict]|].
  intros m1. apply emits_bind;
    [apply emits_bind; [apply emits_index_key | intros; apply emits_as_dict]|].
  intros m2.
  destruct (negb (truthy (get "vault_address" PNone m1))); [apply emits_raise|].
  destruct (negb (truthy (get "vault_token" PNone m2))); [apply emits_raise|].
  destruct (Nat.ltb 1 (length (split "#" address))); [|apply emits_raise].
  destruct (nth 1 (split "#" address) EmptyString); [apply emits_raise|].
  destruct (String.eqb _ EmptyString); [apply emits_raise|].
  unfold ConfigPy.lookup_secret. apply emits_try_except.
  - apply emits_bind.
    + intros w. eexists [VaultRead _ _]. split; [|repeat constructor].
      unfold ConfigPy.read_secret_version. now destruct (vault_reply B _ _ _).
    + intros data. destruct (negb (truthy data)); [apply emits_raise|].
      apply emits_bind; [apply emits_as_dict|]. intros d.
      destruct (negb (truthy _)); [apply emits_raise | apply emits_ret].
  - intros e h Eh. injection Eh as <-. apply emits_raise.
Qed.

Lemma connection_config_emits (name : pyval) :
  emits P (ConfigPy.get_connection_config B the_config name).
Proof.
  unfold ConfigPy.get_connection_config, ConfigPy._get_config_section.
  apply emits_bind; [apply emits_as_dict|]. intros s.
  apply emits_bind; [apply emits_get_key|]. intros section.
  destruct (negb (truthy section)); [apply emits_raise|].
  unfold ConfigPy.retrieve_secrets_from_vault.
  apply emits_bind; [apply emits_as_dict|]. intros d.
  apply emits_bind; [|intros; apply emits_ret].
  apply emits_for_each. intros [key value] acc. unfold ConfigPy.resolve_item.
  destruct value; try apply emits_ret.
  destruct (startswith "vault://" s0); [|apply emits_ret].
  apply emits_bind; [apply read_secret_emits | intros; apply emits_ret].
Qed.

Lemma scm_init_emits (scm_config : pyval) :
  emits P (ScmPy.SCM_init B the_config scm_config).
Proof.
  unfold ScmPy.SCM_init.
  apply emits_bind; [apply emits_as_dict|]. intros d.
  destruct (eq_str _ "perforce"); [|apply emits_raise].
  apply emits_bind; [|intros; apply emits_ret].
  unfold PerforcePy.PerforceSCM_init, index.
  apply emits_bind.
  - apply emits_try_except.
    + apply emits_bind; [apply emits_index_key|]. intros depot.
      apply emits_bind; [apply emits_index_key|]. intros stream.
      apply emits_bind; [apply emits_index_key|]. intros root.
      destruct root; try apply emits_raise. repeat emits_step.
    + intros e h Eh. destruct e; try discriminate. injection Eh as <-.
      apply emits_raise.
  - intros [[depot stream] root].
    apply emits_bind; [apply emits_index_key|]. intros name.
    apply emits_bind; [|intros; apply emits_ret].
    unfold PerforcePy.PerforceConnection_init, PerforcePy.new_conn, index.
    apply emits_bind; [apply emits_silent; reflexivity|]. intros c.
    apply emits_bind; [apply connection_config_emits|]. intros cc.
    apply emits_bind; [apply emits_as_dict|]. intros d'.
    apply emits_bind; [apply emits_index_key|]. intros u.
    apply emits_bind; [apply emits_index_key|]. intros pw.
    apply emits_bind; [apply emits_index_key|]. intros host.
    apply emits_ret.
Qed.

Lemma base_scm_action_emits (scms : dict) (action_config : pyval) :
  emits P (ActionPy.BaseSCMAction_init B the_config scms action_config).
Proof.
  unfold ActionPy.BaseSCMAction_init.
  apply emits_bind; [apply emits_as_dict|]. intros d.
  destruct (negb (truthy _)); [apply emits_raise|].
  apply emits_try_except.
  - apply emits_bind; [apply emits_index_key | intros; apply scm_init_emits].
  - intros e h Eh. destruct e; try discriminate. injection Eh as <-.
    apply emits_raise.
Qed.

Lemma construct_emits (scms items : dict) :
  emits P (ActionPy.construct B the_config scms items).
Proof.
  induction items as [|[key value] items IH]; cbn [ActionPy.construct];
    [apply emits_ret|].
  destruct (String.eqb key "checkout").
  - unfold ActionPy.SCMCheckoutAction_init.
    apply emits_bind; [|intros; apply emits_ret].
    apply emits_bind; [apply base_scm_action_emits | intros; apply emits_ret].
  - destruct (String.eqb key "command").
    + unfold ActionPy.CommandAction_init.
      apply emits_bind; [|intros; apply emits_ret].
      apply emits_bind; [apply emits_as_dict | intros; apply emits_ret].
    + destruct (String.eqb key "upload"); [|exact IH].
      unfold ActionPy.SCMUploadAction_init.
      apply emits_bind; [|intros; apply emits_ret].
      apply emits_bind; [apply base_scm_action_emits|]. intros s.
      apply emits_bind; [apply emits_as_dict | intros; apply emits_ret].
Qed.

Lemma action_init_emits (scms : dict) (action_config : pyval) :
  emits P (ActionPy.Action_init B the_config scms action_config).
Proof.
  unfold ActionPy.Action_init, index.
  apply emits_bind; [apply emits_as_dict|]. intros d.
  apply emits_bind; [apply emits_index_key|]. intros name.
  apply emits_bind; [apply construct_emits|]. intros [h|];
    [apply emits_ret | apply emits_raise].
Qed.

Lemma load_pipeline_emits (pipeline_config : dict) :
  emits P (EnginePy.load_pipeline B the_config pipeline_config).
Proof.
  unfold EnginePy.load_pipeline.
  apply emits_bind; [apply emits_as_dict|]. intros p.
  apply emits_bind; [apply emits_as_dict|]. intros scms_configs.
  apply emits_bind.
  { apply emits_for_each. intros [n cfg] acc. unfold EnginePy.add_scm.
    destruct (lookup n acc); [apply emits_raise | apply emits_ret]. }
  intros scms.
  apply emits_bind; [apply emits_as_dict|]. intros p'.
  apply emits_bind; [apply emits_py_iter|]. intros actions_configs.
  apply emits_bind; [|intros; apply emits_ret].
  apply emits_for_each. intros cfg acc.
  apply emits_bind; [apply action_init_emits | intros; apply emits_ret].
Qed.

End ConstructionLog.

(** X26.  Loading the pipeline constructs every handler without touching
    the depot, the file system or the shell and without printing: the
    only thing it does outside the process is to read the secret store.
    When loading fails, the script fails with the same error in the same
    state: no action has started. *)
Theorem construction_precedes_execution (B : boundary) (the_config : ConfigPy.Config)
    (pipeline_config : dict) (w : world) :
  forallb is_vault_read
    (since w (snd (EnginePy.load_pipeline B the_config pipeline_config w))) = true
  /\ (forall e w',
         EnginePy.load_pipeline B the_config pipeline_config w = (Raise e, w') ->
         EnginePy.main B the_config pipeline_config w = (Raise e, w')).
Proof.
  split.
  - destruct (load_pipeline_emits B the_config pipeline_config w) as (l & E & F).
    rewrite (since_extends _ _ _ E).
    apply forallb_forall. intros e He.
    rewrite Forall_forall in F. now apply F.
  - intros e w' H. unfold EnginePy.main. now apply bind_raises.
Qed.

Lemma construction_precedes_execution_witness :
  since Fixture.w0
    (snd (EnginePy.load_pipeline Fixture2.plain_boundary Fixture.the_config
            Fixture.pipeline_checkout Fixture.w0))
  = [VaultRead "kv" (Some "app/db")]
  /\ EnginePy.main Fixture2.plain_boundary Fixture.the_config
       Fixture.pipeline_unknown_kind Fixture.w0
     = (Raise (AttributeError "'Action' object has no attribute 'action'"), Fixture.w0).
Proof.
  split; [reflexivity|].
  apply (proj2 (construction_precedes_execution Fixture2.plain_boundary
                  Fixture.the_config Fixture.pipeline_unknown_kind Fixture.w0)).
  reflexivity.
Defined.

Section LoadFacts.

Variable B : boundary.
Variable the_config : ConfigPy.Config.

Lemma set_fresh (k : string) (v : pyval) (d : dict) :
  lookup k d = None -> set k v d = d ++ [(k, v)].
Proof.
  induction d as [|[k0 v0] d IH]; cbn; [reflexivity|].
  destruct (String.eqb k0 k); [discriminate|].
  intros H. now rewrite IH.
Qed.

Lemma lookup_app_fresh (k k' : string) (v : pyval) (d : dict) :
  lookup k' d = None -> k <> k' -> lookup k' (d ++ [(k, v)]) = None.
Proof.
  intros Hd Hne. induction d as [|[k0 v0] d IH]; cbn in *.
  - destruct (String.eqb_spec k k'); [contradiction | reflexivity].
  - destruct (String.eqb k0 k'); [discriminate | now apply IH].
Qed.

Lemma in_lookup (k : string) (v : pyval) (d : dict) :
  In (k, v) d -> lookup k d <> None.
Proof.
  induction d as [|[k0 v0] d IH]; [intros []|].
  cbn. intros [H|H].
  - injection H as -> ->. now rewrite String.eqb_refl.
  - destruct (String.eqb k0 k); [discriminate | now apply IH].
Qed.

(** The loop that fills [self.scms], on a table. *)
Lemma add_scms_ok (items acc : dict) (w : world) :
  unique_keys items = true ->
  (forall k v, In (k, v) items -> lookup k acc = None) ->
  for_each items EnginePy.add_scm acc w = (Ok (acc ++ items), w).
Proof.
  revert acc. induction items as [|[k v] items IH]; intros acc Hu Hfresh.
  - cbn. now rewrite app_nil_r.
  - cbn [for_each]. unfold bind, EnginePy.add_scm.
    rewrite (Hfresh k v (or_introl eq_refl)). unfold ret.
    cbn [unique_keys] in Hu.
    destruct (lookup k items) eqn:Ek; [discriminate|].
    rewrite (set_fresh k v acc (Hfresh k v (or_introl eq_refl))).
    rewrite IH.
    + now rewrite <- app_assoc.
    + exact Hu.
    + intros k' v' Hin. apply lookup_app_fresh.
      * apply (Hfresh k' v'). now right.
      * intros ->. now apply (in_lookup k' v' items Hin).
Qed.

Lemma action_init_from (scms : dict) (action_config : pyval) (a : ActionPy.Action)
    (w w' : world) :
  ActionPy.Action_init B the_config scms action_config w = (Ok a, w') ->
  constructed_from action_config a.
Proof.
  unfold ActionPy.Action_init, as_dict, index, index_key, bind, ret.
  destruct action_config; try discriminate.
  destruct (lookup "name" d) as [action_name|] eqn:En; [|discriminate].
  destruct (ActionPy.construct B the_config scms _ w) as [[[h|]|e] w1];
    try discriminate.
  intros H. injection H as <- _. exists d. now split.
Qed.

(** The loop that fills [self.actions]. *)
Lemma actions_loop (scms : dict) (cfgs : list pyval) (acc acc' : list ActionPy.Action)
    (w w' : world) :
  for_each cfgs
    (fun action_config acc =>
       a <- ActionPy.Action_init B the_config scms action_config ;; ret (acc ++ [a]))
    acc w = (Ok acc', w') ->
  exists new, acc' = acc ++ new /\ Forall2 constructed_from cfgs new.
Proof.
  revert acc w. induction cfgs as [|cfg cfgs IH]; intros acc w.
  - cbn. intros H. injection H as <- _. exists []. now rewrite app_nil_r.
  - cbn [for_each]. unfold bind at 1 2.
    destruct (ActionPy.Action_init B the_config scms cfg w) as [[a|e] w1] eqn:Ea;
      [|discriminate].
    unfold ret at 1. intros H.
    destruct (IH _ _ H) as (new & -> & F).
    exists (a :: new). split; [now rewrite <- app_assoc|].
    constructor; [|exact F]. now apply (action_init_from scms cfg a w w1).
Qed.

End LoadFacts.

(** X27.  A pipeline that loads is loaded as written: [scms] holds the
    entries of the [scms] table, and [actions] holds one action for each
    table of the [actions] list, in that order, each with the name of its
    table. *)
Theorem pipeline_loaded_in_order (B : boundary) (the_config : ConfigPy.Config)
    (pipeline_config p scms_table : dict) (actions_list : list pyval)
    (build : EnginePy.Build) (w w' : world) :
  get "pipeline" (PDict []) pipeline_config = PDict p ->
  get "scms" (PList []) p = PDict scms_table ->
  unique_keys scms_table = true ->
  get "actions" (PList []) p = PList actions_list ->
  EnginePy.load_pipeline B the_config pipeline_config w = (Ok build, w') ->
  EnginePy.scms build = scms_table
  /\ Forall2 constructed_from actions_list (EnginePy.actions build).
Proof.
  intros Hp Hs Hu Ha.
  unfold EnginePy.load_pipeline. unfold bind at 1. rewrite Hp. cbn [as_dict ret].
  unfold bind at 1. rewrite Hs. cbn [as_dict ret].
  unfold bind at 1. rewrite (add_scms_ok scms_table [] w Hu) by (intros; reflexivity).
  cbn [app]. unfold bind at 1. cbn [as_dict ret].
  unfold bind at 1. rewrite Ha. cbn [py_iter ret].
  unfold bind at 1.
  destruct (for_each actions_list _ [] w) as [[acts|e] w1] eqn:El; [|discriminate].
  unfold ret. intros H. injection H as <- _. cbn [EnginePy.scms EnginePy.actions].
  split; [reflexivity|].
  destruct (actions_loop B the_config scms_table actions_list [] acts w w1 El)
    as (new & -> & F).
  exact F.
Qed.

Lemma pipeline_loaded_in_order_witness :
  exists build,
    fst (EnginePy.load_pipeline Fixture2.plain_boundary Fixture.the_config
           Fixture.pipeline_checkout Fixture.w0) = Ok build
    /\ EnginePy.scms build = [("main", Fixture.scm_main)]
    /\ length (EnginePy.actions build) = 1.
Proof.
  exists {| EnginePy.scms := [("main", Fixture.scm_main)];
            EnginePy.actions :=
              [{| ActionPy.action := ActionPy.SCMCheckoutAction Fixture.scm_handle PNone;
                  ActionPy.name := PStr "sync" |}] |}.
  split; [reflexivity|].
  destruct (pipeline_loaded_in_order Fixture2.plain_boundary Fixture.the_config
              Fixture.pipeline_checkout
              [("scms", PDict [("main", Fixture.scm_main)]);
               ("actions",
                PList [PDict [("name", PStr "sync");
                              ("checkout", PDict [("scm_name", PStr "main");
                                                  ("revision", PStr "1234")])]])]
              [("main", Fixture.scm_main)]
              [PDict [("name", PStr "sync");
                      ("checkout", PDict [("scm_name", PStr "main");
                                          ("revision", PStr "1234")])]]
              {| EnginePy.scms := [("main", Fixture.scm_main)];
                 EnginePy.actions :=
                   [{| ActionPy.action :=
                         ActionPy.SCMCheckoutAction Fixture.scm_handle PNone;
                       ActionPy.name := PStr "sync" |}] |}
              Fixture.w0
              (snd (EnginePy.load_pipeline Fixture2.plain_boundary Fixture.the_config
                      Fixture.pipeline_checkout Fixture.w0))
              eq_refl eq_refl eq_refl eq_refl eq_refl) as [Hs Ha].
  split; [exact Hs|].
  apply Forall2_length in Ha. now rewrite <- Ha.
Defined.
